(** * EasyConduit bot: chat UI reconciliation and metrics aggregation

    A shallow embedding of [bot/main.py] and the properties of its
    message triad, command desk, lifetime counters, history buffers and
    config store.

    Conventions of the embedding.
    - A Python [str] is the list of its Unicode code points ([list N]);
      [lit] turns an ASCII literal into one, other characters are written
      as code points.
    - A Python [float] is an IEEE 754 binary64 number ([spec_float] with
      precision 53 and maximal exponent 1024): sums, differences and
      products round to nearest even, [inf] and [nan] are values, and
      [int(x)] raises on them.
    - An exception is a value of [Exn]; a function that can raise returns a
      [Result], and one that also changes the state or the world returns
      the state or world reached when it returned or raised.
    - A file that the bot reads is absent, unreadable, not decodable as
      UTF-8, or a text; writing a file succeeds.
    - The state dict is a record with one field per key the source uses; an
      [option] field is a key that may be absent, a map or list field reads
      an absent key as empty (what [setdefault] and [get(k, [])] give).
    - Per-chat dicts are keyed by [str(chat_id)] in the source and by the
      chat id itself here ([str] is injective on [int]).
    - Outbound calls, OS commands and file writes are recorded in order in
      the world's effect trace; the Telegram server is an oracle giving the
      reply to the n-th effect. *)

From Stdlib Require Import ZArith NArith Lia List String Ascii.
From Stdlib Require Import DecimalString.
From Stdlib Require Import Floats.SpecFloat.
From stdpp Require Import gmap list.

Local Open Scope Z_scope.

(** ** Python strings *)

Abbreviation str := (list N).

Definition lit (s : string) : str :=
  List.map N_of_ascii (list_ascii_of_string s).

(** [c.isspace()] for one code point (the set [str.strip] and
    [str.split(None)] use). *)
Definition isspace (c : N) : bool :=
  ((9 <=? c) && (c <=? 13) || (28 <=? c) && (c <=? 32) || (c =? 133)
   || (c =? 160) || (c =? 5760) || (8192 <=? c) && (c <=? 8202)
   || (c =? 8232) || (c =? 8233) || (c =? 8239) || (c =? 8287)
   || (c =? 12288))%N.

Fixpoint lstrip (s : str) : str :=
  match s with
  | c :: s' => if isspace c then lstrip s' else s
  | [] => []
  end.

Definition rstrip (s : str) : str := rev (lstrip (rev s)).

Definition strip (s : str) : str := rstrip (lstrip s).

Definition contains_char (c : N) (s : str) : bool := existsb (N.eqb c) s.

Fixpoint startswith (s p : str) {struct p} : bool :=
  match p, s with
  | [], _ => true
  | a :: p', b :: s' => (a =? b)%N && startswith s' p'
  | _ :: _, [] => false
  end.

(** [needle in s] *)
Fixpoint contains (needle s : str) : bool :=
  match s with
  | [] => startswith [] needle
  | _ :: s' => startswith s needle || contains needle s'
  end.

(** [s.lower()] on the letters A to Z; case mapping beyond ASCII is outside
    the model. *)
Definition lower_char (c : N) : N :=
  if ((65 <=? c) && (c <=? 90))%N then (c + 32)%N else c.

Definition lower (s : str) : str := List.map lower_char s.

(** [s.split(sep, maxsplit)] for a one-character separator. *)
Fixpoint split_char (sep : N) (maxsplit : nat) (s : str) : list str :=
  match s with
  | [] => [[]]
  | c :: s' =>
      match (c =? sep)%N, maxsplit with
      | true, S m => [] :: split_char sep m s'
      | _, _ =>
          match split_char sep maxsplit s' with
          | p :: ps => (c :: p) :: ps
          | [] => [[c]]
          end
      end
  end.

(** [s.split(None, 1)]: the first whitespace-delimited word and, when
    something other than whitespace follows it, the rest of the string. *)
Fixpoint take_word (s : str) : str * str :=
  match s with
  | [] => ([], [])
  | c :: s' =>
      if isspace c then ([], s)
      else let '(w, r) := take_word s' in (c :: w, r)
  end.

Definition split_ws1 (s : str) : list str :=
  match lstrip s with
  | [] => []
  | s1 =>
      let '(w, r) := take_word s1 in
      match lstrip r with
      | [] => [w]
      | rest => [w; rest]
      end
  end.

(** Text-mode reading: [\r\n] and [\r] become [\n]. *)
Fixpoint universal_newlines (s : str) : str :=
  match s with
  | [] => []
  | c :: s' =>
      if (c =? 13)%N then
        10%N :: match s' with
                | c' :: s'' =>
                    if (c' =? 10)%N then universal_newlines s''
                    else universal_newlines s'
                | [] => []
                end
      else c :: universal_newlines s'
  end.

(** [for line in f]: the lines of a text, each with its terminator. *)
Fixpoint readlines (s : str) : list str :=
  match s with
  | [] => []
  | c :: s' =>
      if (c =? 10)%N then [c] :: readlines s'
      else match readlines s' with
           | l :: ls => (c :: l) :: ls
           | [] => [[c]]
           end
  end.

(** [str(n)] for an integer. *)
Definition str_of_Z (n : Z) : str := lit (NilZero.string_of_int (Z.to_int n)).

(** ** Exceptions *)

Inductive Exn :=
| ValueError
| UnicodeDecodeError
| OverflowError
| IndexError
| OSError
| NameError (name : string)
| RuntimeError (message : str).

(** [except ValueError] also catches its subclass [UnicodeDecodeError]. *)
Definition is_ValueError (e : Exn) : bool :=
  match e with
  | ValueError | UnicodeDecodeError => true
  | _ => false
  end.

Inductive Result (A : Type) := Val (a : A) | Raise (e : Exn).
Arguments Val {A} a.
Arguments Raise {A} e.

(** ** Python floats *)

Definition prec : Z := 53.
Definition emax : Z := 1024.

Abbreviation float := spec_float.

(** [a + b], [a - b], [a * b] *)
Definition fadd : float -> float -> float := SFadd prec emax.
Definition fsub : float -> float -> float := SFsub prec emax.
Definition fmul : float -> float -> float := SFmul prec emax.

(** [a >= b] and [a < b]; both are false when either side is [nan]. *)
Definition fge (a b : float) : bool := SFleb b a.
Definition flt (a b : float) : bool := SFltb a b.

(** The float nearest to an integer (ties to even, [inf] beyond the
    range): the value of a literal such as [30.0]. *)
Definition float_of_Z (n : Z) : float := binary_normalize prec emax n 0 false.

(** [float(n)] and the conversion of the [int] operand of a mixed
    operation: an integer beyond the range raises. *)
Definition float_of_int (n : Z) : Result float :=
  match float_of_Z n with
  | S754_infinity _ => Raise OverflowError
  | x => Val x
  end.

(** [int(x)]: truncation toward zero. *)
Definition int_of_float (x : float) : Result Z :=
  match x with
  | S754_nan => Raise ValueError
  | S754_infinity _ => Raise OverflowError
  | S754_zero _ => Val 0
  | S754_finite s m e =>
      let a := match e with
               | Zneg k => Zpos m / 2 ^ Zpos k
               | _ => Zpos m * 2 ^ e
               end in
      Val (if s then - a else a)
  end.

Definition ZERO : float := S754_zero false.
Definition HALF : float := S754_finite false 4503599627370496 (-53).
Definition TEN : float := Eval vm_compute in float_of_Z 10.
Definition THIRTY : float := Eval vm_compute in float_of_Z 30.
Definition INF : float := S754_infinity false.
Definition NAN : float := S754_nan.

(** ** The state dict and a metrics sample *)

(** A parsed sample, [Dict[str, float]]. *)
Abbreviation Metrics := (gmap str float).

Definition conduit_connected_clients : str := lit "conduit_connected_clients".
Definition conduit_connecting_clients : str := lit "conduit_connecting_clients".
Definition conduit_bytes_uploaded : str := lit "conduit_bytes_uploaded".
Definition conduit_bytes_downloaded : str := lit "conduit_bytes_downloaded".
Definition conduit_uptime_seconds : str := lit "conduit_uptime_seconds".
Definition conduit_is_live : str := lit "conduit_is_live".
Definition conduit_max_clients : str := lit "conduit_max_clients".
Definition conduit_bandwidth_limit : str :=
  lit "conduit_bandwidth_limit_bytes_per_second".

Record State := mkState {
  last_update_id : option Z;
  dashboard_message_ids : gmap Z Z;
  status_message_ids : gmap Z Z;
  command_message_ids : gmap Z Z;
  last_status_press : gmap Z float;
  last_good_metrics : option Metrics;
  last_seen_bytes_uploaded : option float;
  last_seen_bytes_downloaded : option float;
  lifetime_bytes_uploaded : option float;
  lifetime_bytes_downloaded : option float;
  traffic_history : list (float * float);
  lifetime_history : list (float * float);
  client_seconds_today : option float;
  last_day_utc : option str
}.

(** [load_state] of a missing or unreadable file, but for [owner_chat_id]. *)
Definition empty_state : State :=
  mkState None ∅ ∅ ∅ ∅ None None None None None [] [] None None.

(** [state[key] = v], one setter per key. *)
Definition set_last_update_id (v : option Z) (s : State) : State :=
  mkState v (dashboard_message_ids s) (status_message_ids s)
    (command_message_ids s) (last_status_press s) (last_good_metrics s)
    (last_seen_bytes_uploaded s) (last_seen_bytes_downloaded s)
    (lifetime_bytes_uploaded s) (lifetime_bytes_downloaded s)
    (traffic_history s) (lifetime_history s) (client_seconds_today s)
    (last_day_utc s).

Definition set_dashboard_message_ids (v : gmap Z Z) (s : State) : State :=
  mkState (last_update_id s) v (status_message_ids s)
    (command_message_ids s) (last_status_press s) (last_good_metrics s)
    (last_seen_bytes_uploaded s) (last_seen_bytes_downloaded s)
    (lifetime_bytes_uploaded s) (lifetime_bytes_downloaded s)
    (traffic_history s) (lifetime_history s) (client_seconds_today s)
    (last_day_utc s).

Definition set_status_message_ids (v : gmap Z Z) (s : State) : State :=
  mkState (last_update_id s) (dashboard_message_ids s) v
    (command_message_ids s) (last_status_press s) (last_good_metrics s)
    (last_seen_bytes_uploaded s) (last_seen_bytes_downloaded s)
    (lifetime_bytes_uploaded s) (lifetime_bytes_downloaded s)
    (traffic_history s) (lifetime_history s) (client_seconds_today s)
    (last_day_utc s).

Definition set_command_message_ids (v : gmap Z Z) (s : State) : State :=
  mkState (last_update_id s) (dashboard_message_ids s) (status_message_ids s)
    v (last_status_press s) (last_good_metrics s)
    (last_seen_bytes_uploaded s) (last_seen_bytes_downloaded s)
    (lifetime_bytes_uploaded s) (lifetime_bytes_downloaded s)
    (traffic_history s) (lifetime_history s) (client_seconds_today s)
    (last_day_utc s).

Definition set_last_status_press (v : gmap Z float) (s : State) : State :=
  mkState (last_update_id s) (dashboard_message_ids s) (status_message_ids s)
    (command_message_ids s) v (last_good_metrics s)
    (last_seen_bytes_uploaded s) (last_seen_bytes_downloaded s)
    (lifetime_bytes_uploaded s) (lifetime_bytes_downloaded s)
    (traffic_history s) (lifetime_history s) (client_seconds_today s)
    (last_day_utc s).

Definition set_last_good_metrics (v : option Metrics) (s : State) : State :=
  mkState (last_update_id s) (dashboard_message_ids s) (status_message_ids s)
    (command_message_ids s) (last_status_press s) v
    (last_seen_bytes_uploaded s) (last_seen_bytes_downloaded s)
    (lifetime_bytes_uploaded s) (lifetime_bytes_downloaded s)
    (traffic_history s) (lifetime_history s) (client_seconds_today s)
    (last_day_utc s).

Definition set_last_seen_bytes_uploaded (v : float) (s : State) : State :=
  mkState (last_update_id s) (dashboard_message_ids s) (status_message_ids s)
    (command_message_ids s) (last_status_press s) (last_good_metrics s)
    (Some v) (last_seen_bytes_downloaded s)
    (lifetime_bytes_uploaded s) (lifetime_bytes_downloaded s)
    (traffic_history s) (lifetime_history s) (client_seconds_today s)
    (last_day_utc s).

Definition set_last_seen_bytes_downloaded (v : float) (s : State) : State :=
  mkState (last_update_id s) (dashboard_message_ids s) (status_message_ids s)
    (command_message_ids s) (last_status_press s) (last_good_metrics s)
    (last_seen_bytes_uploaded s) (Some v)
    (lifetime_bytes_uploaded s) (lifetime_bytes_downloaded s)
    (traffic_history s) (lifetime_history s) (client_seconds_today s)
    (last_day_utc s).

Definition set_lifetime_bytes_uploaded (v : float) (s : State) : State :=
  mkState (last_update_id s) (dashboard_message_ids s) (status_message_ids s)
    (command_message_ids s) (last_status_press s) (last_good_metrics s)
    (last_seen_bytes_uploaded s) (last_seen_bytes_downloaded s)
    (Some v) (lifetime_bytes_downloaded s)
    (traffic_history s) (lifetime_history s) (client_seconds_today s)
    (last_day_utc s).

Definition set_lifetime_bytes_downloaded (v : float) (s : State) : State :=
  mkState (last_update_id s) (dashboard_message_ids s) (status_message_ids s)
    (command_message_ids s) (last_status_press s) (last_good_metrics s)
    (last_seen_bytes_uploaded s) (last_seen_bytes_downloaded s)
    (lifetime_bytes_uploaded s) (Some v)
    (traffic_history s) (lifetime_history s) (client_seconds_today s)
    (last_day_utc s).

Definition set_traffic_history (v : list (float * float)) (s : State) : State :=
  mkState (last_update_id s) (dashboard_message_ids s) (status_message_ids s)
    (command_message_ids s) (last_status_press s) (last_good_metrics s)
    (last_seen_bytes_uploaded s) (last_seen_bytes_downloaded s)
    (lifetime_bytes_uploaded s) (lifetime_bytes_downloaded s)
    v (lifetime_history s) (client_seconds_today s) (last_day_utc s).

Definition set_lifetime_history (v : list (float * float)) (s : State) : State :=
  mkState (last_update_id s) (dashboard_message_ids s) (status_message_ids s)
    (command_message_ids s) (last_status_press s) (last_good_metrics s)
    (last_seen_bytes_uploaded s) (last_seen_bytes_downloaded s)
    (lifetime_bytes_uploaded s) (lifetime_bytes_downloaded s)
    (traffic_history s) v (client_seconds_today s) (last_day_utc s).

Definition set_client_seconds_today (v : float) (s : State) : State :=
  mkState (last_update_id s) (dashboard_message_ids s) (status_message_ids s)
    (command_message_ids s) (last_status_press s) (last_good_metrics s)
    (last_seen_bytes_uploaded s) (last_seen_bytes_downloaded s)
    (lifetime_bytes_uploaded s) (lifetime_bytes_downloaded s)
    (traffic_history s) (lifetime_history s) (Some v) (last_day_utc s).

Definition set_last_day_utc (v : str) (s : State) : State :=
  mkState (last_update_id s) (dashboard_message_ids s) (status_message_ids s)
    (command_message_ids s) (last_status_press s) (last_good_metrics s)
    (last_seen_bytes_uploaded s) (last_seen_bytes_downloaded s)
    (lifetime_bytes_uploaded s) (lifetime_bytes_downloaded s)
    (traffic_history s) (lifetime_history s) (client_seconds_today s)
    (Some v).

(** [d.get(k, 0.0)] *)
Definition get0 (o : option float) : float := default ZERO o.

(** ** Metrics delta aggregator *)

Definition update_lifetime_traffic (state : State) (metrics : Metrics) : State :=
  let cur_up := get0 (metrics !! conduit_bytes_uploaded) in
  let cur_down := get0 (metrics !! conduit_bytes_downloaded) in
  let last_up := get0 (last_seen_bytes_uploaded state) in
  let last_down := get0 (last_seen_bytes_downloaded state) in
  let state :=
    if fge cur_up last_up then
      set_lifetime_bytes_uploaded
        (fadd (get0 (lifetime_bytes_uploaded state)) (fsub cur_up last_up)) state
    else state in
  let state :=
    if fge cur_down last_down then
      set_lifetime_bytes_downloaded
        (fadd (get0 (lifetime_bytes_downloaded state)) (fsub cur_down last_down))
        state
    else state in
  let state := set_last_seen_bytes_uploaded cur_up state in
  set_last_seen_bytes_downloaded cur_down state.

(** The lifetime totals as every reader of the state sees them. *)
Definition lifetime_up (s : State) : float := get0 (lifetime_bytes_uploaded s).
Definition lifetime_down (s : State) : float := get0 (lifetime_bytes_downloaded s).

(** The aggregator run over a sequence of samples: the states after each
    sample. *)
Fixpoint aggregate (s : State) (samples : list Metrics) : list State :=
  match samples with
  | [] => []
  | m :: rest =>
      let s' := update_lifetime_traffic s m in s' :: aggregate s' rest
  end.

(** ** History buffers *)

Definition _HISTORY_MAX : nat := 40.

(** [l[-n:]] for [n > 0]. *)
Definition slice_last {A} (n : nat) (l : list A) : list A :=
  skipn (length l - n) l.

(** The tail of both append functions: append, then keep the last
    [_HISTORY_MAX] entries when there are more. *)
Definition append_bounded {A} (hist : list A) (x : A) : list A :=
  let hist := hist ++ [x] in
  if (_HISTORY_MAX <? length hist)%nat then slice_last _HISTORY_MAX hist
  else hist.

Definition append_metrics_history (state : State) (metrics : Metrics) : State :=
  let up := get0 (metrics !! conduit_bytes_uploaded) in
  let down := get0 (metrics !! conduit_bytes_downloaded) in
  set_traffic_history (append_bounded (traffic_history state) (up, down)) state.

Definition append_lifetime_history (state : State) : State :=
  set_lifetime_history
    (append_bounded (lifetime_history state)
       (get0 (lifetime_bytes_uploaded state),
        get0 (lifetime_bytes_downloaded state)))
    state.

(** ** Daily usage accumulator *)

(** [today] is [time.strftime("%Y-%m-%d", time.gmtime())], read by the
    caller. The product [connected * interval_sec] converts the integer
    first, which raises when it is beyond the floats; the reset of the day
    has happened by then. *)
Definition update_client_seconds_today
    (today : str) (state : State) (connected : Z) (interval_sec : float)
  : Result unit * State :=
  let state :=
    if bool_decide (last_day_utc state ≠ Some today) then
      set_last_day_utc today (set_client_seconds_today ZERO state)
    else state in
  match float_of_int connected with
  | Val c =>
      (Val tt,
       set_client_seconds_today
         (fadd (get0 (client_seconds_today state)) (fmul c interval_sec)) state)
  | Raise e => (Raise e, state)
  end.

(** ** Collaborators left abstract

    [int] and [float] are Python's parsers of a string ([None] is
    [ValueError]); the caption and the image are text and pixel rendering
    of numbers, which raise on some of them ([int] of [nan] or [inf] among
    others). *)
Class Collaborators := {
  py_int : str -> option Z;
  py_float : str -> option float;
  build_dashboard_caption :
    Metrics -> Z -> float -> float -> float -> float -> Result str;
  render_dashboard_image :
    Metrics -> Z -> float -> str -> float -> float ->
    list (float * float) -> list (float * float) -> float -> Result (list N)
}.

(** ** Files *)

(** What is at a path the bot reads as UTF-8 text. *)
Inductive File :=
| NoFile                 (* [os.path.isfile(path)] is false *)
| Unreadable             (* [open] raises [OSError] *)
| Undecodable            (* the bytes are not UTF-8: reading raises *)
| Text (content : str).

(** [open(path, "r", encoding="utf-8")] and the reading of all of it, under
    [if os.path.isfile(path)]: [None] when there is no file. *)
Definition read_text (file : File) : Result (option str) :=
  match file with
  | NoFile => Val None
  | Unreadable => Raise OSError
  | Undecodable => Raise UnicodeDecodeError
  | Text content => Val (Some content)
  end.

(** ** Config store *)

(** The body shared by the line loops of [load_conduit_env] and
    [set_conduit_param]: [None] is [continue], otherwise the stripped key
    and value. *)
Definition env_line (line : str) : option (str * str) :=
  let line := strip line in
  if bool_decide (line = []) || negb (contains_char 61 line)
     || startswith line (lit "#")
  then None
  else match split_char 61 1 line with
       | [k; v] => Some (strip k, strip v)
       | _ => None
       end.

(** The lines a text-mode [open(path, "r")] iterates over. *)
Definition file_lines (raw : str) : list str :=
  readlines (universal_newlines raw).

Definition MAX_CLIENTS : str := lit "MAX_CLIENTS".
Definition BANDWIDTH : str := lit "BANDWIDTH".

Definition load_step `{Collaborators} (acc : Z * float) (line : str) : Z * float :=
  let '(max_clients, bandwidth) := acc in
  match env_line line with
  | None => acc
  | Some (k, v) =>
      if bool_decide (k = MAX_CLIENTS) then
        match py_int v with
        | Some n => (n, bandwidth)
        | None => acc
        end
      else if bool_decide (k = BANDWIDTH) then
        match py_float v with
        | Some b => (max_clients, b)
        | None => acc
        end
      else acc
  end.

(** The line loop of [load_conduit_env] over the text of the file. *)
Definition load_lines `{Collaborators} (content : option str) : Z * float :=
  match content with
  | None => (50, TEN)
  | Some raw => fold_left load_step (file_lines raw) (50, TEN)
  end.

Definition load_conduit_env `{Collaborators} (file : File) : Result (Z * float) :=
  match read_text file with
  | Val content => Val (load_lines content)
  | Raise e => Raise e
  end.

(** A [dict] of strings in insertion order. *)
Abbreviation Dict := (list (str * str)).

Fixpoint dict_get (d : Dict) (k : str) : option str :=
  match d with
  | [] => None
  | (k', v) :: d' => if bool_decide (k' = k) then Some v else dict_get d' k
  end.

(** [d[k] = v]: an existing key keeps its place. *)
Fixpoint dict_set (d : Dict) (k v : str) : Dict :=
  match d with
  | [] => [(k, v)]
  | (k', v') :: d' =>
      if bool_decide (k' = k) then (k', v) :: d'
      else (k', v') :: dict_set d' k v
  end.

Definition parse_step (d : Dict) (line : str) : Dict :=
  match env_line line with
  | Some (k, v) => dict_set d k v
  | None => d
  end.

(** The dict [set_conduit_param] reads the text of a file into. *)
Definition parse_env (content : option str) : Dict :=
  match content with
  | None => []
  | Some raw => fold_left parse_step (file_lines raw) []
  end.

Definition render_env (d : Dict) : str :=
  concat (List.map (fun '(k, v) => k ++ lit "=" ++ v ++ [10%N]) d).

(** The content of the file after the call; when reading the old file
    raises, nothing has been written. *)
Definition set_conduit_param (file : File) (key value : str) : Result str :=
  match read_text file with
  | Val content =>
      let d := parse_env content in
      let d := dict_set d key value in
      Val (render_env d)
  | Raise e => Raise e
  end.

(** ** The Telegram API and the world around the bot *)

(** An inline keyboard: rows of buttons (text, callback_data). *)
Abbreviation Keyboard := (list (list (str * str))).

Inductive Call :=
| SendPhoto (chat_id : Z) (caption : str) (image_bytes : list N)
| EditMessageMedia (chat_id message_id : Z) (image_bytes : list N)
| SendMessage (chat_id : Z) (text : str) (reply_markup : option Keyboard)
| EditMessageText (chat_id message_id : Z) (text : str)
    (reply_markup : option Keyboard)
| AnswerCallbackQuery (callback_query_id : str) (text : str)
| DeleteMessage (chat_id message_id : Z).

Inductive Command := RestartConduit | StopConduit | Reboot | UpdateScript.

Inductive Effect :=
| Api (c : Call)
| Os (c : Command)
| SaveState (snapshot : State)
| WriteEnv (content : str).

(** What [_request] gives: the message id of the result, or the exception
    with its text. A reply without a message id is an error for the callers
    that read the id and is folded into [Err]. *)
Inductive Response := Ok (message_id : Z) | Err (message : str).

(** What one pass observes outside the process. *)
Record Env := mkEnv {
  telegram : nat -> Call -> Response;
  metrics_body : option str;
  service_status : str;
  now : float;
  today : str
}.

Record World := mkWorld {
  state : State;
  state_file : option State;
  conduit_env : File;
  trace : list Effect;
  last_dashboard_ts : float;
  offset : option Z
}.

Definition with_state (f : State -> State) (w : World) : World :=
  mkWorld (f (state w)) (state_file w) (conduit_env w) (trace w)
    (last_dashboard_ts w) (offset w).

Definition emit (e : Effect) (w : World) : World :=
  mkWorld (state w) (state_file w) (conduit_env w) (trace w ++ [e])
    (last_dashboard_ts w) (offset w).

Definition set_last_dashboard_ts (t : float) (w : World) : World :=
  mkWorld (state w) (state_file w) (conduit_env w) (trace w) t (offset w).

Definition set_offset (o : option Z) (w : World) : World :=
  mkWorld (state w) (state_file w) (conduit_env w) (trace w)
    (last_dashboard_ts w) o.

(** [save_state(state_path, state)] *)
Definition save_state (w : World) : World :=
  emit (SaveState (state w))
    (mkWorld (state w) (Some (state w)) (conduit_env w) (trace w)
       (last_dashboard_ts w) (offset w)).

(** [set_conduit_param(conduit_env_path, key, value)] on the world's file. *)
Definition write_conduit_param (key value : str) (w : World) : Result unit * World :=
  match set_conduit_param (conduit_env w) key value with
  | Val content =>
      (Val tt,
       emit (WriteEnv content)
         (mkWorld (state w) (state_file w) (Text content) (trace w)
            (last_dashboard_ts w) (offset w)))
  | Raise e => (Raise e, w)
  end.

Definition system (c : Command) (w : World) : World := emit (Os c) w.

(** One API call: the server's reply to it, and the call on the trace. *)
Definition request (env : Env) (c : Call) (w : World) : Response * World :=
  (telegram env (length (trace w)) c, emit (Api c) w).

(** [answer_callback_query] and [delete_message] swallow every error. *)
Definition answer_callback_query (env : Env) (id text : str) (w : World) : World :=
  snd (request env (AnswerCallbackQuery id text) w).

Definition delete_message (env : Env) (chat_id message_id : Z) (w : World) : World :=
  snd (request env (DeleteMessage chat_id message_id) w).

(** ** Command desk texts and keyboards *)

Definition CMD_DESK_MAIN_TEXT : str :=
  lit "EasyConduit " ++ [8211%N] ++ lit " Control Panel" ++ [10%N]
  ++ lit "(Use the buttons below.)".

Definition CONFIGS_TEXT : str :=
  lit "Configs " ++ [8211%N]
  ++ lit " limits and Conduit control. Conduit service will restart when you change limits.".

Definition back_button (target : string) : list (str * str) :=
  [(9664%N :: lit " Back", lit target)].

Definition build_main_keyboard : Keyboard :=
  [ [(128269%N :: lit " Status", lit "cmd_status")];
    [(9881%N :: lit " Configs", lit "cmd_configs")];
    [(8505%N :: lit " More Info", lit "cmd_info")] ].

Definition build_configs_keyboard : Keyboard :=
  [ [(128202%N :: lit " Max connection limit", lit "cmd_limits")];
    [(128246%N :: lit " Max bandwidth", lit "cmd_bandwidth")];
    [(9851%N :: lit " Restart/Start Conduit", lit "cmd_restart_conduit")];
    [(9209%N :: lit " Stop Conduit", lit "cmd_stop_conduit")];
    [(128260%N :: lit " Update", lit "cmd_update")];
    [(9889%N :: lit " Reboot server", lit "cmd_reboot")];
    back_button "back_main" ].

Definition preset (prefix : string) (suffix : string) (v : Z) : str * str :=
  (str_of_Z v ++ lit suffix, lit prefix ++ str_of_Z v).

Definition build_limits_keyboard : Keyboard :=
  [ List.map (preset "set_clients_" "") [50; 75; 100; 125];
    List.map (preset "set_clients_" "") [150; 200; 250; 300];
    back_button "back_configs" ].

Definition build_bandwidth_keyboard : Keyboard :=
  [ List.map (preset "set_bw_" " Mbps") [5; 10; 15];
    List.map (preset "set_bw_" " Mbps") [20; 25; 30];
    back_button "back_configs" ].

Definition confirm_row (yes : str) (confirm cancel : string) : Keyboard :=
  [ [(yes, lit confirm); (10060%N :: lit " Cancel", lit cancel)] ].

Definition build_restart_conduit_confirm_keyboard : Keyboard :=
  confirm_row (9989%N :: lit " Yes, restart")
    "restart_conduit_confirm" "restart_conduit_cancel".

Definition build_stop_conduit_confirm_keyboard : Keyboard :=
  confirm_row (9989%N :: lit " Yes, stop")
    "stop_conduit_confirm" "stop_conduit_cancel".

Definition build_update_confirm_keyboard (label_yes : str) : Keyboard :=
  confirm_row label_yes "update_confirm" "update_cancel".

Definition build_reboot_confirm_keyboard : Keyboard :=
  confirm_row (9989%N :: lit " Yes, reboot server")
    "reboot_confirm" "reboot_cancel".

(** ** Chat UI reconciler *)

(** [not message_id] *)
Definition unset (id : option Z) : bool :=
  match id with
  | Some n => n =? 0
  | None => true
  end.

(** The three outcomes of a failed edit, read off [str(e).lower()]; the
    source spells the same tests out at each of its three edit sites. *)
Inductive EditFailure := Unchanged | TargetMissing | OtherFailure.

Definition classify (message : str) : EditFailure :=
  let err := lower message in
  if contains (lit "message is not modified") err then Unchanged
  else if contains (lit "message to edit not found") err
          || contains (lit "message can't be edited") err
          || contains (lit "message not found") err
  then TargetMissing
  else OtherFailure.

Definition record_dashboard_id (chat_id id : Z) : State -> State :=
  fun s => set_dashboard_message_ids (<[chat_id := id]> (dashboard_message_ids s)) s.

Definition record_status_id (chat_id id : Z) : State -> State :=
  fun s => set_status_message_ids (<[chat_id := id]> (status_message_ids s)) s.

Definition record_command_id (chat_id id : Z) : State -> State :=
  fun s => set_command_message_ids (<[chat_id := id]> (command_message_ids s)) s.

Definition delete_chat_ui_messages (env : Env) (chat_id : Z) (w : World) : World :=
  let s := state w in
  let ids := [dashboard_message_ids s !! chat_id;
              status_message_ids s !! chat_id;
              command_message_ids s !! chat_id] in
  let w :=
    fold_left (fun w id => match id with
                           | Some msg_id => delete_message env chat_id msg_id w
                           | None => w
                           end) ids w in
  with_state (fun s =>
    set_command_message_ids (delete chat_id (command_message_ids s))
      (set_status_message_ids (delete chat_id (status_message_ids s))
         (set_dashboard_message_ids (delete chat_id (dashboard_message_ids s)) s)))
    w.

(** A send inside [try: ... except Exception: id = None]. *)
Definition try_send (env : Env) (c : Call) (w : World) : option Z * World :=
  let '(r, w) := request env c w in
  match r with
  | Ok id => (Some id, w)
  | Err _ => (None, w)
  end.

Definition ensure_chat_messages
    (env : Env) (chat_id : Z) (status_text : str) (image_bytes : list N)
    (w : World) : World :=
  let s := state w in
  let dash_id := dashboard_message_ids s !! chat_id in
  let status_id := status_message_ids s !! chat_id in
  let cmd_id := command_message_ids s !! chat_id in
  let '(dash_id, w) :=
    match dash_id with
    | None => try_send env (SendPhoto chat_id [] image_bytes) w
    | Some _ => (dash_id, w)
    end in
  let '(status_id, w) :=
    match status_id with
    | None => try_send env (SendMessage chat_id status_text None) w
    | Some _ => (status_id, w)
    end in
  let '(cmd_id, w) :=
    match cmd_id with
    | None =>
        try_send env
          (SendMessage chat_id CMD_DESK_MAIN_TEXT (Some build_main_keyboard)) w
    | Some _ => (cmd_id, w)
    end in
  let w := match dash_id with
           | Some id => with_state (record_dashboard_id chat_id id) w
           | None => w
           end in
  let w := match status_id with
           | Some id => with_state (record_status_id chat_id id) w
           | None => w
           end in
  match cmd_id with
  | Some id => with_state (record_command_id chat_id id) w
  | None => w
  end.

(** The first [try] of [update_dashboard_for_chat]: edit the image. *)
Definition edit_dashboard_slot
    (env : Env) (chat_id dash_id : Z) (image_bytes : list N) (w : World) : World :=
  let '(r, w) := request env (EditMessageMedia chat_id dash_id image_bytes) w in
  match r with
  | Ok _ => w
  | Err message =>
      match classify message with
      | Unchanged => w
      | TargetMissing =>
          let '(r, w) := request env (SendPhoto chat_id [] image_bytes) w in
          match r with
          | Ok id => with_state (record_dashboard_id chat_id id) w
          | Err _ => w
          end
      | OtherFailure => w
      end
  end.

(** Its second [try]: edit the status text. *)
Definition edit_status_slot
    (env : Env) (chat_id status_id : Z) (status_text : str) (w : World) : World :=
  let '(r, w) := request env (EditMessageText chat_id status_id status_text None) w in
  match r with
  | Ok _ => w
  | Err message =>
      match classify message with
      | Unchanged => w
      | TargetMissing =>
          let '(r, w) := request env (SendMessage chat_id status_text None) w in
          match r with
          | Ok id => with_state (record_status_id chat_id id) w
          | Err _ => w
          end
      | OtherFailure => w
      end
  end.

Definition update_dashboard_for_chat
    (env : Env) (chat_id : Z) (status_text : str) (image_bytes : list N)
    (w : World) : World :=
  let dash_id := dashboard_message_ids (state w) !! chat_id in
  let status_id := status_message_ids (state w) !! chat_id in
  if unset dash_id || unset status_id then w
  else
    let w := edit_dashboard_slot env chat_id (default 0 dash_id) image_bytes w in
    edit_status_slot env chat_id (default 0 status_id) status_text w.

Definition edit_command_desk
    (env : Env) (chat_id : Z) (text : str) (keyboard : Keyboard)
    (w : World) : World :=
  let cmd_id := command_message_ids (state w) !! chat_id in
  if unset cmd_id then
    let '(r, w) := request env (SendMessage chat_id text (Some keyboard)) w in
    match r with
    | Ok id => with_state (record_command_id chat_id id) w
    | Err _ => w
    end
  else
    let '(r, w) :=
      request env
        (EditMessageText chat_id (default 0 cmd_id) text (Some keyboard)) w in
    match r with
    | Ok _ => w
    | Err message =>
        match classify message with
        | Unchanged => w
        | TargetMissing =>
            let '(r, w) :=
              request env (SendMessage chat_id text (Some keyboard)) w in
            match r with
            | Ok id => with_state (record_command_id chat_id id) w
            | Err _ => w
            end
        | OtherFailure => w
        end
    end.

(** ** Metrics source and status text *)

Definition wanted : list str :=
  [conduit_connected_clients; conduit_connecting_clients;
   conduit_bytes_uploaded; conduit_bytes_downloaded; conduit_uptime_seconds;
   conduit_is_live; conduit_max_clients; conduit_bandwidth_limit].

Definition is_linebreak (c : N) : bool :=
  ((10 <=? c) && (c <=? 13) || (28 <=? c) && (c <=? 30) || (c =? 133)
   || (c =? 8232) || (c =? 8233))%N.

(** [text.splitlines()] *)
Fixpoint splitlines (s : str) : list str :=
  match s with
  | [] => []
  | c :: s' =>
      if is_linebreak c then
        [] :: (if (c =? 13)%N then
                 match s' with
                 | c' :: s'' =>
                     if (c' =? 10)%N then splitlines s'' else splitlines s'
                 | [] => []
                 end
               else splitlines s')
      else match splitlines s' with
           | l :: ls => (c :: l) :: ls
           | [] => [[c]]
           end
  end.

(** One turn of the line loop of [fetch_metrics]; unpacking
    [line.split(None, 1)] into two names raises when it has one part. *)
Definition metrics_step `{Collaborators} (acc : Result Metrics) (line : str)
  : Result Metrics :=
  match acc with
  | Raise e => Raise e
  | Val values =>
      if startswith line (lit "#") || negb (contains_char 32 line) then Val values
      else match split_ws1 line with
           | [name; val] =>
               if bool_decide (name ∈ wanted) then
                 match py_float (strip val) with
                 | Some x => Val (<[name := x]> values)
                 | None => Val values
                 end
               else Val values
           | _ => Raise ValueError
           end
  end.

(** [body] is the decoded response, [None] when the request raises. *)
Definition fetch_metrics `{Collaborators} (body : option str) : Result Metrics :=
  match body with
  | None => Val ∅
  | Some text => fold_left metrics_step (splitlines text) (Val ∅)
  end.

Definition join_lines (lines : list str) : str :=
  match lines with
  | [] => []
  | l :: ls => l ++ concat (List.map (fun x => 10%N :: x) ls)
  end.

Definition UNREACHABLE : str := lit "unreachable (service may be down)".

Definition build_status_message `{Collaborators}
    (metrics : option Metrics) (max_clients : Z) (bandwidth_mbps : float)
    (conduit_svc_status : str) (last_good_metrics : option Metrics)
    (lifetime_bytes_up lifetime_bytes_down client_seconds_today : float)
  : Result str :=
  let conduit_svc_hint :=
    if bool_decide (conduit_svc_status = lit "inactive") then lit "inactive (stopped)"
    else if bool_decide (conduit_svc_status = lit "failed") then lit "failed (check logs)"
    else conduit_svc_status in
  let '(caption, conduit_line) :=
    match metrics with
    | Some metrics =>
        (build_dashboard_caption metrics max_clients bandwidth_mbps
           lifetime_bytes_up lifetime_bytes_down client_seconds_today,
         if fge (get0 (metrics !! conduit_is_live)) HALF then lit "LIVE"
         else lit "STOPPED")
    | None =>
        let last := default ∅ last_good_metrics in
        (build_dashboard_caption last max_clients bandwidth_mbps
           lifetime_bytes_up lifetime_bytes_down client_seconds_today,
         UNREACHABLE)
    end in
  match caption with
  | Raise e => Raise e
  | Val caption =>
      Val (join_lines
             [caption; []; lit "Real-time:";
              lit "  Conduit: " ++ conduit_line ++ lit "  " ++ [183%N]
                ++ lit "  Conduit service: " ++ conduit_svc_hint;
              lit "  Server (bot): running"])
  end.

(** ** The main loop *)

Inductive Update :=
| CallbackQuery (update_id : Z) (cq_id : str) (chat_id : Z) (data : str)
| Message (update_id : Z) (chat_id : Z) (text : str)
| OtherUpdate (update_id : Z).

Definition update_id_of (upd : Update) : Z :=
  match upd with
  | CallbackQuery id _ _ _ | Message id _ _ | OtherUpdate id => id
  end.

Definition NOT_AUTHORIZED : str :=
  lit "Not authorized. Only the chat ID set during installation can use this bot.".

Definition DASHBOARD_VERSION : str := lit "1.0".
Definition REPO_URL : str := lit "https://github.com/0xn0c0de/easyconduit".

Definition UPDATE_TEXT : str :=
  lit "EasyConduit " ++ [8211%N] ++ lit " Update" ++ [10%N; 10%N]
  ++ lit "You are on EasyConduit v" ++ DASHBOARD_VERSION ++ lit "." ++ [10%N; 10%N]
  ++ lit "Press the button below to re-download and reinstall this version from GitHub, "
  ++ lit "or Cancel to go back." ++ [10%N; 10%N]
  ++ lit "Project: " ++ REPO_URL.

Definition INFO_TEXT : str :=
  lit "EasyConduit v" ++ DASHBOARD_VERSION ++ lit " " ++ [8211%N] ++ lit " About"
  ++ [10%N; 10%N]
  ++ lit "This bot controls a Psiphon Conduit inproxy on this server. "
  ++ lit "You see a live dashboard (image + status) and a Control Panel with buttons. "
  ++ lit "Conduit limits (max clients, bandwidth) take effect after a service restart."
  ++ [10%N; 10%N]
  ++ lit "Project: " ++ REPO_URL.

(** The four updates a non-empty sample goes through inside the [try] of
    its caller; [int] of the client count raises after the first three. *)
Definition record_sample (env : Env) (metrics : Metrics) (s : State)
  : Result unit * State :=
  let s := update_lifetime_traffic s metrics in
  let s := append_lifetime_history s in
  let s := append_metrics_history s metrics in
  match int_of_float (get0 (metrics !! conduit_connected_clients)) with
  | Val connected => update_client_seconds_today (today env) s connected THIRTY
  | Raise e => (Raise e, s)
  end.

(** [if metrics:] *)
Definition nonempty (m : Metrics) : bool := bool_decide (m ≠ ∅).

(** The status text and the image of a refresh. *)
Definition render_views `{Collaborators}
    (max_clients : Z) (bandwidth : float) (conduit_svc : str)
    (metrics : option Metrics) (s : State) : Result (str * list N) :=
  let last_good := last_good_metrics s in
  let lifetime_up := get0 (lifetime_bytes_uploaded s) in
  let lifetime_down := get0 (lifetime_bytes_downloaded s) in
  let traffic_hist := traffic_history s in
  let lifetime_hist := lifetime_history s in
  let client_sec_today := get0 (client_seconds_today s) in
  match build_status_message metrics max_clients bandwidth conduit_svc last_good
          lifetime_up lifetime_down client_sec_today with
  | Raise e => Raise e
  | Val status_text =>
      let img_metrics :=
        match metrics with
        | Some m => m
        | None => default ∅ last_good
        end in
      match render_dashboard_image img_metrics max_clients bandwidth conduit_svc
              lifetime_up lifetime_down traffic_hist lifetime_hist
              client_sec_today with
      | Raise e => Raise e
      | Val img_bytes => Val (status_text, img_bytes)
      end
  end.

(** The [try] of the periodic pass: the sample is cached before it is
    recorded, and whatever the block raises is logged and dropped. *)
Definition fetch_cache_record `{Collaborators} (env : Env) (w : World)
  : option Metrics * World :=
  match fetch_metrics (metrics_body env) with
  | Val m =>
      let w := with_state (set_last_good_metrics (Some m)) w in
      (Some m,
       if nonempty m then with_state (fun s => snd (record_sample env m s)) w
       else w)
  | Raise _ => (None, w)
  end.

(** The periodic pass of one loop iteration. *)
Definition periodic_refresh `{Collaborators}
    (env : Env) (owner_chat_id : Z) (w : World) : Result unit * World :=
  if fge (fsub (now env) (last_dashboard_ts w)) THIRTY then
    match load_conduit_env (conduit_env w) with
    | Raise e => (Raise e, w)
    | Val (max_clients, bandwidth) =>
        let conduit_svc := service_status env in
        let '(metrics, w) := fetch_cache_record env w in
        match render_views max_clients bandwidth conduit_svc metrics (state w) with
        | Raise e => (Raise e, w)
        | Val (status_text, img_bytes) =>
            let w :=
              update_dashboard_for_chat env owner_chat_id status_text img_bytes w in
            let w := save_state w in
            (Val tt, set_last_dashboard_ts (now env) w)
        end
    end
  else (Val tt, w).

(** The [try] of the [stop_conduit_confirm] and [/start] paths: the sample
    is recorded, and whatever the block raises is dropped. *)
Definition fetch_and_record `{Collaborators} (env : Env) (w : World)
  : option Metrics * World :=
  match fetch_metrics (metrics_body env) with
  | Val m =>
      (Some m,
       if nonempty m then with_state (fun s => snd (record_sample env m s)) w
       else w)
  | Raise _ => (None, w)
  end.

Definition allowed : list Z := [50; 75; 100; 125; 150; 200; 250; 300].
Definition allowed_bw : list Z := [5; 10; 15; 20; 25; 30].

(** [set_clients_*] and [set_bw_*]: the [except ValueError] around the
    branch catches what [int] raises and what [set_conduit_param] raises on
    a file that does not decode. *)
Definition set_preset `{Collaborators}
    (env : Env) (cq_id data : str) (presets : list Z) (key : str)
    (ack : Z -> str) (w : World) : Result unit * World :=
  match split_char 95 2 data !! 2%nat with
  | None => (Raise IndexError, w)
  | Some arg =>
      match py_int arg with
      | Some v =>
          if bool_decide (v ∈ presets) then
            match write_conduit_param key (str_of_Z v) w with
            | (Val _, w) =>
                let w := system RestartConduit w in
                (Val tt, answer_callback_query env cq_id (ack v) w)
            | (Raise e, w) =>
                if is_ValueError e then
                  (Val tt, answer_callback_query env cq_id (lit "Invalid value.") w)
                else (Raise e, w)
            end
          else
            (Val tt,
             answer_callback_query env cq_id (lit "Use one of the preset values.") w)
      | None => (Val tt, answer_callback_query env cq_id (lit "Invalid value.") w)
      end
  end.

(** The name [cmd_desk_main_text] is bound nowhere in the module: calling it
    raises. *)
Definition cmd_desk_main_text : Result str := Raise (NameError "cmd_desk_main_text").

(** [data == "token"] *)
Definition pressed (data : str) (token : string) : bool :=
  bool_decide (data = lit token).

(** The [if]/[elif] chain on the callback data of an owner's press. *)
Definition dispatch `{Collaborators}
    (env : Env) (upd_id : Z) (cq_id : str) (chat_id : Z) (data : str) (w : World)
  : Result unit * World :=
  let desk text keyboard ack w :=
    (Val tt,
     answer_callback_query env cq_id ack (edit_command_desk env chat_id text keyboard w)) in
  if pressed data "cmd_status" then
    let t := get0 (last_status_press (state w) !! chat_id) in
    if flt (fsub (now env) t) TEN then
      (Val tt, answer_callback_query env cq_id (lit "Please wait before refreshing again.") w)
    else
      let w := with_state (fun s =>
                 set_last_status_press (<[chat_id := now env]> (last_status_press s)) s) w in
      let w := set_last_dashboard_ts ZERO w in
      (Val tt, answer_callback_query env cq_id (lit "Refreshing" ++ [8230%N]) w)
  else if pressed data "cmd_configs" then desk CONFIGS_TEXT build_configs_keyboard [] w
  else if pressed data "cmd_limits" then
    desk (lit "Max connection limit (50" ++ [8211%N]
          ++ lit "300). Conduit supports this range; service restarts after change.")
      build_limits_keyboard [] w
  else if pressed data "cmd_bandwidth" then
    desk (lit "Max bandwidth (5" ++ [8211%N] ++ lit "30 Mbps). Service restarts after change.")
      build_bandwidth_keyboard [] w
  else if pressed data "back_main" then desk CMD_DESK_MAIN_TEXT build_main_keyboard [] w
  else if pressed data "back_configs" then desk CONFIGS_TEXT build_configs_keyboard [] w
  else if startswith data (lit "set_clients_") then
    set_preset env cq_id data allowed MAX_CLIENTS
      (fun mc => lit "Max clients set to " ++ str_of_Z mc ++ lit ". Conduit restarting.") w
  else if startswith data (lit "set_bw_") then
    set_preset env cq_id data allowed_bw BANDWIDTH
      (fun bw => lit "Bandwidth set to " ++ str_of_Z bw ++ lit " Mbps. Conduit restarting.") w
  else if pressed data "cmd_restart_conduit" then
    desk (lit "Restart (or start) Conduit service? It will apply current limits.")
      build_restart_conduit_confirm_keyboard [] w
  else if pressed data "restart_conduit_confirm" then
    desk CMD_DESK_MAIN_TEXT build_main_keyboard (lit "Conduit restarted.")
      (system RestartConduit w)
  else if pressed data "restart_conduit_cancel" then
    desk CMD_DESK_MAIN_TEXT build_main_keyboard (lit "Cancelled.") w
  else if pressed data "cmd_stop_conduit" then
    desk (lit "Stop Conduit? Dashboard will show STOPPED. You can start again via Configs "
          ++ [8594%N] ++ lit " Restart/Start Conduit.")
      build_stop_conduit_confirm_keyboard [] w
  else if pressed data "stop_conduit_confirm" then
    let w := system StopConduit w in
    match load_conduit_env (conduit_env w) with
    | Raise e => (Raise e, w)
    | Val (max_clients, bandwidth) =>
        let conduit_svc := service_status env in
        let '(metrics, w) := fetch_and_record env w in
        match render_views max_clients bandwidth conduit_svc metrics (state w) with
        | Raise e => (Raise e, w)
        | Val (status_text, img_bytes) =>
            let w := update_dashboard_for_chat env chat_id status_text img_bytes w in
            let w := match metrics with
                     | Some m => with_state (set_last_good_metrics (Some m)) w
                     | None => w
                     end in
            desk CMD_DESK_MAIN_TEXT build_main_keyboard
              (lit "Conduit stopped. Status updated.") w
        end
    end
  else if pressed data "stop_conduit_cancel" then
    desk CMD_DESK_MAIN_TEXT build_main_keyboard (lit "Cancelled.") w
  else if pressed data "cmd_update" then
    desk UPDATE_TEXT
      (build_update_confirm_keyboard (128260%N :: lit " Reinstall v" ++ DASHBOARD_VERSION))
      [] w
  else if pressed data "update_confirm" then
    let w := answer_callback_query env cq_id (lit "Updating" ++ [8230%N]) w in
    let w := edit_command_desk env chat_id CMD_DESK_MAIN_TEXT build_main_keyboard w in
    let w := with_state (set_last_update_id (Some upd_id)) w in
    let w := save_state w in
    (Val tt, system UpdateScript w)
  else if pressed data "update_cancel" then
    desk CONFIGS_TEXT build_configs_keyboard (lit "Cancelled.") w
  else if pressed data "cmd_reboot" then
    desk (lit "Reboot the entire server? All connections will drop. Only use if needed.")
      build_reboot_confirm_keyboard [] w
  else if pressed data "reboot_confirm" then
    let w := answer_callback_query env cq_id (lit "Rebooting now" ++ [8230%N]) w in
    (Val tt, system Reboot w)
  else if pressed data "reboot_cancel" then
    match cmd_desk_main_text with
    | Val text => desk text build_main_keyboard (lit "Cancelled.") w
    | Raise e => (Raise e, w)
    end
  else if pressed data "cmd_info" then desk INFO_TEXT build_main_keyboard [] w
  else (Val tt, answer_callback_query env cq_id [] w).

Definition START_NOTE : str :=
  [10%N; 10%N] ++ lit "(Dashboard will update once metrics are available.)".

(** The handler of the guarded block of [/start]: the views without a
    sample and with the default limits. *)
Definition fallback_views `{Collaborators} (env : Env) (s : State)
  : Result (str * list N) :=
  let conduit_svc := service_status env in
  let lifetime_up := get0 (lifetime_bytes_uploaded s) in
  let lifetime_down := get0 (lifetime_bytes_downloaded s) in
  let traffic_hist := traffic_history s in
  let lifetime_hist := lifetime_history s in
  let client_sec_today := get0 (client_seconds_today s) in
  match build_status_message None 50 TEN conduit_svc None
          lifetime_up lifetime_down client_sec_today with
  | Raise e => Raise e
  | Val status_text =>
      match render_dashboard_image ∅ 50 TEN conduit_svc lifetime_up lifetime_down
              traffic_hist lifetime_hist client_sec_today with
      | Raise e => Raise e
      | Val img_bytes => Val (status_text ++ START_NOTE, img_bytes)
      end
  end.

(** The guarded block of [/start] with its handler: the views to show and
    the world after the fetch. *)
Definition start_views `{Collaborators} (env : Env) (w : World)
  : Result (str * list N) * World :=
  match load_conduit_env (conduit_env w) with
  | Raise _ => (fallback_views env (state w), w)
  | Val (max_clients, bandwidth) =>
      let conduit_svc := service_status env in
      let '(metrics, w) := fetch_and_record env w in
      match render_views max_clients bandwidth conduit_svc metrics (state w) with
      | Raise _ => (fallback_views env (state w), w)
      | Val views => (Val views, w)
      end
  end.

(** The body of [for upd in updates]. *)
Definition handle_update `{Collaborators}
    (env : Env) (owner_chat_id : Z) (upd : Update) (w : World)
  : Result unit * World :=
  let w := set_offset (Some (Z.max (default 0 (offset w)) (update_id_of upd + 1))) w in
  let w := with_state (set_last_update_id (Some (update_id_of upd))) w in
  match upd with
  | CallbackQuery upd_id cq_id chat_id data =>
      if negb (chat_id =? owner_chat_id) then
        (Val tt, answer_callback_query env cq_id NOT_AUTHORIZED w)
      else
        match dispatch env upd_id cq_id chat_id data w with
        | (Val _, w) => (Val tt, save_state w)
        | (Raise e, w) => (Raise e, w)
        end
  | Message _ chat_id text =>
      if startswith text (lit "/start") then
        if negb (chat_id =? owner_chat_id) then
          (Val tt, snd (request env (SendMessage chat_id NOT_AUTHORIZED None) w))
        else
          let w := delete_chat_ui_messages env chat_id w in
          match start_views env w with
          | (Raise e, w) => (Raise e, w)
          | (Val (status_text, img_bytes), w) =>
              let w := ensure_chat_messages env chat_id status_text img_bytes w in
              (Val tt, save_state w)
          end
      else (Val tt, w)
  | OtherUpdate _ => (Val tt, w)
  end.

(** The updates of one batch in order; an exception ends the iteration. *)
Fixpoint handle_updates `{Collaborators}
    (env : Env) (owner_chat_id : Z) (updates : list Update) (w : World)
  : Result unit * World :=
  match updates with
  | [] => (Val tt, w)
  | upd :: rest =>
      match handle_update env owner_chat_id upd w with
      | (Val _, w) => handle_updates env owner_chat_id rest w
      | (Raise e, w) => (Raise e, w)
      end
  end.

(** One iteration of [while True]: the periodic pass, then the batch
    [get_updates] returned; the handler around the body logs whatever is
    raised and the loop goes on, so a pass that raises leaves the batch
    for the next iteration. *)
Definition loop_iteration `{Collaborators}
    (env : Env) (owner_chat_id : Z) (updates : list Update) (w : World) : World :=
  match periodic_refresh env owner_chat_id w with
  | (Val _, w) => snd (handle_updates env owner_chat_id updates w)
  | (Raise _, w) => w
  end.

(** The command desk is put back to the main view before the loop starts. *)
Definition startup (env : Env) (owner_chat_id : Z) (w : World) : World :=
  save_state (edit_command_desk env owner_chat_id CMD_DESK_MAIN_TEXT build_main_keyboard w).

(** ** Runtime configuration, service status *)

(** The body of the line loop of [load_runtime_conf]. *)
Definition conf_line (line : str) : option (str * str) :=
  let line := strip line in
  if bool_decide (line = []) || startswith line (lit "#")
     || negb (contains_char 61 line)
  then None
  else match split_char 61 1 line with
       | [k; v] => Some (strip k, strip v)
       | _ => None
       end.

Definition conf_step (conf : Dict) (line : str) : Dict :=
  match conf_line line with
  | Some (k, v) => dict_set conf k v
  | None => conf
  end.

Definition required : list str :=
  [lit "BOT_TOKEN"; lit "METRICS_URL"; lit "CONDUIT_ENV_PATH"; lit "STATE_DIR"].

(** [key not in conf or not conf[key]] *)
Definition lacks (conf : Dict) (key : str) : bool :=
  match dict_get conf key with
  | Some (_ :: _) => false
  | _ => true
  end.

Definition CONF_NOT_FOUND (path : str) : Exn :=
  RuntimeError (lit "Runtime config not found: " ++ path).

Definition CONF_MISSING (key path : str) : Exn :=
  RuntimeError (lit "Missing " ++ key ++ lit " in runtime config " ++ path).

(** [file] is what is at [path]. *)
Definition load_runtime_conf (path : str) (file : File) : Result Dict :=
  match read_text file with
  | Raise e => Raise e
  | Val None => Raise (CONF_NOT_FOUND path)
  | Val (Some raw) =>
      let conf := fold_left conf_step (file_lines raw) [] in
      match List.find (lacks conf) required with
      | Some key => Raise (CONF_MISSING key path)
      | None => Val conf
      end
  end.

(** [output] is what [systemctl is-active] printed, [None] when running it
    raised. *)
Definition get_service_status (output : option str) : str :=
  match output with
  | None => lit "unknown"
  | Some out =>
      let s := lower (strip out) in
      if bool_decide (s ∈ [lit "active"; lit "inactive"; lit "failed"]) then s
      else lit "unknown"
  end.

(** The offset [_main_loop] starts from after loading the state. *)
Definition initial_offset (s : State) : option Z :=
  match last_update_id s with
  | Some lid => Some (lid + 1)
  | None => None
  end.

(** ** Vocabulary of the properties *)

(** Each float of the list is [>=] the one before it. *)
Fixpoint nondecreasing (l : list float) : Prop :=
  match l with
  | a :: (b :: _) as rest => fge b a = true /\ nondecreasing rest
  | _ => True
  end.

(** The two directions of traffic, to speak of both counters at once. *)
Inductive Direction := Up | Down.

Definition counter (d : Direction) (m : Metrics) : float :=
  match d with
  | Up => get0 (m !! conduit_bytes_uploaded)
  | Down => get0 (m !! conduit_bytes_downloaded)
  end.

Definition last_seen (d : Direction) (s : State) : float :=
  match d with
  | Up => get0 (last_seen_bytes_uploaded s)
  | Down => get0 (last_seen_bytes_downloaded s)
  end.

Definition lifetime (d : Direction) (s : State) : float :=
  match d with
  | Up => lifetime_up s
  | Down => lifetime_down s
  end.

(** The aggregator as the specification words it, on whole numbers: the
    totals after each sample, from a total and a last seen counter. *)
Fixpoint spec_lifetime (total last_seen : Z) (samples : list Z) : list Z :=
  match samples with
  | [] => []
  | current :: rest =>
      let total :=
        if last_seen <=? current then total + (current - last_seen) else total in
      total :: spec_lifetime total current rest
  end.

(** Each whole number of the list is at least the one before it. *)
Fixpoint rising (l : list Z) : Prop :=
  match l with
  | a :: (b :: _) as rest => a <= b /\ rising rest
  | _ => True
  end.

(** Whole numbers that a float holds exactly. *)
Definition whole (n : Z) : Prop := 0 <= n < 2 ^ 53.

(** Monotonicity read for every sequence of samples. *)
Definition aggregator_monotone : Prop :=
  forall (s : State) (samples : list Metrics),
    nondecreasing (lifetime_up s :: List.map lifetime_up (aggregate s samples)).

(** [x] is neither [inf] nor [nan]. *)
Definition is_finite (x : float) : bool :=
  match x with
  | S754_zero _ | S754_finite _ _ _ => true
  | _ => false
  end.

(** The same number: the same float, or two zeros. *)
Definition same_number (a b : float) : Prop :=
  a = b \/ exists s s', a = S754_zero s /\ b = S754_zero s'.

(** [p * 2^k] for [k >= 0]. *)
Definition shlz (p : positive) (k : Z) : positive :=
  match k with
  | Zpos n => Pos.iter xO p n
  | _ => p
  end.

(** The number of binary digits of [p]. *)
Definition digits (p : positive) : Z := Zpos (digits2_pos p).

(** The float of a positive whole number below [2^53]: its digits moved
    up to a 53 bit mantissa. *)
Definition canon (s : bool) (r : positive) : float :=
  S754_finite s (shlz r (53 - digits r)) (digits r - 53).

(** A step that only adds API calls to the trace. *)
Definition api_only (w w' : World) : Prop :=
  exists calls : list Call, trace w' = trace w ++ List.map Api calls.

(** A sample that only reports the upload counter. *)
Definition upload_sample (v : float) : Metrics := {[ conduit_bytes_uploaded := v ]}.

(** A sample that only reports the download counter. *)
Definition download_sample (v : float) : Metrics := {[ conduit_bytes_downloaded := v ]}.

(** The values a key is given by the lines of a config file that parse, in
    file order. *)
Definition parsed_values {A} (parse : str -> option A) (key : str)
    (content : option str) : list A :=
  match content with
  | None => []
  | Some raw =>
      omap (fun line =>
              match env_line line with
              | Some (k, v) => if bool_decide (k = key) then parse v else None
              | None => None
              end) (file_lines raw)
  end.

(** A string without whitespace at either end. *)
Definition edge_ok (s : str) : bool :=
  match s with
  | [] => true
  | c :: _ => negb (isspace c)
  end.

(** A value that reads back as written: [strip] leaves it alone and it
    holds no line break. *)
Definition clean_value (v : str) : bool :=
  bool_decide (strip v = v) && negb (contains_char 10 v)
  && negb (contains_char 13 v).

(** A key that reads back as written. *)
Definition clean_key (k : str) : bool :=
  clean_value k && negb (contains_char 61 k) && negb (startswith k (lit "#")).

(** The dicts the config store reads and writes: distinct clean keys with
    clean values. *)
Definition wf_dict (d : Dict) : Prop :=
  NoDup (d.*1)
  /\ Forall (fun kv => clean_key kv.1 = true /\ clean_value kv.2 = true) d.

(** The line [set_conduit_param] writes for an entry. *)
Definition line_of (kv : str * str) : str :=
  kv.1 ++ lit "=" ++ kv.2 ++ [10%N].

(** A config file as the specification describes it: a line is an entry
    [key=value] or something else (a comment, a blank line, text without
    an equals sign). *)
Inductive ConfLine :=
| Entry (key value : str)
| Other (text : str).

Definition conf_line_text (l : ConfLine) : str :=
  match l with
  | Entry k v => k ++ lit "=" ++ v
  | Other t => t
  end.

(** The text of the file that holds these lines, each ended by a newline. *)
Definition conf_text (lines : list ConfLine) : str :=
  concat (List.map (fun l => conf_line_text l ++ [10%N]) lines).

(** A line that is no entry: blank, a comment, or without an equals sign,
    once the white space around it is taken off. *)
Definition no_entry (t : str) : bool :=
  bool_decide (strip t = []) || startswith (strip t) (lit "#")
  || negb (contains_char 61 (strip t)).

(** Keys and values are plain (no white space around them, no line break,
    a key has no equals sign and does not start a comment); other lines
    hold no line break. *)
Definition plain_line (l : ConfLine) : bool :=
  match l with
  | Entry k v => clean_key k && clean_value v
  | Other t => no_entry t && negb (contains_char 10 t) && negb (contains_char 13 t)
  end.

(** The value of a key as the specification gives it: that of the last
    entry of the key whose value parses, the default when there is none. *)
Fixpoint spec_value {A} (parse : str -> option A) (key : str) (dflt : A)
    (lines : list ConfLine) : A :=
  match lines with
  | [] => dflt
  | Entry k v :: rest =>
      spec_value parse key
        (if bool_decide (k = key) then default dflt (parse v) else dflt) rest
  | Other _ :: rest => spec_value parse key dflt rest
  end.

(** [load_conduit_env] read as returning a pair for every path, whatever
    [int] and [float] make of a string. *)
Definition load_conduit_env_total : Prop :=
  forall (parsers : Collaborators) (file : File),
    exists pair : Z * float, load_conduit_env file = Val pair.


(** The effects a step adds to the trace. *)
Definition added (before after : World) : list Effect :=
  skipn (length (trace before)) (trace after).

Definition is_send (e : Effect) : bool :=
  match e with
  | Api (SendPhoto _ _ _) | Api (SendMessage _ _ _) => true
  | _ => false
  end.

Definition is_command (e : Effect) : bool :=
  match e with
  | Os _ => true
  | _ => false
  end.

Definition is_save (e : Effect) : bool :=
  match e with
  | SaveState _ => true
  | _ => false
  end.

(** The three stored ids of a chat. *)
Definition triad (s : State) (chat_id : Z) : option Z * option Z * option Z :=
  (dashboard_message_ids s !! chat_id, status_message_ids s !! chat_id,
   command_message_ids s !! chat_id).

(** The slots of the triad, to speak of the three edit sites at once. *)
Inductive Slot := DashboardSlot | StatusSlot | CommandSlot.

Definition stored_id (slot : Slot) (s : State) (chat_id : Z) : option Z :=
  match slot with
  | DashboardSlot => dashboard_message_ids s !! chat_id
  | StatusSlot => status_message_ids s !! chat_id
  | CommandSlot => command_message_ids s !! chat_id
  end.



(** The write of a replacement's id into the slot's dict. *)
Definition record_id (slot : Slot) (chat_id id : Z) : State -> State :=
  match slot with
  | DashboardSlot => record_dashboard_id chat_id id
  | StatusSlot => record_status_id chat_id id
  | CommandSlot => record_command_id chat_id id
  end.


(** The refresh read as doing nothing whenever any of the three ids is
    unset. *)
Definition refresh_idle_when_any_unset : Prop :=
  forall (env : Env) (chat_id : Z) (text : str) (image : list N) (w : World),
    unset (dashboard_message_ids (state w) !! chat_id)
    || unset (status_message_ids (state w) !! chat_id)
    || unset (command_message_ids (state w) !! chat_id) = true ->
    let w' := update_dashboard_for_chat env chat_id text image w in
    filter is_send (added w w') = [] /\ triad (state w') chat_id = triad (state w) chat_id.

(** A step that extends the trace by effects that all satisfy [P]. *)
Definition adds (P : Effect -> bool) (w w' : World) : Prop :=
  exists l : list Effect, trace w' = trace w ++ l /\ forallb P l = true.

(** The calls of the reconciler: sends, edits and deletes. *)
Definition is_reconciler_effect (e : Effect) : bool :=
  match e with
  | Api (AnswerCallbackQuery _ _) => false
  | Api _ => true
  | _ => false
  end.

Definition is_answer (e : Effect) : bool :=
  match e with
  | Api (AnswerCallbackQuery _ _) => true
  | _ => false
  end.

(** Effects on the machine: service commands and config writes. *)
Definition is_action (e : Effect) : bool :=
  match e with
  | Os _ | WriteEnv _ => true
  | _ => false
  end.

(** Two states that differ at most in the three id dicts. *)
Definition same_but_ids (s s' : State) : Prop :=
  s' = set_command_message_ids (command_message_ids s')
         (set_status_message_ids (status_message_ids s')
            (set_dashboard_message_ids (dashboard_message_ids s') s)).

(** Two worlds that differ at most in the trace and the id dicts. *)
Definition same_but_ui (w w' : World) : Prop :=
  same_but_ids (state w) (state w')
  /\ state_file w' = state_file w /\ conduit_env w' = conduit_env w
  /\ last_dashboard_ts w' = last_dashboard_ts w /\ offset w' = offset w.

(** The tokens whose press acts on the machine. *)
Definition acting (data : str) : bool :=
  pressed data "restart_conduit_confirm" || pressed data "stop_conduit_confirm"
  || pressed data "update_confirm" || pressed data "reboot_confirm"
  || startswith data (lit "set_clients_") || startswith data (lit "set_bw_").

(** [int(v)] or [float(v)] of a stored value, with the default of the
    key. *)
Definition value_or {A} (parse : str -> option A) (d : A) (v : option str) : A :=
  match v with
  | Some s => default d (parse s)
  | None => d
  end.

(** What a reconciler step on one chat may do: add sends, edits and deletes
    to the trace and change the three ids of that chat; everything else in
    the world is as before. *)
Definition reconciles (chat_id : Z) (w w' : World) : Prop :=
  adds is_reconciler_effect w w'
  /\ same_but_ui w w'
  /\ forall chat_id' : Z,
       chat_id' <> chat_id -> triad (state w') chat_id' = triad (state w) chat_id'.

(** The texts a list of effects shows in the chat are all [text]. *)
Definition shows_only (text : str) (e : Effect) : bool :=
  match e with
  | Api (EditMessageText _ _ t None) | Api (SendMessage _ t None) =>
      bool_decide (t = text)
  | _ => true
  end.

(** The sends [ensure_chat_messages] makes for the slots that have no id,
    in its order. *)
Definition bootstrap_sends (s : State) (chat_id : Z) (text : str)
    (image : list N) : list Effect :=
  (match dashboard_message_ids s !! chat_id with
   | None => [Api (SendPhoto chat_id [] image)]
   | Some _ => []
   end)
  ++ (match status_message_ids s !! chat_id with
      | None => [Api (SendMessage chat_id text None)]
      | Some _ => []
      end)
  ++ (match command_message_ids s !! chat_id with
      | None => [Api (SendMessage chat_id CMD_DESK_MAIN_TEXT (Some build_main_keyboard))]
      | Some _ => []
      end).

Definition NOT_MODIFIED : str := lit "message is not modified".

(** The three phrases that mean the edit target is gone. *)
Definition TARGET_GONE : list str :=
  [lit "message to edit not found"; lit "message can't be edited";
   lit "message not found"].

(** Anything but the answer to a callback. *)
Definition not_answer (e : Effect) : bool := negb (is_answer e).

(** Anything but a service command or a config write. *)
Definition not_action (e : Effect) : bool := negb (is_action e).

(** The handler finished normally and answered the callback [cq_id]
    exactly once. *)
Definition acknowledged_once (cq_id : str) (w : World)
    (out : Result unit * World) : Prop :=
  out.1 = Val tt
  /\ exists ack : str,
       List.filter is_answer (added w out.2) = [Api (AnswerCallbackQuery cq_id ack)].

(** What a handler that may raise did about the press: answered it once
    when it returned, not at all when it raised. *)
Definition answered_or_raised (cq_id : str) (w : World)
    (out : Result unit * World) : Prop :=
  match out.1 with
  | Val _ =>
      exists ack : str,
        List.filter is_answer (added w out.2) = [Api (AnswerCallbackQuery cq_id ack)]
  | Raise _ => List.filter is_answer (added w out.2) = []
  end.

(** The tokens whose handler reads the config file, builds the views or
    calls the unbound name. *)
Definition may_raise (data : str) : bool :=
  startswith data (lit "set_clients_") || startswith data (lit "set_bw_")
  || pressed data "stop_conduit_confirm" || pressed data "reboot_cancel".

(** The handler ran no command and left the config file alone. *)
Definition harmless (w : World) (out : Result unit * World) : Prop :=
  List.filter is_action (added w out.2) = []
  /\ conduit_env out.2 = conduit_env w.

(** The two cursors of the update poller: the offset of the loop and the
    id the state remembers. *)
Definition cursor (w : World) : option Z * option Z :=
  (offset w, last_update_id (state w)).

(** The handler left both cursors where they were. *)
Definition cursor_kept (w : World) (out : Result unit * World) : Prop :=
  cursor out.2 = cursor w.

(** ** Concrete collaborators for the examples *)

Fixpoint digits_value (acc : N) (s : str) : option N :=
  match s with
  | [] => Some acc
  | c :: s' =>
      if ((48 <=? c) && (c <=? 57))%N then digits_value (acc * 10 + (c - 48))%N s'
      else None
  end.

(** [int] on a plain decimal literal with an optional minus sign. *)
Definition decimal_int (s : str) : option Z :=
  match strip s with
  | [] => None
  | c :: d =>
      if (c =? 45)%N then
        match d with
        | [] => None
        | _ => (fun n => - Z.of_N n) <$> digits_value 0 d
        end
      else Z.of_N <$> digits_value 0 (c :: d)
  end.

(** [float] on a plain decimal whole number, on [inf] and on [nan]. *)
Definition decimal_float (s : str) : option float :=
  let t := lower (strip s) in
  if bool_decide (t = lit "inf") || bool_decide (t = lit "+inf") then Some INF
  else if bool_decide (t = lit "nan") then Some NAN
  else float_of_Z <$> decimal_int s.

(** A caption that shows the client count, as the first thing the caption
    of the source computes. *)
Definition clients_caption (m : Metrics) : Result str :=
  match int_of_float (get0 (m !! conduit_connected_clients)) with
  | Val connected => Val (lit "Clients: " ++ str_of_Z connected)
  | Raise e => Raise e
  end.

#[local] Instance decimal_collaborators : Collaborators := {|
  py_int := decimal_int;
  py_float := decimal_float;
  build_dashboard_caption := fun m _ _ _ _ _ => clients_caption m;
  render_dashboard_image := fun _ _ _ _ _ _ _ _ _ => Val []
|}.

(** A server that accepts every call and numbers new messages from 100. *)
Definition accepting : nat -> Call -> Response :=
  fun n _ => Ok (100 + Z.of_nat n).

(** A server on which the first call fails with [first] and every later
    call with [later]. *)
Definition failing (first later : string) : nat -> Call -> Response :=
  fun n _ => match n with
             | O => Err (lit first)
             | S _ => Err (lit later)
             end.

(** A server on which the first call fails with [first] and later calls
    succeed. *)
Definition failing_once (first : string) : nat -> Call -> Response :=
  fun n _ => match n with
             | O => Err (lit first)
             | S _ => Ok (100 + Z.of_nat n)
             end.

Definition quiet_env (server : nat -> Call -> Response) (body : option str) : Env :=
  mkEnv server body (lit "active") (float_of_Z 1000) (lit "2026-01-02").

(** A state with the dashboard and status ids of chat 7 and no command
    id. *)
Definition deskless_state : State :=
  mkState None {[ 7 := 11 ]} {[ 7 := 12 ]} ∅ ∅ None None None None
    None [] [] None None.

(** The last good sample of the examples: five clients, live. *)
Definition cached_sample : Metrics :=
  {[ conduit_connected_clients := float_of_Z 5; conduit_is_live := float_of_Z 1 ]}.

(** A state with a complete triad for chat 7 and a cached sample. *)
Definition cached_state : State :=
  mkState None {[ 7 := 11 ]} {[ 7 := 12 ]} {[ 7 := 13 ]} ∅ (Some cached_sample)
    None None None None [] [] None None.

(** The edit failure texts of the examples. *)
Definition EDIT_TARGET_GONE : string := "Bad Request: message to edit not found".
Definition BOT_BLOCKED : string := "Forbidden: bot was blocked by the user".

(** A state whose triad for chat 7 is complete. *)
Definition complete_state : State :=
  mkState None {[ 7 := 11 ]} {[ 7 := 12 ]} {[ 7 := 13 ]} ∅ None None None None
    None [] [] None None.

Definition world_of (s : State) : World := mkWorld s (Some s) NoFile [] ZERO None.

(** * Properties *)

(** ** Floats: arithmetic on whole numbers

    Sums, differences, products and comparisons of whole numbers below
    [2^53] are exact: no rounding takes place. *)

Lemma iter_pos_iter {A} (f : A -> A) (n : positive) :
  forall x, SpecFloat.iter_pos f n x = Pos.iter f x n.
Proof.
  induction n as [n IH|n IH|]; intros x; simpl.
  - rewrite !IH, Pos.iter_swap, Pos.iter_swap. reflexivity.
  - rewrite !IH. reflexivity.
  - reflexivity.
Qed.

Lemma shlz_value (p : positive) (k : Z) :
  0 <= k -> Zpos (shlz p k) = Zpos p * 2 ^ k.
Proof.
  intros Hk. destruct k as [|n|n]; [simpl; lia | | lia].
  unfold shlz. clear Hk. induction n as [|n IH] using Pos.peano_ind.
  - simpl. lia.
  - rewrite Pos.iter_succ, Pos2Z.inj_succ, Z.pow_succ_r by lia.
    rewrite Pos2Z.inj_xO, IH. lia.
Qed.

Lemma shlz_digits (p : positive) (k : Z) :
  0 <= k -> digits (shlz p k) = digits p + k.
Proof.
  intros Hk. destruct k as [|n|n]; [simpl; lia | | lia].
  unfold shlz, digits. clear Hk. induction n as [|n IH] using Pos.peano_ind.
  - simpl. lia.
  - rewrite Pos.iter_succ. simpl digits2_pos. rewrite Pos2Z.inj_succ, IH. lia.
Qed.

Lemma shlz_shlz (p : positive) (a b : Z) :
  0 <= a -> 0 <= b -> shlz (shlz p a) b = shlz p (a + b).
Proof.
  intros Ha Hb. apply Pos2Z.inj.
  rewrite !shlz_value by lia. rewrite Z.pow_add_r by lia. lia.
Qed.

Lemma digits_bounds (p : positive) :
  2 ^ (digits p - 1) <= Zpos p < 2 ^ digits p.
Proof.
  unfold digits. induction p as [p IH|p IH|]; simpl digits2_pos.
  - rewrite Pos2Z.inj_succ.
    replace (Z.succ (Zpos (digits2_pos p)) - 1) with (Z.succ (Zpos (digits2_pos p) - 1)) by lia.
    rewrite !Z.pow_succ_r by lia. lia.
  - rewrite Pos2Z.inj_succ.
    replace (Z.succ (Zpos (digits2_pos p)) - 1) with (Z.succ (Zpos (digits2_pos p) - 1)) by lia.
    rewrite !Z.pow_succ_r by lia. lia.
  - simpl. lia.
Qed.

Lemma digits_pos (p : positive) : 1 <= digits p.
Proof. unfold digits. lia. Qed.

Lemma digits_le (p : positive) (n : Z) :
  0 <= n -> Zpos p < 2 ^ n -> digits p <= n.
Proof.
  intros Hn Hp. destruct (Z_le_gt_dec (digits p) n) as [H|H]; [exact H|].
  pose proof (digits_bounds p) as [Hlo _].
  assert (2 ^ n <= 2 ^ (digits p - 1)) by (apply Z.pow_le_mono_r; lia).
  lia.
Qed.

Lemma digits_mono (p q : positive) : (p <= q)%positive -> digits p <= digits q.
Proof.
  intros Hpq. apply digits_le; [pose proof (digits_pos q); lia|].
  pose proof (digits_bounds q). lia.
Qed.

Lemma shr_exact (q : positive) (n : positive) :
  SpecFloat.iter_pos shr_1 n (Build_shr_record (Zpos (Pos.iter xO q n)) false false)
  = Build_shr_record (Zpos q) false false.
Proof.
  rewrite iter_pos_iter.
  induction n as [|n IH] using Pos.peano_ind.
  - reflexivity.
  - rewrite Pos.iter_succ_r, Pos.iter_succ. simpl shr_1. exact IH.
Qed.

Lemma fexp_digits (d : Z) : 1 <= d -> fexp prec emax d = d - 53.
Proof. intros H. unfold fexp, emin, prec, emax. lia. Qed.

(** Rounding a mantissa whose low [n] bits are zero and whose remaining bits
    fit the precision is exact. *)
Lemma binary_round_aux_exact (s : bool) (q : positive) (e n : Z) :
  0 <= n ->
  fexp prec emax (digits q + n + e) = e + n ->
  e + n <= emax - prec ->
  binary_round_aux prec emax s (Zpos (shlz q n)) e loc_Exact
  = S754_finite s q (e + n).
Proof.
  intros Hn Hfexp Hmax.
  unfold binary_round_aux, shr_fexp.
  change (Zdigits2 (Zpos (shlz q n))) with (digits (shlz q n)).
  rewrite shlz_digits, Hfexp by exact Hn.
  replace (e + n - e) with n by lia.
  assert (Hshr : shr (shr_record_of_loc (Zpos (shlz q n)) loc_Exact) e n
                 = (Build_shr_record (Zpos q) false false, e + n)).
  { destruct n as [|n|n]; [|simpl; rewrite shr_exact; reflexivity | lia].
    simpl. rewrite Z.add_0_r. reflexivity. }
  rewrite Hshr. cbn [shr_m loc_of_shr_record round_nearest_even].
  change (Zdigits2 (Zpos q)) with (digits q).
  replace (digits q + (e + n)) with (digits q + n + e) by lia.
  rewrite Hfexp, Z.sub_diag. cbn [shr shr_record_of_loc shr_m].
  apply Z.leb_le in Hmax. rewrite Hmax. reflexivity.
Qed.

Lemma shl_align_shlz (m : positive) (e e' : Z) :
  shl_align m e e' = if e' <? e then (shlz m (e - e'), e') else (m, e).
Proof.
  unfold shl_align.
  destruct (e' - e)%Z as [|d|d] eqn:E.
  - assert ((e' <? e) = false) as -> by (apply Z.ltb_ge; lia). reflexivity.
  - assert ((e' <? e) = false) as -> by (apply Z.ltb_ge; lia). reflexivity.
  - assert ((e' <? e) = true) as -> by (apply Z.ltb_lt; lia).
    replace (e - e') with (Zpos d) by lia. reflexivity.
Qed.

Lemma binary_round_shl (s : bool) (r : positive) (K : Z) :
  0 <= K -> digits r <= 53 ->
  binary_round prec emax s (shlz r K) (- K) = canon s r.
Proof.
  intros HK Hd. pose proof (digits_pos r) as Hd1.
  unfold binary_round, canon.
  change (Zpos (digits2_pos (shlz r K))) with (digits (shlz r K)).
  rewrite shlz_digits by exact HK.
  replace (digits r + K + - K) with (digits r) by lia.
  rewrite fexp_digits by exact Hd1.
  rewrite shl_align_shlz.
  destruct (digits r - 53 <? - K) eqn:E.
  - apply Z.ltb_lt in E.
    rewrite shlz_shlz by lia.
    replace (K + (- K - (digits r - 53))) with (53 - digits r) by lia.
    pose proof (binary_round_aux_exact s (shlz r (53 - digits r)) (digits r - 53) 0) as H.
    change (shlz (shlz r (53 - digits r)) 0) with (shlz r (53 - digits r)) in H.
    rewrite H; [f_equal; lia | lia | | unfold emax, prec; lia].
    rewrite shlz_digits by lia. rewrite fexp_digits by lia. lia.
  - apply Z.ltb_ge in E.
    pose proof (binary_round_aux_exact s (shlz r (53 - digits r)) (- K)
                  (K - (53 - digits r))) as H.
    rewrite shlz_shlz in H by lia.
    replace (53 - digits r + (K - (53 - digits r))) with K in H by lia.
    replace (- K + (K - (53 - digits r))) with (digits r - 53) in H by lia.
    rewrite H; [reflexivity | lia | | unfold emax, prec; lia].
    rewrite shlz_digits by lia. rewrite fexp_digits by lia. lia.
Qed.

Lemma float_of_Z_pos (p : positive) :
  Zpos p < 2 ^ 53 -> float_of_Z (Zpos p) = canon false p.
Proof.
  intros Hp. unfold float_of_Z, binary_normalize.
  apply (binary_round_shl false p 0); [lia | apply digits_le; lia].
Qed.

Lemma float_of_Z_neg (p : positive) :
  Zpos p < 2 ^ 53 -> float_of_Z (Zneg p) = canon true p.
Proof.
  intros Hp. unfold float_of_Z, binary_normalize.
  apply (binary_round_shl true p 0); [lia | apply digits_le; lia].
Qed.

(** The aligned mantissa of a canonical integer: [r * 2^K]. *)
Lemma canon_align (r : positive) (ez : Z) :
  digits r <= 53 -> ez <= digits r - 53 ->
  fst (shl_align (shlz r (53 - digits r)) (digits r - 53) ez) = shlz r (- ez).
Proof.
  intros Hd He. rewrite shl_align_shlz.
  destruct (ez <? digits r - 53) eqn:E; cbn [fst].
  - rewrite shlz_shlz by lia. f_equal. lia.
  - apply Z.ltb_ge in E. f_equal. lia.
Qed.

Lemma normalize_shl (m : Z) (K : Z) :
  0 <= K -> Z.abs m < 2 ^ 53 ->
  binary_normalize prec emax (m * 2 ^ K) (- K) false = float_of_Z m.
Proof.
  intros HK Hm. destruct m as [|p|p].
  - reflexivity.
  - rewrite float_of_Z_pos by exact Hm.
    rewrite <- shlz_value by exact HK. unfold binary_normalize.
    apply binary_round_shl; [exact HK | apply digits_le; lia].
  - rewrite float_of_Z_neg by exact Hm.
    replace (Z.neg p * 2 ^ K) with (- (Zpos p * 2 ^ K)) by lia.
    rewrite <- shlz_value by exact HK. unfold binary_normalize. simpl Z.opp.
    apply binary_round_shl; [exact HK | apply digits_le; lia].
Qed.

Lemma fadd_canon (p q : positive) :
  Zpos p + Zpos q < 2 ^ 53 ->
  fadd (canon false p) (canon false q) = float_of_Z (Zpos p + Zpos q).
Proof.
  intros H.
  assert (Hp : digits p <= 53) by (apply digits_le; lia).
  assert (Hq : digits q <= 53) by (apply digits_le; lia).
  unfold fadd, canon, SFadd.
  set (ez := Z.min (digits p - 53) (digits q - 53)).
  rewrite !canon_align by (unfold ez; lia).
  cbn [cond_Zopp]. rewrite !shlz_value by (unfold ez; lia).
  rewrite <- Z.mul_add_distr_r.
  pose proof (normalize_shl (Zpos p + Zpos q) (- ez)) as Hn.
  rewrite Z.opp_involutive in Hn. apply Hn; [unfold ez; lia | lia].
Qed.

Lemma fsub_canon (p q : positive) :
  Zpos p < 2 ^ 53 -> Zpos q < 2 ^ 53 ->
  fsub (canon false p) (canon false q) = float_of_Z (Zpos p - Zpos q).
Proof.
  intros Hp' Hq'.
  assert (Hp : digits p <= 53) by (apply digits_le; lia).
  assert (Hq : digits q <= 53) by (apply digits_le; lia).
  unfold fsub, canon, SFsub.
  set (ez := Z.min (digits p - 53) (digits q - 53)).
  rewrite !canon_align by (unfold ez; lia).
  cbn [cond_Zopp]. rewrite !shlz_value by (unfold ez; lia).
  rewrite <- Z.mul_sub_distr_r.
  pose proof (normalize_shl (Zpos p - Zpos q) (- ez)) as Hn.
  rewrite Z.opp_involutive in Hn. apply Hn; [unfold ez; lia | lia].
Qed.

(** Addition, subtraction and comparison of whole numbers below [2^53] are
    exact. *)
Lemma fadd_exact (a b : Z) :
  0 <= a -> 0 <= b -> a + b < 2 ^ 53 ->
  fadd (float_of_Z a) (float_of_Z b) = float_of_Z (a + b).
Proof.
  intros Ha Hb H.
  destruct a as [|p|p]; [|destruct b as [|q|q]|]; try lia.
  - destruct b as [|q|q]; try lia; [reflexivity|].
    change (0 + Zpos q) with (Zpos q).
    rewrite float_of_Z_pos by lia. reflexivity.
  - rewrite Z.add_0_r, float_of_Z_pos by lia. reflexivity.
  - rewrite (float_of_Z_pos p), (float_of_Z_pos q) by lia. apply fadd_canon, H.
Qed.

Lemma fsub_exact (a b : Z) :
  0 <= b -> b <= a -> a < 2 ^ 53 ->
  fsub (float_of_Z a) (float_of_Z b) = float_of_Z (a - b).
Proof.
  intros Hb Hab Ha.
  destruct b as [|q|q]; try lia.
  - rewrite Z.sub_0_r. destruct a as [|p|p]; try lia; [reflexivity|].
    rewrite float_of_Z_pos by lia. reflexivity.
  - destruct a as [|p|p]; try lia.
    rewrite (float_of_Z_pos p), (float_of_Z_pos q) by lia.
    apply fsub_canon; lia.
Qed.

Lemma fmul_exact (a b : Z) :
  0 <= a < 2 ^ 53 -> 0 <= b < 2 ^ 53 -> a * b < 2 ^ 53 ->
  fmul (float_of_Z a) (float_of_Z b) = float_of_Z (a * b).
Proof.
  intros Ha Hb H.
  destruct a as [|p|p]; try lia.
  - destruct b as [|q|q]; try lia; [reflexivity|].
    rewrite float_of_Z_pos by lia. reflexivity.
  - destruct b as [|q|q]; try lia.
    + rewrite Z.mul_0_r, float_of_Z_pos by lia. reflexivity.
    + assert (Hdp : digits p <= 53) by (apply digits_le; lia).
      assert (Hdq : digits q <= 53) by (apply digits_le; lia).
      assert (Hdr : digits (p * q) <= 53) by (apply digits_le; lia).
      assert (Hpr : digits p <= digits (p * q)) by (apply digits_mono; nia).
      rewrite (float_of_Z_pos p), (float_of_Z_pos q) by lia.
      change (Zpos p * Zpos q) with (Zpos (p * q)).
      rewrite float_of_Z_pos by exact H.
      unfold fmul, canon, SFmul. cbn [xorb].
      pose proof (binary_round_aux_exact false
                    (shlz (p * q) (53 - digits (p * q)))
                    (digits p - 53 + (digits q - 53))
                    (53 + digits (p * q) - digits p - digits q)) as Hr.
      rewrite shlz_shlz in Hr by lia.
      replace (shlz (p * q) (53 - digits (p * q) + (53 + digits (p * q) - digits p - digits q)))
        with (shlz p (53 - digits p) * shlz q (53 - digits q))%positive in Hr.
      2:{ apply Pos2Z.inj. rewrite Pos2Z.inj_mul, !shlz_value by lia.
          rewrite Pos2Z.inj_mul.
          replace (53 - digits (p * q) + (53 + digits (p * q) - digits p - digits q))
            with ((53 - digits p) + (53 - digits q)) by lia.
          rewrite Z.pow_add_r by lia. lia. }
      rewrite Hr; [f_equal; lia | lia | | unfold emax, prec; lia].
      rewrite shlz_digits by lia.
      pose proof (digits_pos (p * q)).
      rewrite fexp_digits by lia. lia.
Qed.

Lemma fge_exact (a b : Z) :
  0 <= a < 2 ^ 53 -> 0 <= b < 2 ^ 53 ->
  fge (float_of_Z b) (float_of_Z a) = (a <=? b).
Proof.
  intros Ha Hb.
  destruct a as [|p|p]; [|destruct b as [|q|q]|]; try lia.
  - destruct b as [|q|q]; try lia; [reflexivity|].
    rewrite float_of_Z_pos by lia. reflexivity.
  - rewrite float_of_Z_pos by lia. reflexivity.
  - rewrite (float_of_Z_pos p), (float_of_Z_pos q) by lia.
    unfold fge, SFleb, SFcompare, canon.
    pose proof (digits_bounds p) as Bp. pose proof (digits_bounds q) as Bq.
    assert (Hdp : digits p <= 53) by (apply digits_le; lia).
    assert (Hdq : digits q <= 53) by (apply digits_le; lia).
    destruct (Z.compare_spec (digits p - 53) (digits q - 53)) as [E|E|E].
    + change (Pos.compare_cont Eq ?x ?y) with (Pos.compare x y).
      rewrite Pos2Z.inj_compare, !shlz_value by lia.
      replace (digits p) with (digits q) by lia.
      assert (0 < 2 ^ (53 - digits q)) by (apply Z.pow_pos_nonneg; lia).
      destruct (Z.compare_spec (Zpos p * 2 ^ (53 - digits q))
                  (Zpos q * 2 ^ (53 - digits q))) as [C|C|C];
        symmetry; [apply Z.leb_le | apply Z.leb_le | apply Z.leb_gt]; nia.
    + symmetry. apply Z.leb_le.
      assert (2 ^ digits p <= 2 ^ (digits q - 1)) by (apply Z.pow_le_mono_r; lia).
      lia.
    + symmetry. apply Z.leb_gt.
      assert (2 ^ digits q <= 2 ^ (digits p - 1)) by (apply Z.pow_le_mono_r; lia).
      lia.
Qed.

Lemma float_of_int_whole (n : Z) : whole n -> float_of_int n = Val (float_of_Z n).
Proof.
  intros [Hn Hb]. unfold float_of_int.
  destruct n as [|p|p]; [reflexivity | | lia].
  rewrite float_of_Z_pos by exact Hb. reflexivity.
Qed.

(** ** Metrics delta aggregator *)

Lemma update_lifetime_traffic_step (d : Direction) (s : State) (m : Metrics) :
  lifetime d (update_lifetime_traffic s m)
  = (if fge (counter d m) (last_seen d s)
     then fadd (lifetime d s) (fsub (counter d m) (last_seen d s))
     else lifetime d s)
  /\ last_seen d (update_lifetime_traffic s m) = counter d m.
Proof.
  unfold update_lifetime_traffic, lifetime, lifetime_up, lifetime_down,
    last_seen, counter.
  destruct d;
    destruct (fge (get0 (m !! conduit_bytes_uploaded)) _);
    destruct (fge (get0 (m !! conduit_bytes_downloaded)) _);
    split; reflexivity.
Qed.

(** One sample on whole numbers: the code computes what the specification
    says. *)
Lemma update_lifetime_traffic_whole
    (d : Direction) (s : State) (m : Metrics) (L l c : Z) :
  lifetime d s = float_of_Z L -> last_seen d s = float_of_Z l ->
  counter d m = float_of_Z c ->
  0 <= L -> whole l -> whole c ->
  (if l <=? c then L + (c - l) else L) < 2 ^ 53 ->
  lifetime d (update_lifetime_traffic s m)
  = float_of_Z (if l <=? c then L + (c - l) else L)
  /\ last_seen d (update_lifetime_traffic s m) = float_of_Z c.
Proof.
  intros HL Hl Hc HL0 Wl Wc Hb.
  destruct (update_lifetime_traffic_step d s m) as [Hstep Hseen].
  rewrite Hstep, Hseen, HL, Hl, Hc. split; [|reflexivity].
  rewrite (fge_exact l c Wl Wc).
  destruct (l <=? c) eqn:E; [|reflexivity].
  apply Z.leb_le in E. unfold whole in *.
  rewrite fsub_exact, fadd_exact by lia. reflexivity.
Qed.

Lemma aggregate_whole (d : Direction) (cs : list Z) :
  forall (samples : list Metrics) (s : State) (L l : Z),
    lifetime d s = float_of_Z L -> last_seen d s = float_of_Z l ->
    List.map (counter d) samples = List.map float_of_Z cs ->
    0 <= L -> whole l -> Forall whole cs ->
    Forall whole (spec_lifetime L l cs) ->
    List.map (lifetime d) (aggregate s samples)
    = List.map float_of_Z (spec_lifetime L l cs)
    /\ List.map (last_seen d) (aggregate s samples) = List.map float_of_Z cs.
Proof.
  induction cs as [|c cs IH]; intros [|m samples] s L l HL Hl Hcs HL0 Wl Wcs Wt;
    try discriminate Hcs; [split; reflexivity|].
  cbn [List.map] in Hcs. injection Hcs as Hc Hcs.
  apply Forall_cons in Wcs. destruct Wcs as [Wc Wcs].
  cbn [spec_lifetime] in Wt |- *. apply Forall_cons in Wt. destruct Wt as [Wt0 Wt].
  destruct (update_lifetime_traffic_whole d s m L l c HL Hl Hc HL0 Wl Wc
              (proj2 Wt0)) as [HL' Hl'].
  cbn [aggregate List.map]. rewrite HL', Hl'.
  destruct (IH samples (update_lifetime_traffic s m) _ c HL' Hl' Hcs (proj1 Wt0)
              Wc Wcs Wt) as [IH1 IH2].
  rewrite IH1, IH2. split; reflexivity.
Qed.

Lemma spec_lifetime_nondecreasing (cs : list Z) :
  forall (L l : Z),
    whole L -> Forall whole (spec_lifetime L l cs) ->
    nondecreasing (List.map float_of_Z (L :: spec_lifetime L l cs)).
Proof.
  induction cs as [|c cs IH]; intros L l WL Wt; [exact I|].
  cbn [spec_lifetime] in Wt |- *. apply Forall_cons in Wt. destruct Wt as [Wt0 Wt].
  cbn [List.map nondecreasing]. split.
  - rewrite (fge_exact L _ WL Wt0). apply Z.leb_le.
    destruct (l <=? c) eqn:E; [apply Z.leb_le in E|]; lia.
  - apply (IH _ c Wt0 Wt).
Qed.

(** C1, amended. For each direction the aggregator adds the float
    [current - last seen] to the lifetime total when [current >= last seen]
    and leaves the total alone otherwise, and records the current counter as
    last seen in both cases. On counters that are whole numbers of bytes,
    with counters and totals below [2^53], this is exact: the totals are
    those of the specification, credit [current - last seen] or nothing, and
    they never decrease over the sequence. From the zero state the upload
    samples 0, 1000, 2000, 500, 800 give the totals 0, 1000, 2000, 2000,
    2300. *)
Theorem update_lifetime_traffic_reset_tolerant :
  (forall (d : Direction) (s : State) (m : Metrics),
      let s' := update_lifetime_traffic s m in
      lifetime d s'
      = (if fge (counter d m) (last_seen d s)
         then fadd (lifetime d s) (fsub (counter d m) (last_seen d s))
         else lifetime d s)
      /\ last_seen d s' = counter d m)
  /\ (forall (d : Direction) (s : State) (samples : list Metrics)
             (total seen : Z) (counters : list Z),
        lifetime d s = float_of_Z total ->
        last_seen d s = float_of_Z seen ->
        List.map (counter d) samples = List.map float_of_Z counters ->
        whole total -> whole seen -> Forall whole counters ->
        Forall whole (spec_lifetime total seen counters) ->
        List.map (lifetime d) (aggregate s samples)
        = List.map float_of_Z (spec_lifetime total seen counters)
        /\ List.map (last_seen d) (aggregate s samples)
           = List.map float_of_Z counters
        /\ nondecreasing
             (lifetime d s :: List.map (lifetime d) (aggregate s samples)))
  /\ List.map lifetime_up
       (aggregate empty_state
          (List.map upload_sample (List.map float_of_Z [0; 1000; 2000; 500; 800])))
     = List.map float_of_Z [0; 1000; 2000; 2000; 2300].
Proof.
  split; [|split].
  - intros d s m. apply update_lifetime_traffic_step.
  - intros d s samples total seen counters HL Hl Hcs WL Wl Wcs Wt.
    destruct (aggregate_whole d counters samples s total seen HL Hl Hcs
                (proj1 WL) Wl Wcs Wt) as [Htotals Hseen].
    split; [exact Htotals|]. split; [exact Hseen|].
    rewrite Htotals, HL.
    apply (spec_lifetime_nondecreasing counters total seen WL Wt).
  - vm_compute. reflexivity.
Qed.

(** The run of the specification, read off the general statement. *)
Lemma update_lifetime_traffic_reset_tolerant_witness :
  let samples :=
    List.map upload_sample (List.map float_of_Z [0; 1000; 2000; 500; 800]) in
  List.map (lifetime Up) (aggregate empty_state samples)
  = List.map float_of_Z [0; 1000; 2000; 2000; 2300]
  /\ nondecreasing
       (lifetime Up empty_state :: List.map (lifetime Up) (aggregate empty_state samples)).
Proof.
  cbv zeta.
  destruct (proj1 (proj2 update_lifetime_traffic_reset_tolerant) Up empty_state
              (List.map upload_sample (List.map float_of_Z [0; 1000; 2000; 500; 800]))
              0 0 [0; 1000; 2000; 500; 800] eq_refl eq_refl eq_refl)
    as (Htotals & _ & Hmono).
  - unfold whole. lia.
  - unfold whole. lia.
  - repeat (constructor; [unfold whole; lia|]). constructor.
  - change (spec_lifetime 0 0 [0; 1000; 2000; 500; 800])
      with [0; 1000; 2000; 2000; 2300].
    repeat (constructor; [unfold whole; lia|]). constructor.
  - split; [exact Htotals | exact Hmono].
Defined.

(** C1, as stated, fails: the upload counter reads [+Inf] twice; the first
    sample takes the total to [inf], the second adds [inf - inf], which is
    [nan], and [nan >= inf] is false. *)
Lemma lifetime_lost_at_infinite_counter : ~ aggregator_monotone.
Proof.
  intros Hclaim.
  destruct (Hclaim empty_state (List.map upload_sample [INF; INF]))
    as (_ & Hsecond & _).
  vm_compute in Hsecond. discriminate Hsecond.
Qed.

(** At [2^53] a credit of one byte is rounded away: the step is the float
    sum, not the sum of the numbers. *)
Example lifetime_credit_rounded_away :
  let s := set_lifetime_bytes_uploaded (float_of_Z (2 ^ 53)) empty_state in
  lifetime_up (update_lifetime_traffic s (upload_sample (float_of_Z 1)))
  = float_of_Z (2 ^ 53).
Proof. vm_compute. reflexivity. Qed.

(** ** History buffers *)

Lemma append_bounded_slice {A} (hist : list A) (x : A) :
  append_bounded hist x = slice_last _HISTORY_MAX (hist ++ [x]).
Proof.
  unfold append_bounded, slice_last.
  destruct (_HISTORY_MAX <? length (hist ++ [x]))%nat eqn:E; [reflexivity|].
  apply Nat.ltb_ge in E.
  replace (length (hist ++ [x]) - _HISTORY_MAX)%nat with 0%nat by lia.
  reflexivity.
Qed.

Lemma slice_last_length {A} (n : nat) (l : list A) :
  length (slice_last n l) = Nat.min n (length l).
Proof. unfold slice_last. rewrite length_skipn. lia. Qed.

Lemma slice_last_suffix {A} (n : nat) (l : list A) :
  l = firstn (length l - n) l ++ slice_last n l.
Proof. unfold slice_last. symmetry. apply firstn_skipn. Qed.

Lemma slice_last_app {A} (n : nat) (l r : list A) :
  slice_last n (slice_last n l ++ r) = slice_last n (l ++ r).
Proof.
  unfold slice_last.
  rewrite !length_app, length_skipn.
  destruct (le_lt_dec (length l) n) as [Hle|Hlt].
  - replace (length l - n)%nat with 0%nat by lia. simpl.
    rewrite Nat.sub_0_r. reflexivity.
  - replace (length l - (length l - n) + length r - n)%nat
      with (length r) by lia.
    replace (length l + length r - n)%nat
      with ((length l - n) + length r)%nat by lia.
    rewrite <- drop_drop.
    rewrite (drop_app_le l r (length l - n)) by lia.
    reflexivity.
Qed.

Lemma append_bounded_fold {A} (xs : list A) :
  forall (hist : list A) (x : A),
    fold_left append_bounded (x :: xs) hist
    = slice_last _HISTORY_MAX (hist ++ x :: xs).
Proof.
  induction xs as [|y xs IH]; intros hist x.
  - simpl. apply append_bounded_slice.
  - change (fold_left append_bounded (x :: y :: xs) hist)
      with (fold_left append_bounded (y :: xs) (append_bounded hist x)).
    rewrite IH, append_bounded_slice, slice_last_app, <- app_assoc.
    reflexivity.
Qed.

(** C6. Appending pushes the sample to the back and keeps the last 40
    entries: the buffer is the suffix of the appended sequence of length
    [min 40 (length + 1)], whatever the starting buffer, also over any run
    of appends; both history functions of the state work this way, and 45
    samples appended to the empty buffer leave samples 6 to 45 in order. *)
Theorem append_history_bounded :
  (forall (A : Type) (hist : list A) (x : A),
      append_bounded hist x = slice_last 40 (hist ++ [x])
      /\ length (append_bounded hist x) = Nat.min 40 (length hist + 1)
      /\ hist ++ [x]
         = firstn (length (hist ++ [x]) - 40) (hist ++ [x])
           ++ append_bounded hist x)
  /\ (forall (A : Type) (hist : list A) (x : A) (xs : list A),
        fold_left append_bounded (x :: xs) hist
        = slice_last 40 (hist ++ x :: xs))
  /\ (forall (s : State) (m : Metrics),
        traffic_history (append_metrics_history s m)
        = append_bounded (traffic_history s)
            (get0 (m !! conduit_bytes_uploaded),
             get0 (m !! conduit_bytes_downloaded)))
  /\ (forall s : State,
        lifetime_history (append_lifetime_history s)
        = append_bounded (lifetime_history s) (lifetime_up s, lifetime_down s))
  /\ fold_left append_bounded (seq 1 45) [] = seq 6 40.
Proof.
  split; [|split; [|split; [|split]]].
  - intros A hist x. rewrite append_bounded_slice. split; [reflexivity|].
    split.
    + rewrite slice_last_length, length_app. simpl. reflexivity.
    + apply slice_last_suffix.
  - intros A hist x xs. apply append_bounded_fold.
  - reflexivity.
  - reflexivity.
  - vm_compute. reflexivity.
Qed.

(** ** Daily usage accumulator *)

Lemma fadd_zero_l (x : float) : same_number (fadd ZERO x) x.
Proof.
  destruct x as [s|s| |s m e]; try (left; reflexivity).
  destruct s; [right; exists false, true; split; reflexivity | left; reflexivity].
Qed.

Lemma update_client_seconds_today_sets_day
    (today : str) (s : State) (c : Z) (i : float) :
  last_day_utc (snd (update_client_seconds_today today s c i)) = Some today.
Proof.
  unfold update_client_seconds_today.
  destruct (bool_decide (last_day_utc s ≠ Some today)) eqn:E;
    destruct (float_of_int c) as [fc|e]; cbn [snd]; try reflexivity;
    apply bool_decide_eq_false in E;
    (destruct (decide (last_day_utc s = Some today)) as [Heq|Hne];
     [exact Heq | contradiction]).
Qed.

(** C8. With interval 30 and connected-client count [c]: when the stored
    UTC date differs from today the accumulator restarts from zero and the
    result is [c * 30]; otherwise it is the previous value plus [c * 30];
    the stored date is today afterwards. The product and the sum are those
    of floats, as the source computes them, and exact on whole numbers below
    [2^53]; a count beyond the floats makes the product raise after the date
    has been stored. *)
Theorem update_client_seconds_today_daily_reset :
  (forall (today : str) (s : State) (c : Z),
      let '(r, s') := update_client_seconds_today today s c THIRTY in
      last_day_utc s' = Some today
      /\ match float_of_int c with
         | Val fc =>
             r = Val tt
             /\ if bool_decide (last_day_utc s ≠ Some today)
                then same_number (get0 (client_seconds_today s')) (fmul fc THIRTY)
                else get0 (client_seconds_today s')
                     = fadd (get0 (client_seconds_today s)) (fmul fc THIRTY)
         | Raise e => r = Raise e
         end)
  /\ (forall (today : str) (s : State) (c before : Z),
        get0 (client_seconds_today s) = float_of_Z before ->
        whole c -> whole before -> whole (before + c * 30) ->
        let '(r, s') := update_client_seconds_today today s c THIRTY in
        r = Val tt
        /\ get0 (client_seconds_today s')
           = float_of_Z (if bool_decide (last_day_utc s ≠ Some today) then c * 30
                         else before + c * 30)).
Proof.
  split.
  - intros today s c. unfold update_client_seconds_today.
    destruct (bool_decide (last_day_utc s ≠ Some today)) eqn:E;
      destruct (float_of_int c) as [fc|e]; cbn [snd fst].
    + split; [reflexivity | split; [reflexivity | apply fadd_zero_l]].
    + split; reflexivity.
    + apply bool_decide_eq_false in E.
      destruct (decide (last_day_utc s = Some today)) as [Heq|Hne];
        [|contradiction].
      split; [exact Heq | split; reflexivity].
    + apply bool_decide_eq_false in E.
      destruct (decide (last_day_utc s = Some today)) as [Heq|Hne];
        [|contradiction].
      split; [exact Heq | reflexivity].
  - intros today s c before Hbefore Wc Wb Wsum.
    unfold update_client_seconds_today.
    rewrite (float_of_int_whole c Wc).
    change THIRTY with (float_of_Z 30). unfold whole in *.
    rewrite fmul_exact by lia.
    destruct (bool_decide (last_day_utc s ≠ Some today)); cbn [snd fst].
    + split; [reflexivity|]. cbn [client_seconds_today set_client_seconds_today
           set_last_day_utc get0 default from_option].
      change (id ZERO) with (float_of_Z 0).
      rewrite fadd_exact by lia. reflexivity.
    + split; [reflexivity|]. cbn [client_seconds_today set_client_seconds_today
           get0 default from_option]. change (id ?x) with x.
      rewrite Hbefore, fadd_exact by lia. reflexivity.
Qed.

(** Four clients on a new day over an accumulator that held 90 client
    seconds: the result is 120, not 210. *)
Lemma update_client_seconds_today_daily_reset_witness :
  let s := set_last_day_utc (lit "2026-01-01")
             (set_client_seconds_today (float_of_Z 90) empty_state) in
  get0 (client_seconds_today
          (snd (update_client_seconds_today (lit "2026-01-02") s 4 THIRTY)))
  = float_of_Z 120.
Proof.
  cbv zeta.
  pose proof (proj2 update_client_seconds_today_daily_reset (lit "2026-01-02")
                (set_last_day_utc (lit "2026-01-01")
                   (set_client_seconds_today (float_of_Z 90) empty_state))
                4 90 eq_refl) as H.
  destruct (update_client_seconds_today _ _ _ _) as [r s1].
  apply H; unfold whole; lia.
Defined.

(** ** Chat UI reconciler *)

Lemma added_app (w w' : World) (l : list Effect) :
  trace w' = trace w ++ l -> added w w' = l.
Proof.
  intros E. unfold added. rewrite E.
  rewrite drop_app_length. reflexivity.
Qed.




Lemma unset_false (id : Z) : id <> 0 -> unset (Some id) = false.
Proof. intros H. simpl. apply Z.eqb_neq, H. Qed.




(** The same failure on a server that refuses the replacement as well:
    the stored ids stay as they were. *)
Example replacement_refused_keeps_id :
  let env := quiet_env (failing EDIT_TARGET_GONE BOT_BLOCKED) None in
  let w := world_of complete_state in
  let w' := edit_command_desk env 7 CMD_DESK_MAIN_TEXT build_main_keyboard w in
  triad (state w') 7 = (Some 11, Some 12, Some 13)
  /\ length (added w w') = 2%nat.
Proof. split; reflexivity. Qed.

(** With both ids set the refresh is the dashboard edit followed by the
    status edit. *)
Lemma update_dashboard_for_chat_slots
    (env : Env) (chat_id : Z) (text : str) (image : list N) (w : World)
    (dash_id status_id : Z) :
  dashboard_message_ids (state w) !! chat_id = Some dash_id -> dash_id <> 0 ->
  status_message_ids (state w) !! chat_id = Some status_id -> status_id <> 0 ->
  update_dashboard_for_chat env chat_id text image w
  = edit_status_slot env chat_id status_id text
      (edit_dashboard_slot env chat_id dash_id image w).
Proof.
  intros Hd Hdz Hs Hsz. unfold update_dashboard_for_chat.
  rewrite Hd, Hs, (unset_false _ Hdz), (unset_false _ Hsz). reflexivity.
Qed.

(** C5, amended. When the dashboard id or the status id of the chat is
    unset the refresh does nothing at all: no call, no state change. The
    command id is not looked at. *)
Theorem refresh_idle_without_dashboard_or_status :
  forall (env : Env) (chat_id : Z) (text : str) (image : list N) (w : World),
    unset (dashboard_message_ids (state w) !! chat_id)
    || unset (status_message_ids (state w) !! chat_id) = true ->
    update_dashboard_for_chat env chat_id text image w = w.
Proof.
  intros env chat_id text image w H. unfold update_dashboard_for_chat.
  rewrite H. reflexivity.
Qed.

(** The refresh on a state that has no ids at all. *)
Lemma refresh_idle_without_dashboard_or_status_witness :
  update_dashboard_for_chat (quiet_env accepting None) 7 CMD_DESK_MAIN_TEXT []
    (world_of empty_state)
  = world_of empty_state.
Proof.
  apply (refresh_idle_without_dashboard_or_status
           (quiet_env accepting None) 7 CMD_DESK_MAIN_TEXT [] (world_of empty_state)).
  reflexivity.
Defined.

(** C5, as stated, fails: with the command id unset and the other two set,
    a refresh whose dashboard edit finds its target missing sends a new
    photo and records its id. *)
Lemma refresh_sends_with_command_unset : ~ refresh_idle_when_any_unset.
Proof.
  intros Hclaim.
  destruct (Hclaim (quiet_env (failing_once EDIT_TARGET_GONE) None) 7
              CMD_DESK_MAIN_TEXT [] (world_of deskless_state) eq_refl)
    as [Hsend _].
  vm_compute in Hsend. discriminate Hsend.
Qed.

(** ** Effects of the reconciler *)

Lemma api_only_refl (w : World) : api_only w w.
Proof. exists []. simpl. rewrite app_nil_r. reflexivity. Qed.

Lemma api_only_trans (w1 w2 w3 : World) :
  api_only w1 w2 -> api_only w2 w3 -> api_only w1 w3.
Proof.
  intros [c1 H1] [c2 H2]. exists (c1 ++ c2).
  rewrite H2, H1, List.map_app, app_assoc. reflexivity.
Qed.

Lemma api_only_call (c : Call) (w : World) : api_only w (emit (Api c) w).
Proof. exists [c]. reflexivity. Qed.

Lemma api_only_with_state (f : State -> State) (w w' : World) :
  api_only w w' -> api_only w (with_state f w').
Proof. intros [c Hc]. exists c. exact Hc. Qed.

Lemma api_only_request (env : Env) (c : Call) (w : World) :
  api_only w (snd (request env c w)).
Proof. apply api_only_call. Qed.

Lemma api_only_answer (env : Env) (id text : str) (w : World) :
  api_only w (answer_callback_query env id text w).
Proof. apply api_only_call. Qed.

Lemma api_only_edit_dashboard_slot
    (env : Env) (chat_id id : Z) (image : list N) (w : World) :
  api_only w (edit_dashboard_slot env chat_id id image w).
Proof.
  unfold edit_dashboard_slot, request.
  destruct (telegram env _ _) as [?|message]; [apply api_only_call|].
  destruct (classify message); try apply api_only_call.
  destruct (telegram env _ _);
    [apply api_only_with_state|];
    (eapply api_only_trans; [apply api_only_call | apply api_only_call]).
Qed.

Lemma api_only_edit_status_slot
    (env : Env) (chat_id id : Z) (text : str) (w : World) :
  api_only w (edit_status_slot env chat_id id text w).
Proof.
  unfold edit_status_slot, request.
  destruct (telegram env _ _) as [?|message]; [apply api_only_call|].
  destruct (classify message); try apply api_only_call.
  destruct (telegram env _ _);
    [apply api_only_with_state|];
    (eapply api_only_trans; [apply api_only_call | apply api_only_call]).
Qed.

Lemma api_only_update_dashboard_for_chat
    (env : Env) (chat_id : Z) (text : str) (image : list N) (w : World) :
  api_only w (update_dashboard_for_chat env chat_id text image w).
Proof.
  unfold update_dashboard_for_chat.
  destruct (unset _ || unset _); [apply api_only_refl|].
  eapply api_only_trans;
    [apply api_only_edit_dashboard_slot | apply api_only_edit_status_slot].
Qed.

Lemma api_only_edit_command_desk
    (env : Env) (chat_id : Z) (text : str) (keyboard : Keyboard) (w : World) :
  api_only w (edit_command_desk env chat_id text keyboard w).
Proof.
  unfold edit_command_desk, request.
  destruct (unset _).
  - destruct (telegram env _ _);
      [apply api_only_with_state|]; apply api_only_call.
  - destruct (telegram env _ _) as [?|message]; [apply api_only_call|].
    destruct (classify message); try apply api_only_call.
    destruct (telegram env _ _);
      [apply api_only_with_state|];
      (eapply api_only_trans; [apply api_only_call | apply api_only_call]).
Qed.

Lemma api_only_no_command (w w' : World) :
  api_only w w' -> filter is_command (added w w') = [].
Proof.
  intros [calls Hc]. rewrite (added_app _ _ _ Hc). clear Hc.
  induction calls as [|c calls IH]; [reflexivity | exact IH].
Qed.

Lemma api_only_no_save (w w' : World) :
  api_only w w' -> filter is_save (added w w') = [].
Proof.
  intros [calls Hc]. rewrite (added_app _ _ _ Hc). clear Hc.
  induction calls as [|c calls IH]; [reflexivity | exact IH].
Qed.

Lemma added_trans (w1 w2 w3 : World) (l1 l2 : list Effect) :
  trace w2 = trace w1 ++ l1 -> trace w3 = trace w2 ++ l2 ->
  added w1 w3 = l1 ++ l2.
Proof.
  intros H1 H2. apply added_app. rewrite H2, H1, app_assoc. reflexivity.
Qed.

(** ** Command desk state machine *)

(** The cancel buttons bound to a destination: each is one desk edit to the
    destination's text and keyboard followed by the acknowledgment, and no
    service command. *)
Lemma cancel_edits_desk_only `{Collaborators}
    (env : Env) (upd_id : Z) (cq_id : str) (chat_id : Z) (w : World) :
  let back text keyboard :=
    (Val tt,
     answer_callback_query env cq_id (lit "Cancelled.")
       (edit_command_desk env chat_id text keyboard w)) in
  dispatch env upd_id cq_id chat_id (lit "restart_conduit_cancel") w
    = back CMD_DESK_MAIN_TEXT build_main_keyboard
  /\ dispatch env upd_id cq_id chat_id (lit "stop_conduit_cancel") w
    = back CMD_DESK_MAIN_TEXT build_main_keyboard
  /\ dispatch env upd_id cq_id chat_id (lit "update_cancel") w
    = back CONFIGS_TEXT build_configs_keyboard
  /\ forall text keyboard,
       filter is_command (added w (snd (back text keyboard))) = [].
Proof.
  cbv zeta. repeat split; try reflexivity.
  intros text keyboard. apply api_only_no_command. simpl.
  eapply api_only_trans; [apply api_only_edit_command_desk | apply api_only_answer].
Qed.

Lemma fetch_and_record_trace `{Collaborators} (env : Env) (w : World) :
  trace (snd (fetch_and_record env w)) = trace w.
Proof.
  unfold fetch_and_record.
  destruct (fetch_metrics _) as [m|e]; [|reflexivity].
  destruct (nonempty m); reflexivity.
Qed.

Ltac decide_tokens :=
  repeat match goal with
         | |- context [pressed ?a ?b] =>
             let v := eval vm_compute in (pressed a b) in
             change (pressed a b) with v
         | |- context [startswith (lit ?a) (lit ?b)] =>
             let v := eval vm_compute in (startswith (lit a) (lit b)) in
             change (startswith (lit a) (lit b)) with v
         end;
  cbv iota.

(** Confirming the stop runs the stop command once and nothing else on the
    system side, also when the handler goes on to raise. *)
Lemma stop_confirm_stops_once `{Collaborators}
    (env : Env) (upd_id : Z) (cq_id : str) (chat_id : Z) (w : World) :
  filter is_command
    (added w (snd (dispatch env upd_id cq_id chat_id (lit "stop_conduit_confirm") w)))
  = [Os StopConduit].
Proof.
  unfold dispatch. decide_tokens.
  destruct (load_conduit_env _) as [[max_clients bandwidth]|e];
    [|cbn [snd]; rewrite (added_app w (system StopConduit w) [Os StopConduit] eq_refl);
      reflexivity].
  pose proof (fetch_and_record_trace env (system StopConduit w)) as Hfetch.
  destruct (fetch_and_record env (system StopConduit w)) as [metrics w1].
  simpl in Hfetch.
  destruct (render_views _ _ _ _ _) as [[status_text img_bytes]|e];
    [|cbn [snd]; rewrite (added_app w w1 [Os StopConduit] Hfetch); reflexivity].
  cbn [snd].
  match goal with
  | |- filter _ (added w (answer_callback_query _ _ _ (edit_command_desk _ _ _ _ ?w3))) = _ =>
      assert (Hapi : api_only w1 (answer_callback_query env cq_id
                        (lit "Conduit stopped. Status updated.")
                        (edit_command_desk env chat_id CMD_DESK_MAIN_TEXT
                           build_main_keyboard w3)))
  end.
  { eapply api_only_trans; [|apply api_only_answer].
    eapply api_only_trans; [|apply api_only_edit_command_desk].
    destruct metrics; [apply api_only_with_state|];
      apply api_only_update_dashboard_for_chat. }
  destruct Hapi as [calls Hcalls].
  rewrite (added_trans w w1 _ [Os StopConduit] (List.map Api calls));
    [| exact Hfetch | exact Hcalls].
  simpl. f_equal. clear Hcalls.
  induction calls as [|c calls IH]; [reflexivity | exact IH].
Qed.

(** C4 at [reboot_cancel]. The owner's press of the reboot cancel button
    raises [NameError] while the arguments of the desk edit are evaluated:
    the desk is not edited, the press is not acknowledged, the state is not
    saved; only the offset and [last_update_id] have moved. *)
Theorem reboot_cancel_raises_before_edit `{Collaborators} :
  forall (env : Env) (owner_chat_id upd_id : Z) (cq_id : str) (w : World),
    let w0 :=
      with_state (set_last_update_id (Some upd_id))
        (set_offset (Some (Z.max (default 0 (offset w)) (upd_id + 1))) w) in
    handle_update env owner_chat_id
      (CallbackQuery upd_id cq_id owner_chat_id (lit "reboot_cancel")) w
    = (Raise (NameError "cmd_desk_main_text"), w0)
    /\ added w w0 = []
    /\ state_file w0 = state_file w.
Proof.
  intros env owner_chat_id upd_id cq_id w. cbv zeta.
  split; [|split; [|reflexivity]].
  - unfold handle_update. rewrite Z.eqb_refl. reflexivity.
  - apply added_app. simpl. rewrite app_nil_r. reflexivity.
Qed.

(** ** Access gate *)

(** C7. A button press or a [/start] message from a chat other than the
    owner's is answered by exactly one rejection (the callback answer, or a
    plain message to the sender) and by nothing else: the handler finishes
    normally, the saved state document and the config file are as before,
    and of the state in memory only [last_update_id] has changed, so no
    per-chat entry has been read into an effect or written. *)
Theorem non_owner_is_rejected_once `{Collaborators} :
  forall (env : Env) (owner_chat_id chat_id upd_id : Z) (w : World),
    chat_id <> owner_chat_id ->
    let isolated (upd : Update) (rejection : Call) :=
      let '(r, w') := handle_update env owner_chat_id upd w in
      r = Val tt
      /\ added w w' = [Api rejection]
      /\ state_file w' = state_file w
      /\ conduit_env w' = conduit_env w
      /\ state w' = set_last_update_id (Some upd_id) (state w) in
    (forall cq_id data : str,
        isolated (CallbackQuery upd_id cq_id chat_id data)
          (AnswerCallbackQuery cq_id NOT_AUTHORIZED))
    /\ (forall rest : str,
          isolated (Message upd_id chat_id (lit "/start" ++ rest))
            (SendMessage chat_id NOT_AUTHORIZED None)).
Proof.
  intros env owner_chat_id chat_id upd_id w Hne. cbv zeta.
  apply Z.eqb_neq in Hne.
  split.
  - intros cq_id data. unfold handle_update. rewrite Hne. simpl.
    repeat split. apply added_app. reflexivity.
  - intros rest. unfold handle_update.
    change (startswith (lit "/start" ++ rest) (lit "/start")) with true.
    rewrite Hne. simpl.
    repeat split. apply added_app. reflexivity.
Qed.

(** A stranger, chat 8, presses a button and then sends [/start] to the bot
    of owner 7. *)
Lemma non_owner_is_rejected_once_witness :
  let env := quiet_env accepting None in
  let w := world_of complete_state in
  added w (snd (handle_update env 7
                  (CallbackQuery 1 (lit "q") 8 (lit "stop_conduit_confirm")) w))
  = [Api (AnswerCallbackQuery (lit "q") NOT_AUTHORIZED)]
  /\ added w (snd (handle_update env 7 (Message 1 8 (lit "/start")) w))
     = [Api (SendMessage 8 NOT_AUTHORIZED None)].
Proof.
  cbv zeta.
  destruct (non_owner_is_rejected_once (quiet_env accepting None) 7 8 1
              (world_of complete_state) ltac:(lia)) as [Hpress Hstart].
  specialize (Hpress (lit "q") (lit "stop_conduit_confirm")).
  specialize (Hstart []).
  split.
  - destruct (handle_update _ _ (CallbackQuery _ _ _ _) _) as [r w'].
    apply Hpress.
  - change (lit "/start" ++ []) with (lit "/start") in Hstart.
    destruct (handle_update _ _ (Message _ _ _) _) as [r w'].
    apply Hstart.
Defined.

(** Text that is not a [/start] command and updates of any other shape are
    ignored whoever sends them: no effect, nothing saved. *)
Lemma other_updates_ignored `{Collaborators}
    (env : Env) (owner_chat_id chat_id upd_id : Z) (text : str) (w : World) :
  startswith text (lit "/start") = false ->
  added w (snd (handle_update env owner_chat_id (Message upd_id chat_id text) w)) = []
  /\ added w (snd (handle_update env owner_chat_id (OtherUpdate upd_id) w)) = [].
Proof.
  intros Htext. unfold handle_update. rewrite Htext.
  split; apply added_app; simpl; rewrite app_nil_r; reflexivity.
Qed.

(** ** Metrics source unreachable *)

Lemma update_dashboard_for_chat_last_good
    (env : Env) (chat_id : Z) (text : str) (image : list N) (w : World) :
  last_good_metrics (state (update_dashboard_for_chat env chat_id text image w))
  = last_good_metrics (state w).
Proof.
  unfold update_dashboard_for_chat.
  destruct (unset _ || unset _); [reflexivity|].
  unfold edit_status_slot, edit_dashboard_slot, request.
  repeat match goal with
         | |- context [match telegram env ?n ?c with _ => _ end] =>
             destruct (telegram env n c)
         | |- context [match classify ?m with _ => _ end] =>
             destruct (classify m)
         end; reflexivity.
Qed.

(** Whatever the collaborators: a request that fails makes [fetch_metrics]
    return the empty sample, and a due periodic pass that gets past reading
    the config file then stores that empty sample as the last good one,
    whether or not it goes on to show anything. *)
Lemma failed_fetch_empties_cache `{Collaborators}
    (env : Env) (owner_chat_id : Z) (w : World) (content : option str) :
  metrics_body env = None ->
  fge (fsub (now env) (last_dashboard_ts w)) THIRTY = true ->
  read_text (conduit_env w) = Val content ->
  fetch_metrics (metrics_body env) = Val ∅
  /\ last_good_metrics (state (snd (periodic_refresh env owner_chat_id w))) = Some ∅.
Proof.
  intros Hbody Hdue Hread. rewrite Hbody. split; [reflexivity|].
  unfold periodic_refresh, load_conduit_env, fetch_cache_record.
  rewrite Hdue, Hread, Hbody.
  destruct (load_lines content) as [max_clients bandwidth].
  cbn [fetch_metrics].
  change (nonempty ∅) with false. cbv iota.
  destruct (render_views _ _ _ _ _) as [[status_text img_bytes]|e]; [|reflexivity].
  cbn [snd state save_state emit set_last_dashboard_ts].
  rewrite update_dashboard_for_chat_last_good. reflexivity.
Qed.

(** The one way the pass gets no sample at all: a response with a line
    that has a space and a single word makes the unpacking in
    [fetch_metrics] raise. *)
Example fetch_metrics_unpack_error :
  fetch_metrics (Some (lit " conduit_is_live")) = Raise ValueError
  /\ fetch_metrics (Some (lit "conduit_is_live 1" ++ [10%N] ++ lit "# note"))
     = Val {[ conduit_is_live := float_of_Z 1 ]}.
Proof. split; vm_compute; reflexivity. Qed.

(** C3 at a failed fetch. The request to the metrics source fails while the
    state caches a sample with five clients. [fetch_metrics] hands back the
    empty sample, not "no sample"; the periodic pass stores it over the
    cached one and edits the status text to "Clients: 0 ... STOPPED", where
    the reading of a missing sample documented in [build_status_message]
    would have shown "Clients: 5 ... unreachable". *)
Theorem failed_fetch_shown_as_stopped_zero :
  let env := quiet_env accepting None in
  let w := world_of cached_state in
  let w' := snd (periodic_refresh env 7 w) in
  let shown :=
    lit "Clients: 0" ++ [10; 10]%N ++ lit "Real-time:" ++ [10%N]
    ++ lit "  Conduit: STOPPED  " ++ [183%N] ++ lit "  Conduit service: active"
    ++ [10%N] ++ lit "  Server (bot): running" in
  fetch_metrics (metrics_body env) = Val ∅
  /\ last_good_metrics (state w) = Some cached_sample
  /\ fst (periodic_refresh env 7 w) = Val tt
  /\ last_good_metrics (state w') = Some ∅
  /\ added w w'
     = [Api (EditMessageMedia 7 11 []); Api (EditMessageText 7 12 shown None);
        SaveState (state w')]
  /\ build_status_message (Some ∅) 50 TEN (lit "active") (Some ∅) ZERO ZERO ZERO
     = Val shown
  /\ build_status_message None 50 TEN (lit "active") (Some cached_sample)
       ZERO ZERO ZERO
     = Val (lit "Clients: 5" ++ [10; 10]%N ++ lit "Real-time:" ++ [10%N]
            ++ lit "  Conduit: unreachable (service may be down)  " ++ [183%N]
            ++ lit "  Conduit service: active"
            ++ [10%N] ++ lit "  Server (bot): running").
Proof.
  cbv zeta. repeat split; vm_compute; reflexivity.
Qed.

(** ** Config store: strings *)

Lemma contains_char_In (c : N) (s : str) : contains_char c s = true <-> In c s.
Proof.
  unfold contains_char. rewrite existsb_exists. split.
  - intros [x [Hx E]]. apply N.eqb_eq in E. subst x. exact Hx.
  - intros Hin. exists c. split; [exact Hin | apply N.eqb_refl].
Qed.

Lemma contains_char_false (c : N) (s : str) :
  contains_char c s = false <-> ~ In c s.
Proof.
  rewrite <- contains_char_In. destruct (contains_char c s); split; congruence.
Qed.

Lemma lstrip_edge (s : str) : edge_ok (lstrip s) = true.
Proof.
  induction s as [|c s IH]; [reflexivity|]. simpl.
  destruct (isspace c) eqn:E; [exact IH|]. simpl. rewrite E. reflexivity.
Qed.

Lemma lstrip_id (s : str) : edge_ok s = true -> lstrip s = s.
Proof.
  destruct s as [|c s]; [reflexivity|]. simpl.
  destruct (isspace c); [discriminate | reflexivity].
Qed.

Lemma lstrip_In (c : N) (s : str) : In c (lstrip s) -> In c s.
Proof.
  induction s as [|a s IH]; [exact (fun H => H)|]. simpl.
  destruct (isspace a); [intros H; right; apply IH, H | exact (fun H => H)].
Qed.

Lemma lstrip_app_nonspace (y : str) (c : N) :
  isspace c = false -> lstrip (y ++ [c]) = lstrip y ++ [c].
Proof.
  intros Hc. induction y as [|a y IH]; simpl.
  - rewrite Hc. reflexivity.
  - destruct (isspace a); [exact IH | reflexivity].
Qed.

Lemma rstrip_cons_nonspace (c : N) (x : str) :
  isspace c = false -> rstrip (c :: x) = c :: rstrip x.
Proof.
  intros Hc. unfold rstrip. simpl rev.
  rewrite (lstrip_app_nonspace _ _ Hc), rev_app_distr. reflexivity.
Qed.

Lemma rstrip_app_space (x : str) (c : N) :
  isspace c = true -> rstrip (x ++ [c]) = rstrip x.
Proof.
  intros Hc. unfold rstrip. rewrite rev_app_distr. simpl. rewrite Hc.
  reflexivity.
Qed.

Lemma rstrip_In (c : N) (s : str) : In c (rstrip s) -> In c s.
Proof.
  unfold rstrip. intros H. apply in_rev in H. apply lstrip_In in H.
  apply in_rev, H.
Qed.

Lemma strip_In (c : N) (s : str) : In c (strip s) -> In c s.
Proof. intros H. apply lstrip_In, rstrip_In, H. Qed.

Lemma strip_edges (s : str) :
  edge_ok (strip s) = true /\ edge_ok (rev (strip s)) = true.
Proof.
  unfold strip. split.
  - pose proof (lstrip_edge s) as He.
    destruct (lstrip s) as [|c y]; [reflexivity|]. simpl in He.
    apply negb_true_iff in He. rewrite (rstrip_cons_nonspace _ _ He).
    simpl. rewrite He. reflexivity.
  - unfold rstrip. rewrite rev_involutive. apply lstrip_edge.
Qed.

Lemma strip_id (s : str) :
  edge_ok s = true -> edge_ok (rev s) = true -> strip s = s.
Proof.
  intros H1 H2. unfold strip, rstrip.
  rewrite (lstrip_id s H1), (lstrip_id (rev s) H2). apply rev_involutive.
Qed.

Lemma strip_idem (s : str) : strip (strip s) = strip s.
Proof. destruct (strip_edges s) as [H1 H2]. apply strip_id; assumption. Qed.

Lemma strip_fixed (s : str) :
  strip s = s -> edge_ok s = true /\ edge_ok (rev s) = true.
Proof. intros E. rewrite <- E. apply strip_edges. Qed.

Lemma strip_app_space (x : str) (c : N) :
  isspace c = true -> strip (x ++ [c]) = strip x.
Proof.
  intros Hc. induction x as [|a x IH].
  - unfold strip. simpl. rewrite Hc. reflexivity.
  - unfold strip in *. simpl. destruct (isspace a) eqn:Ea; [exact IH|].
    apply (rstrip_app_space (a :: x) c Hc).
Qed.

Lemma edge_ok_app (x y : str) (c : N) :
  edge_ok x = true -> isspace c = false -> edge_ok (x ++ c :: y) = true.
Proof.
  intros Hx Hc. destruct x as [|a x]; simpl.
  - rewrite Hc. reflexivity.
  - exact Hx.
Qed.

Lemma split_char_zero (sep : N) (s : str) : split_char sep 0 s = [s].
Proof.
  induction s as [|c s IH]; [reflexivity|]. simpl. rewrite IH.
  destruct (c =? sep)%N; reflexivity.
Qed.

Lemma split_char_first (sep : N) (k v : str) :
  ~ In sep k -> split_char sep 1 (k ++ sep :: v) = [k; v].
Proof.
  induction k as [|a k IH]; intros Hk.
  - simpl. rewrite N.eqb_refl, split_char_zero. reflexivity.
  - simpl. destruct (a =? sep)%N eqn:Ea.
    + apply N.eqb_eq in Ea. exfalso. apply Hk. left. exact Ea.
    + rewrite IH; [reflexivity|]. intros Hin. apply Hk. right. exact Hin.
Qed.

Lemma first_occurrence (c : N) (s : str) :
  In c s -> exists a b, s = a ++ c :: b /\ ~ In c a.
Proof.
  induction s as [|x s IH]; [intros []|]. intros Hin.
  destruct (N.eq_dec x c) as [->|Hne].
  - exists [], s. split; [reflexivity | exact (fun H => H)].
  - destruct Hin as [E|Hin]; [contradiction|].
    destruct (IH Hin) as [a [b [E Ha]]]. exists (x :: a), b. split.
    + rewrite E. reflexivity.
    + intros [E'|Hin']; [contradiction | exact (Ha Hin')].
Qed.

Lemma universal_newlines_id (s : str) :
  ~ In 13%N s -> universal_newlines s = s.
Proof.
  induction s as [|c s IH]; [reflexivity|]. intros Hs. simpl.
  destruct (c =? 13)%N eqn:Ec.
  - apply N.eqb_eq in Ec. exfalso. apply Hs. left. exact Ec.
  - rewrite IH; [reflexivity|]. intros Hin. apply Hs. right. exact Hin.
Qed.

Lemma universal_newlines_no_cr (s : str) : ~ In 13%N (universal_newlines s).
Proof.
  assert (Hn : forall (n : nat) (s : str),
             (length s <= n)%nat -> ~ In 13%N (universal_newlines s)).
  { induction n as [|n IH]; intros [|c t] Hlen; simpl in *;
      try (exact (fun H => H)); try lia.
    destruct (c =? 13)%N eqn:Ec.
    - intros [E|Hin]; [discriminate E|].
      destruct t as [|c' t']; [exact Hin|].
      simpl in Hlen.
      destruct (c' =? 10)%N; revert Hin; apply IH; simpl; lia.
    - intros [E|Hin].
      + subst c. discriminate Ec.
      + revert Hin. apply IH. lia. }
  apply (Hn (length s)). lia.
Qed.

Lemma universal_newlines_In (c : N) (s : str) :
  In c (universal_newlines s) -> c <> 13%N.
Proof. intros Hin ->. exact (universal_newlines_no_cr s Hin). Qed.

Lemma readlines_line (body rest : str) :
  ~ In 10%N body ->
  readlines (body ++ 10%N :: rest) = (body ++ [10%N]) :: readlines rest.
Proof.
  induction body as [|c body IH]; intros Hb; [reflexivity|].
  simpl. destruct (c =? 10)%N eqn:Ec.
  - apply N.eqb_eq in Ec. exfalso. apply Hb. left. exact Ec.
  - rewrite IH; [reflexivity|]. intros Hin. apply Hb. right. exact Hin.
Qed.

(** Every line holds its only newline at its end. *)
Lemma readlines_shape (s l : str) :
  In l (readlines s) ->
  exists body, (l = body ++ [10%N] \/ l = body)
               /\ ~ In 10%N body /\ forall c, In c body -> In c s.
Proof.
  revert l. induction s as [|c s IH]; intros l; [intros []|].
  simpl. destruct (c =? 10)%N eqn:Ec.
  - intros [E|Hin].
    + exists []. subst l. apply N.eqb_eq in Ec. subst c.
      split; [left; reflexivity|]. split; [exact (fun H => H) | intros ? []].
    + destruct (IH l Hin) as [body [Hl [Hb Hs]]]. exists body.
      split; [exact Hl|]. split; [exact Hb|]. intros x Hx. right. apply Hs, Hx.
  - apply N.eqb_neq in Ec.
    destruct (readlines s) as [|l0 ls] eqn:El.
    + intros [E|[]]. exists [c]. subst l. split; [right; reflexivity|].
      split.
      * intros [E|[]]. congruence.
      * intros x [E|[]]. left. exact E.
    + intros [E|Hin].
      * destruct (IH l0 (or_introl eq_refl)) as [body [Hl [Hb Hs]]].
        exists (c :: body). subst l. split.
        { destruct Hl as [->| ->]; [left | right]; reflexivity. }
        split.
        { intros [E|Hin]; [congruence | exact (Hb Hin)]. }
        { intros x [E|Hx]; [left; exact E | right; apply Hs, Hx]. }
      * destruct (IH l (or_intror Hin)) as [body [Hl [Hb Hs]]]. exists body.
        split; [exact Hl|]. split; [exact Hb|].
        intros x Hx. right. apply Hs, Hx.
Qed.

(** No line of a file keeps a line break once stripped. *)
Lemma file_line_stripped (raw line : str) (c : N) :
  In line (file_lines raw) -> In c (strip line) -> c <> 10%N /\ c <> 13%N.
Proof.
  unfold file_lines. intros Hl Hc.
  destruct (readlines_shape _ _ Hl) as [body [Hshape [Hb Hs]]].
  assert (Hbody : In c body).
  { destruct Hshape as [-> | ->].
    - rewrite strip_app_space in Hc by reflexivity. apply strip_In, Hc.
    - apply strip_In, Hc. }
  split.
  - intros ->. exact (Hb Hbody).
  - apply (universal_newlines_In c raw), Hs, Hbody.
Qed.

(** ** Config store: writing *)

Lemma clean_value_spec (v : str) :
  clean_value v = true <-> strip v = v /\ ~ In 10%N v /\ ~ In 13%N v.
Proof.
  unfold clean_value.
  rewrite !andb_true_iff, !negb_true_iff, !contains_char_false,
    bool_decide_eq_true.
  tauto.
Qed.

Lemma clean_key_spec (k : str) :
  clean_key k = true <->
  clean_value k = true /\ ~ In 61%N k /\ startswith k (lit "#") = false.
Proof.
  unfold clean_key.
  rewrite !andb_true_iff, !negb_true_iff, contains_char_false. tauto.
Qed.

(** A written line reads back as the entry it was written for. *)
Lemma env_line_render (k v : str) :
  clean_key k = true -> clean_value v = true ->
  env_line (line_of (k, v)) = Some (k, v).
Proof.
  intros Hk Hv.
  apply clean_key_spec in Hk. destruct Hk as [Hkv [Hk61 Hkhash]].
  apply clean_value_spec in Hkv. destruct Hkv as [Hks _].
  apply clean_value_spec in Hv. destruct Hv as [Hvs _].
  destruct (strip_fixed k Hks) as [Hk1 _].
  destruct (strip_fixed v Hvs) as [_ Hv2].
  unfold env_line, line_of. cbn [fst snd].
  change (k ++ lit "=" ++ v ++ [10%N]) with (k ++ (61%N :: v) ++ [10%N]).
  rewrite app_assoc, strip_app_space by reflexivity.
  assert (Hs : strip (k ++ 61%N :: v) = k ++ 61%N :: v).
  { apply strip_id.
    - apply edge_ok_app; [exact Hk1 | reflexivity].
    - rewrite rev_app_distr. simpl. rewrite <- app_assoc. simpl.
      apply edge_ok_app; [exact Hv2 | reflexivity]. }
  rewrite Hs.
  assert (Hne : bool_decide (k ++ 61%N :: v = []) = false).
  { apply bool_decide_eq_false_2. destruct k; discriminate. }
  assert (Hin : contains_char 61 (k ++ 61%N :: v) = true).
  { apply contains_char_In, in_elt. }
  assert (Hhash : startswith (k ++ 61%N :: v) (lit "#") = false).
  { destruct k as [|a k]; [reflexivity | exact Hkhash]. }
  rewrite Hne, Hin, Hhash. simpl.
  rewrite (split_char_first 61 k v Hk61), Hks, Hvs. reflexivity.
Qed.

(** An entry read off a line whose stripped form holds no line break is
    clean. *)
Lemma env_line_clean (line k v : str) :
  env_line line = Some (k, v) ->
  (forall c, In c (strip line) -> c <> 10%N /\ c <> 13%N) ->
  clean_key k = true /\ clean_value v = true.
Proof.
  unfold env_line. intros Hline Hchars.
  destruct (strip_edges line) as [Hedge _].
  set (sl := strip line) in *.
  destruct (bool_decide (sl = [])) eqn:Hnil; [discriminate|].
  destruct (contains_char 61 sl) eqn:Heq; [|discriminate].
  destruct (startswith sl (lit "#")) eqn:Hhash; [discriminate|].
  simpl in Hline.
  apply contains_char_In in Heq.
  destruct (first_occurrence _ _ Heq) as [a [b [Esl Ha]]].
  rewrite Esl, (split_char_first 61 a b Ha) in Hline.
  injection Hline as <- <-.
  assert (Hsub_a : forall c, In c (strip a) -> In c sl).
  { intros c Hc. rewrite Esl. apply in_or_app. left. apply strip_In, Hc. }
  assert (Hsub_b : forall c, In c (strip b) -> In c sl).
  { intros c Hc. rewrite Esl. apply in_or_app. right. right. apply strip_In, Hc. }
  assert (Hclean : forall x, (forall c, In c (strip x) -> In c sl) ->
                             clean_value (strip x) = true).
  { intros x Hx. apply clean_value_spec. split; [apply strip_idem|].
    split; intros Hin; apply Hx, Hchars in Hin; destruct Hin; congruence. }
  split; [|apply Hclean, Hsub_b].
  apply clean_key_spec. split; [apply Hclean, Hsub_a|]. split.
  - intros Hin. apply Ha, strip_In, Hin.
  - destruct a as [|c a]; [reflexivity|].
    rewrite Esl in Hedge, Hhash. simpl in Hedge, Hhash.
    apply negb_true_iff in Hedge.
    unfold strip. rewrite lstrip_id by (simpl; rewrite Hedge; reflexivity).
    rewrite (rstrip_cons_nonspace _ _ Hedge). simpl. exact Hhash.
Qed.

Lemma dict_get_set_eq (d : Dict) (k v : str) :
  dict_get (dict_set d k v) k = Some v.
Proof.
  induction d as [|[k' v'] d IH]; simpl.
  - rewrite bool_decide_eq_true_2; reflexivity.
  - destruct (bool_decide (k' = k)) eqn:E; simpl; rewrite E; [reflexivity | exact IH].
Qed.

Lemma dict_get_set_ne (d : Dict) (k k0 v : str) :
  k0 <> k -> dict_get (dict_set d k v) k0 = dict_get d k0.
Proof.
  intros Hne.
  induction d as [|[k' v'] d IH]; simpl.
  - rewrite bool_decide_eq_false_2; [reflexivity | congruence].
  - destruct (bool_decide (k' = k)) eqn:E; simpl.
    + apply bool_decide_eq_true in E. subst k'.
      rewrite bool_decide_eq_false_2; [reflexivity | congruence].
    + rewrite IH. reflexivity.
Qed.

Lemma dict_set_fresh (d : Dict) (k v : str) :
  k ∉ d.*1 -> dict_set d k v = d ++ [(k, v)].
Proof.
  induction d as [|[k' v'] d IH]; intros Hk; [reflexivity|].
  rewrite fmap_cons in Hk. cbn [fst] in Hk.
  apply not_elem_of_cons in Hk. destruct Hk as [Hne Hk].
  cbn [dict_set]. rewrite bool_decide_eq_false_2 by congruence.
  rewrite (IH Hk). reflexivity.
Qed.

Lemma dict_set_keys (d : Dict) (k v : str) :
  ((dict_set d k v).*1 = d.*1)
  \/ ((k ∉ (d.*1)) /\ (dict_set d k v).*1 = (d.*1) ++ [k]).
Proof.
  induction d as [|[k' v'] d IH].
  - right. split; [apply not_elem_of_nil | reflexivity].
  - cbn [dict_set]. destruct (bool_decide (k' = k)) eqn:E; [left; reflexivity|].
    apply bool_decide_eq_false in E. rewrite !fmap_cons. cbn [fst].
    destruct IH as [IH | [Hk IH]]; rewrite IH; [left; reflexivity|].
    right. split; [|reflexivity].
    apply not_elem_of_cons. split; [congruence | exact Hk].
Qed.

Lemma dict_set_entries (d : Dict) (k v : str) (P : str * str -> Prop) :
  Forall P d -> P (k, v) -> Forall P (dict_set d k v).
Proof.
  intros Hd Hv. induction Hd as [|[k' v'] d Hx Hd IH]; cbn [dict_set].
  - apply Forall_cons. split; [exact Hv | apply Forall_nil; exact I].
  - destruct (bool_decide (k' = k)) eqn:E.
    + apply bool_decide_eq_true in E. subst k'.
      apply Forall_cons. split; [exact Hv | exact Hd].
    + apply Forall_cons. split; [exact Hx | exact IH].
Qed.

Lemma dict_set_wf (d : Dict) (k v : str) :
  wf_dict d -> clean_key k = true -> clean_value v = true ->
  wf_dict (dict_set d k v).
Proof.
  intros [Hnd Hall] Hk Hv. split.
  - destruct (dict_set_keys d k v) as [E | [Hfresh E]]; rewrite E; [exact Hnd|].
    apply NoDup_app. split; [exact Hnd|]. split; [|apply NoDup_singleton].
    intros x Hx Hx'. apply list_elem_of_singleton in Hx'. subst x.
    contradiction.
  - apply dict_set_entries; [exact Hall | split; assumption].
Qed.

Lemma parse_fold_wf (raw : str) (lines : list str) :
  forall acc : Dict,
    (forall l, In l lines -> In l (file_lines raw)) ->
    wf_dict acc -> wf_dict (fold_left parse_step lines acc).
Proof.
  induction lines as [|line lines IH]; intros acc Hsub Hacc; [exact Hacc|].
  simpl. apply IH.
  - intros l Hl. apply Hsub. right. exact Hl.
  - unfold parse_step. destruct (env_line line) as [[k v]|] eqn:E; [|exact Hacc].
    destruct (env_line_clean line k v E) as [Hk Hv].
    + intros c Hc. apply (file_line_stripped raw line c); [|exact Hc].
      apply Hsub. left. reflexivity.
    + apply dict_set_wf; assumption.
Qed.

(** What is read from a file is a dict of distinct clean entries. *)
Lemma parse_env_wf (file : option str) : wf_dict (parse_env file).
Proof.
  assert (Hnil : wf_dict []).
  { split; [apply NoDup_nil; exact I | apply Forall_nil; exact I]. }
  destruct file as [raw|]; [|exact Hnil].
  apply (parse_fold_wf raw); [exact (fun l H => H) | exact Hnil].
Qed.

Lemma render_env_cons (kv : str * str) (d : Dict) :
  render_env (kv :: d) = line_of kv ++ render_env d.
Proof. destruct kv. reflexivity. Qed.

Lemma line_of_chars (k v : str) (c : N) :
  In c (k ++ 61%N :: v) -> In c k \/ c = 61%N \/ In c v.
Proof.
  intros H. apply in_app_or in H. destruct H as [H|[H|H]]; auto.
Qed.

Lemma line_of_eq (k v : str) : line_of (k, v) = (k ++ 61%N :: v) ++ [10%N].
Proof. unfold line_of. cbn [fst snd]. rewrite <- app_assoc. reflexivity. Qed.

Lemma render_env_shape (k v : str) (d : Dict) :
  render_env ((k, v) :: d) = (k ++ 61%N :: v) ++ 10%N :: render_env d.
Proof.
  rewrite render_env_cons, line_of_eq, <- app_assoc. reflexivity.
Qed.

Lemma readlines_render (d : Dict) :
  Forall (fun kv => clean_key kv.1 = true /\ clean_value kv.2 = true) d ->
  readlines (render_env d) = List.map line_of d /\ ~ In 13%N (render_env d).
Proof.
  induction 1 as [|[k v] d [Hk Hv] Hd [IHl IHc]]; [split; [reflexivity | intros []]|].
  cbn [fst snd] in Hk, Hv.
  apply clean_key_spec in Hk. destruct Hk as [Hkv _].
  apply clean_value_spec in Hkv. destruct Hkv as [_ [Hk10 Hk13]].
  apply clean_value_spec in Hv. destruct Hv as [_ [Hv10 Hv13]].
  rewrite render_env_shape.
  split.
  - rewrite readlines_line.
    + rewrite IHl. cbn [List.map]. rewrite line_of_eq. reflexivity.
    + intros Hin. apply line_of_chars in Hin.
      destruct Hin as [Hin|[Hin|Hin]]; [exact (Hk10 Hin) | discriminate Hin | exact (Hv10 Hin)].
  - intros Hin. apply in_app_or in Hin. destruct Hin as [Hin|[Hin|Hin]].
    + apply line_of_chars in Hin.
      destruct Hin as [Hin|[Hin|Hin]]; [exact (Hk13 Hin) | discriminate Hin | exact (Hv13 Hin)].
    + discriminate Hin.
    + exact (IHc Hin).
Qed.

Lemma parse_fold_render (d : Dict) :
  Forall (fun kv => clean_key kv.1 = true /\ clean_value kv.2 = true) d ->
  forall acc : Dict,
    NoDup ((acc ++ d).*1) ->
    fold_left parse_step (List.map line_of d) acc = acc ++ d.
Proof.
  induction 1 as [|[k v] d [Hk Hv] Hd IH]; intros acc Hnd.
  - simpl. rewrite app_nil_r. reflexivity.
  - cbn [fst snd] in Hk, Hv. cbn [List.map fold_left].
    unfold parse_step at 2. rewrite (env_line_render k v Hk Hv).
    assert (Hfresh : k ∉ acc.*1).
    { rewrite fmap_app, fmap_cons in Hnd. apply NoDup_app in Hnd.
      destruct Hnd as [_ [Hdisj _]]. intros Hin.
      apply (Hdisj k Hin). left. }
    rewrite (dict_set_fresh acc k v Hfresh), IH.
    + rewrite <- app_assoc. reflexivity.
    + rewrite <- app_assoc. exact Hnd.
Qed.

(** Reading back what was written gives the dict that was written. *)
Lemma parse_render (d : Dict) :
  wf_dict d -> parse_env (Some (render_env d)) = d.
Proof.
  intros [Hnd Hall]. unfold parse_env, file_lines.
  destruct (readlines_render d Hall) as [Hlines Hcr].
  rewrite (universal_newlines_id _ Hcr), Hlines.
  apply (parse_fold_render d Hall []). exact Hnd.
Qed.

Lemma managed_keys_clean :
  clean_key MAX_CLIENTS = true /\ clean_key BANDWIDTH = true.
Proof. split; vm_compute; reflexivity. Qed.

(** Every value the command desk writes is clean. *)
Lemma preset_values_clean :
  forallb (fun v => clean_value (str_of_Z v)) (allowed ++ allowed_bw) = true.
Proof. vm_compute. reflexivity. Qed.




(** The two files of that write. *)
Example write_with_line_break_files :
  set_conduit_param (Text (lit "A=1" ++ [10%N])) MAX_CLIENTS
    (lit "5" ++ [10%N] ++ lit "A=2")
  = Val (lit "A=1" ++ [10%N] ++ lit "MAX_CLIENTS=5" ++ [10%N] ++ lit "A=2" ++ [10%N])
  /\ set_conduit_param Undecodable MAX_CLIENTS (lit "5") = Raise UnicodeDecodeError.
Proof. split; reflexivity. Qed.

(** ** Config store: reading *)

Lemma last_cons {A} (x : A) (l : list A) (d : A) :
  List.last (x :: l) d = List.last l x.
Proof.
  revert x d. induction l as [|y l IH]; intros x d; [reflexivity|].
  change (List.last (x :: y :: l) d) with (List.last (y :: l) d).
  rewrite (IH y d), (IH y x). reflexivity.
Qed.

Lemma load_fold `{Collaborators} (lines : list str) :
  forall (mc : Z) (bw : float),
    fold_left load_step lines (mc, bw)
    = (List.last
         (omap (fun line =>
                  match env_line line with
                  | Some (k, v) =>
                      if bool_decide (k = MAX_CLIENTS) then py_int v else None
                  | None => None
                  end) lines) mc,
       List.last
         (omap (fun line =>
                  match env_line line with
                  | Some (k, v) =>
                      if bool_decide (k = BANDWIDTH) then py_float v else None
                  | None => None
                  end) lines) bw).
Proof.
  induction lines as [|line lines IH]; intros mc bw; [reflexivity|].
  cbn [fold_left omap list_omap]. unfold load_step at 2.
  destruct (env_line line) as [[k v]|]; [|apply IH].
  destruct (bool_decide (k = MAX_CLIENTS)) eqn:Ek.
  - apply bool_decide_eq_true in Ek. subst k.
    assert (bool_decide (MAX_CLIENTS = BANDWIDTH) = false) as -> by reflexivity.
    destruct (py_int v) as [n|]; [|apply IH].
    rewrite IH, last_cons. reflexivity.
  - destruct (bool_decide (k = BANDWIDTH)); [|apply IH].
    destruct (py_float v) as [b|]; [|apply IH].
    rewrite IH, last_cons. reflexivity.
Qed.

(** What the line loop makes of a line of the specification. *)
Lemma env_line_conf_line (l : ConfLine) :
  plain_line l = true ->
  env_line (conf_line_text l ++ [10%N])
  = match l with
    | Entry k v => Some (k, v)
    | Other _ => None
    end.
Proof.
  destruct l as [k v|t]; cbn [plain_line conf_line_text].
  - intros H. apply andb_true_iff in H. destruct H as [Hk Hv].
    change ((k ++ lit "=" ++ v) ++ [10%N]) with ((k ++ 61%N :: v) ++ [10%N]).
    rewrite <- line_of_eq. apply env_line_render; assumption.
  - intros H. apply andb_true_iff in H. destruct H as [H _].
    apply andb_true_iff in H. destruct H as [H _].
    unfold env_line. rewrite strip_app_space by reflexivity.
    unfold no_entry in H.
    destruct (bool_decide (strip t = [])); [reflexivity|].
    destruct (contains_char 61 (strip t)); [|reflexivity].
    destruct (startswith (strip t) (lit "#")); [reflexivity|].
    discriminate H.
Qed.

Lemma plain_line_chars (l : ConfLine) :
  plain_line l = true ->
  ~ In 10%N (conf_line_text l) /\ ~ In 13%N (conf_line_text l).
Proof.
  destruct l as [k v|t]; cbn [plain_line conf_line_text].
  - intros H. apply andb_true_iff in H. destruct H as [Hk Hv].
    apply clean_key_spec in Hk. destruct Hk as [Hkv _].
    apply clean_value_spec in Hkv. destruct Hkv as [_ [Hk10 Hk13]].
    apply clean_value_spec in Hv. destruct Hv as [_ [Hv10 Hv13]].
    change (k ++ lit "=" ++ v) with (k ++ 61%N :: v).
    split; intros Hin; apply line_of_chars in Hin;
      destruct Hin as [Hin|[Hin|Hin]]; try discriminate Hin; auto.
  - intros H. apply andb_true_iff in H. destruct H as [H H13].
    apply andb_true_iff in H. destruct H as [_ H10].
    apply negb_true_iff, contains_char_false in H10, H13. split; assumption.
Qed.

Lemma conf_text_lines (lines : list ConfLine) :
  forallb plain_line lines = true ->
  readlines (conf_text lines)
  = List.map (fun l => conf_line_text l ++ [10%N]) lines
  /\ ~ In 13%N (conf_text lines).
Proof.
  induction lines as [|l lines IH]; [intros _; split; [reflexivity | intros []]|].
  cbn [forallb]. intros H. apply andb_true_iff in H. destruct H as [Hl Hlines].
  destruct (IH Hlines) as [IHl IHc].
  destruct (plain_line_chars l Hl) as [H10 H13].
  unfold conf_text. cbn [List.map concat]. fold (conf_text lines).
  rewrite <- app_assoc. cbn [app]. split.
  - rewrite (readlines_line _ _ H10), IHl. reflexivity.
  - intros Hin. apply in_app_or in Hin. destruct Hin as [Hin|[Hin|Hin]].
    + exact (H13 Hin).
    + discriminate Hin.
    + exact (IHc Hin).
Qed.

Lemma load_step_conf_lines `{Collaborators} (lines : list ConfLine) :
  forallb plain_line lines = true ->
  forall (mc : Z) (bw : float),
    fold_left load_step
      (List.map (fun l => conf_line_text l ++ [10%N]) lines) (mc, bw)
    = (spec_value py_int MAX_CLIENTS mc lines,
       spec_value py_float BANDWIDTH bw lines).
Proof.
  induction lines as [|l lines IH]; [reflexivity|].
  cbn [forallb]. intros Hp. apply andb_true_iff in Hp. destruct Hp as [Hl Hlines].
  intros mc bw. cbn [List.map fold_left]. unfold load_step at 2.
  rewrite (env_line_conf_line l Hl).
  destruct l as [k v|t]; cbn [spec_value]; [|apply (IH Hlines)].
  destruct (bool_decide (k = MAX_CLIENTS)) eqn:Ek.
  - apply bool_decide_eq_true in Ek. subst k.
    assert (bool_decide (MAX_CLIENTS = BANDWIDTH) = false) as -> by reflexivity.
    destruct (py_int v) as [n|]; apply (IH Hlines).
  - destruct (bool_decide (k = BANDWIDTH));
      [destruct (py_float v) as [b|]|]; apply (IH Hlines).
Qed.

(** C10, amended. Where there is no file [load_conduit_env] returns
    (50, 10.0). On a file that can be read it returns, for each key on its
    own, the value of the last entry of that key which parses, or the
    default (50 for MAX_CLIENTS, 10.0 for BANDWIDTH) when no entry of that
    key parses; entries of the other key, parseable or not, and lines that
    are no entries play no part. On a file that cannot be opened or decoded
    it raises. *)
Theorem load_conduit_env_defaults_per_key `{Collaborators} :
  load_conduit_env NoFile = Val (50, TEN)
  /\ (forall lines : list ConfLine,
        forallb plain_line lines = true ->
        load_conduit_env (Text (conf_text lines))
        = Val (spec_value py_int MAX_CLIENTS 50 lines,
               spec_value py_float BANDWIDTH TEN lines))
  /\ (forall content : str,
        load_conduit_env (Text content)
        = Val (List.last (parsed_values py_int MAX_CLIENTS (Some content)) 50,
               List.last (parsed_values py_float BANDWIDTH (Some content)) TEN))
  /\ load_conduit_env Unreadable = Raise OSError
  /\ load_conduit_env Undecodable = Raise UnicodeDecodeError.
Proof.
  split; [reflexivity|]. split; [|split; [|split; reflexivity]].
  - intros lines Hplain.
    unfold load_conduit_env, read_text, load_lines, file_lines.
    destruct (conf_text_lines lines Hplain) as [Hlines Hcr].
    rewrite (universal_newlines_id _ Hcr), Hlines.
    rewrite (load_step_conf_lines lines Hplain). reflexivity.
  - intros content.
    unfold load_conduit_env, read_text, load_lines, parsed_values.
    rewrite load_fold. reflexivity.
Qed.

(** A comment, a malformed limit, a bandwidth and a blank line: the limit
    falls back to its default, the bandwidth is read. *)
Lemma load_conduit_env_defaults_per_key_witness :
  load_conduit_env
    (Text (lit "# limits" ++ [10%N] ++ lit "MAX_CLIENTS=many" ++ [10%N]
           ++ lit "BANDWIDTH=20" ++ [10%N] ++ [10%N]))
  = Val (50, float_of_Z 20).
Proof.
  pose proof (proj1 (proj2 load_conduit_env_defaults_per_key)
                [Other (lit "# limits"); Entry MAX_CLIENTS (lit "many");
                 Entry BANDWIDTH (lit "20"); Other []] eq_refl) as Hload.
  exact Hload.
Defined.

(** C10, as stated, fails: on a file whose bytes are not UTF-8 the call
    raises and returns no pair. *)
Lemma load_conduit_env_raises_on_undecodable : ~ load_conduit_env_total.
Proof.
  intros Hclaim.
  destruct (Hclaim decimal_collaborators Undecodable) as [pair Hpair].
  discriminate Hpair.
Qed.

(** Entries written with spaces and a carriage return: a malformed limit
    next to a well-formed bandwidth, and the other way round. *)
Example load_conduit_env_malformed_limit :
  load_conduit_env
    (Text (lit "MAX_CLIENTS=many" ++ [10%N] ++ lit "BANDWIDTH = 20" ++ [10%N]))
  = Val (50, float_of_Z 20)
  /\ load_conduit_env
       (Text (lit "MAX_CLIENTS=75" ++ [13%N; 10%N] ++ lit "BANDWIDTH=fast"))
     = Val (75, TEN).
Proof. split; vm_compute; reflexivity. Qed.

(** * Further properties *)

(** ** Aggregator: runs without a reset, repeated samples *)

Lemma rising_last (cs : list Z) : forall c : Z, rising (c :: cs) -> c <= List.last cs c.
Proof.
  induction cs as [|b cs IH]; intros c Hr; [simpl; lia|].
  destruct Hr as [Hcb Hr]. rewrite last_cons. specialize (IH b Hr). lia.
Qed.

(** X1. While a counter of whole bytes never goes down, the lifetime total
    grows by exactly the growth of the counter: the credits telescope to the
    last counter value minus the one last seen before the run, as long as
    the last counter value and the final total are below [2^53]. *)
Theorem lifetime_gain_without_reset :
  forall (d : Direction) (counters : list Z) (samples : list Metrics)
         (s : State) (total seen : Z),
    lifetime d s = float_of_Z total ->
    last_seen d s = float_of_Z seen ->
    List.map (counter d) samples = List.map float_of_Z counters ->
    0 <= total -> 0 <= seen ->
    rising (seen :: counters) ->
    List.last counters seen < 2 ^ 53 ->
    total + (List.last counters seen - seen) < 2 ^ 53 ->
    lifetime d (List.last (aggregate s samples) s)
    = float_of_Z (total + (List.last counters seen - seen)).
Proof.
  intros d counters.
  induction counters as [|c cs IH];
    intros [|m samples] s total seen HL Hl Hcs HL0 Hl0 Hrise Hlast Hsum;
    try discriminate Hcs.
  - simpl. rewrite HL. f_equal. lia.
  - cbn [List.map] in Hcs. injection Hcs as Hc Hcs.
    destruct Hrise as [Hsc Hrise].
    rewrite last_cons in Hlast, Hsum |- *.
    pose proof (rising_last cs c Hrise) as Hclast.
    destruct (update_lifetime_traffic_whole d s m total seen c HL Hl Hc HL0)
      as [HL' Hl'].
    + unfold whole. lia.
    + unfold whole. lia.
    + destruct (seen <=? c); lia.
    + assert (E : (seen <=? c) = true) by (apply Z.leb_le; exact Hsc).
      rewrite E in HL'.
      cbn [aggregate]. rewrite last_cons.
      rewrite (IH samples (update_lifetime_traffic s m) (total + (c - seen)) c
                 HL' Hl' Hcs) by (try exact Hrise; lia).
      f_equal. lia.
Qed.

(** Three rising upload samples after a counter last seen at zero. *)
Lemma lifetime_gain_without_reset_witness :
  let samples := List.map upload_sample (List.map float_of_Z [3; 5; 9]) in
  lifetime Up (List.last (aggregate empty_state samples) empty_state)
  = float_of_Z 9.
Proof.
  cbv zeta.
  apply (lifetime_gain_without_reset Up [3; 5; 9]
           (List.map upload_sample (List.map float_of_Z [3; 5; 9]))
           empty_state 0 0 eq_refl eq_refl eq_refl);
    try (simpl; lia).
Defined.

Lemma fge_refl (x : float) : is_finite x = true -> fge x x = true.
Proof.
  destruct x as [s|s| |s m e]; try discriminate; intros _; [reflexivity|].
  unfold fge, SFleb, SFcompare.
  rewrite Z.compare_refl.
  change (Pos.compare_cont Eq m m) with (Pos.compare m m).
  rewrite Pos.compare_refl. destruct s; reflexivity.
Qed.

Lemma fsub_diag (x : float) : is_finite x = true -> fsub x x = ZERO.
Proof.
  destruct x as [s|s| |s m e]; try discriminate; intros _.
  - destruct s; reflexivity.
  - unfold fsub, SFsub. rewrite Z.sub_diag. reflexivity.
Qed.

Lemma fadd_zero (x : float) : same_number (fadd x ZERO) x.
Proof.
  destruct x as [s|s| |s m e]; try (left; reflexivity).
  destruct s; [right; exists false, true; split; reflexivity | left; reflexivity].
Qed.

(** X2. A sample seen twice in a row is credited once: when the counter of
    the sample is a number (not [inf], not [nan]) the second pass leaves the
    lifetime total the number it was and the last-seen counter where it
    is. *)
Theorem repeated_sample_credits_nothing :
  forall (d : Direction) (s : State) (m : Metrics),
    is_finite (counter d m) = true ->
    let s1 := update_lifetime_traffic s m in
    let s2 := update_lifetime_traffic s1 m in
    same_number (lifetime d s2) (lifetime d s1)
    /\ last_seen d s2 = last_seen d s1.
Proof.
  intros d s m Hfin. cbv zeta.
  destruct (update_lifetime_traffic_step d s m) as [_ Hseen1].
  destruct (update_lifetime_traffic_step d (update_lifetime_traffic s m) m)
    as [Hstep2 Hseen2].
  rewrite Hstep2, Hseen2, Hseen1, (fge_refl _ Hfin), (fsub_diag _ Hfin).
  split; [apply fadd_zero | reflexivity].
Qed.

(** The sample 7 after 3, fed twice; and what an infinite counter does
    instead. *)
Lemma repeated_sample_credits_nothing_witness :
  let s := update_lifetime_traffic empty_state (upload_sample (float_of_Z 3)) in
  let s1 := update_lifetime_traffic s (upload_sample (float_of_Z 7)) in
  let s2 := update_lifetime_traffic s1 (upload_sample (float_of_Z 7)) in
  same_number (lifetime Up s2) (lifetime Up s1) /\ lifetime Up s1 = float_of_Z 7.
Proof.
  cbv zeta. split; [|vm_compute; reflexivity].
  apply (repeated_sample_credits_nothing Up
           (update_lifetime_traffic empty_state (upload_sample (float_of_Z 3)))
           (upload_sample (float_of_Z 7))).
  reflexivity.
Defined.

Example repeated_infinite_sample_loses_total :
  let s1 := update_lifetime_traffic empty_state (upload_sample INF) in
  let s2 := update_lifetime_traffic s1 (upload_sample INF) in
  lifetime Up s1 = INF /\ lifetime Up s2 = NAN.
Proof. split; vm_compute; reflexivity. Qed.

(** ** The four updates of a sample taken together *)

Lemma append_bounded_last {A} (hist : list A) (x d : A) :
  List.last (append_bounded hist x) d = x.
Proof.
  rewrite append_bounded_slice. unfold slice_last, _HISTORY_MAX.
  rewrite length_app. simpl length.
  rewrite drop_app_le by lia. apply last_last.
Qed.

Lemma append_bounded_length {A} (hist : list A) (x : A) :
  (length (append_bounded hist x) <= _HISTORY_MAX)%nat.
Proof. rewrite append_bounded_slice, slice_last_length. unfold _HISTORY_MAX. lia. Qed.

Lemma update_client_seconds_today_frame
    (today : str) (s : State) (c : Z) (i : float) :
  let s' := snd (update_client_seconds_today today s c i) in
  dashboard_message_ids s' = dashboard_message_ids s
  /\ status_message_ids s' = status_message_ids s
  /\ command_message_ids s' = command_message_ids s
  /\ last_update_id s' = last_update_id s
  /\ last_good_metrics s' = last_good_metrics s
  /\ last_status_press s' = last_status_press s
  /\ lifetime_bytes_uploaded s' = lifetime_bytes_uploaded s
  /\ lifetime_bytes_downloaded s' = lifetime_bytes_downloaded s
  /\ traffic_history s' = traffic_history s
  /\ lifetime_history s' = lifetime_history s.
Proof.
  cbv zeta. unfold update_client_seconds_today.
  destruct (bool_decide _); destruct (float_of_int c); repeat split.
Qed.

(** X3. After a sample went through [record_sample], whether or not the
    block raised: the newest point of the lifetime history is the pair of
    lifetime totals the state now holds, the newest point of the traffic
    history is the pair of counters of the sample, and neither history is
    longer than 40. When [int] reads the client count the stored day is
    today afterwards; when it raises (the count is [nan] or [inf]) the block
    raises and the stored day and the daily accumulator are as before. *)
Theorem record_sample_consistent :
  forall (env : Env) (m : Metrics) (s : State) (d : float * float),
    let '(r, s') := record_sample env m s in
    List.last (lifetime_history s') d = (lifetime_up s', lifetime_down s')
    /\ List.last (traffic_history s') d = (counter Up m, counter Down m)
    /\ (length (lifetime_history s') <= 40)%nat
    /\ (length (traffic_history s') <= 40)%nat
    /\ match int_of_float (get0 (m !! conduit_connected_clients)) with
       | Val _ => last_day_utc s' = Some (today env)
       | Raise e =>
           r = Raise e
           /\ last_day_utc s' = last_day_utc s
           /\ client_seconds_today s' = client_seconds_today s
       end.
Proof.
  intros env m s d. unfold record_sample.
  set (s0 := append_metrics_history
               (append_lifetime_history (update_lifetime_traffic s m)) m).
  assert (H0 : List.last (lifetime_history s0) d = (lifetime_up s0, lifetime_down s0)
               /\ List.last (traffic_history s0) d = (counter Up m, counter Down m)
               /\ (length (lifetime_history s0) <= 40)%nat
               /\ (length (traffic_history s0) <= 40)%nat).
  { split; [apply (append_bounded_last _ _ d)|].
    split; [apply (append_bounded_last _ _ d)|].
    split; apply append_bounded_length. }
  assert (Hday : last_day_utc s0 = last_day_utc s
                 /\ client_seconds_today s0 = client_seconds_today s).
  { unfold s0, append_metrics_history, append_lifetime_history,
      update_lifetime_traffic.
    destruct (fge _ _); destruct (fge _ _); split; reflexivity. }
  clearbody s0.
  destruct (int_of_float _) as [c|e].
  - pose proof (update_client_seconds_today_frame (today env) s0 c THIRTY) as Hf.
    pose proof (update_client_seconds_today_sets_day (today env) s0 c THIRTY)
      as Hd.
    destruct (update_client_seconds_today (today env) s0 c THIRTY) as [r s'].
    cbv zeta in Hf. cbn [snd] in Hf.
    destruct Hf as (_ & _ & _ & _ & _ & _ & Hu & Hdn & Ht & Hl).
    destruct H0 as (A & B & C & D).
    unfold lifetime_up, lifetime_down in *. rewrite Hu, Hdn, Ht, Hl.
    repeat split; assumption.
  - destruct H0 as (A & B & C & D). destruct Hday as [Hd1 Hd2].
    repeat split; assumption.
Qed.

(** ** What the reconciler leaves alone *)

Lemma adds_refl (P : Effect -> bool) (w : World) : adds P w w.
Proof. exists []. split; [symmetry; apply app_nil_r | reflexivity]. Qed.

Lemma adds_trans (P : Effect -> bool) (w1 w2 w3 : World) :
  adds P w1 w2 -> adds P w2 w3 -> adds P w1 w3.
Proof.
  intros [l1 [H1 P1]] [l2 [H2 P2]]. exists (l1 ++ l2). split.
  - rewrite H2, H1, app_assoc. reflexivity.
  - rewrite forallb_app, P1, P2. reflexivity.
Qed.

Lemma adds_emit (P : Effect -> bool) (e : Effect) (w w' : World) :
  adds P w w' -> P e = true -> adds P w (emit e w').
Proof.
  intros H He. apply (adds_trans P w w'); [exact H|].
  exists [e]. split; [reflexivity | simpl; rewrite He; reflexivity].
Qed.

Lemma adds_with_state (P : Effect -> bool) (f : State -> State) (w w' : World) :
  adds P w w' -> adds P w (with_state f w').
Proof. intros [l H]. exists l. exact H. Qed.

Lemma adds_weaken (P Q : Effect -> bool) (w w' : World) :
  (forall e, P e = true -> Q e = true) -> adds P w w' -> adds Q w w'.
Proof.
  intros HPQ [l [Hl HP]]. exists l. split; [exact Hl|].
  apply forallb_forall. intros e He.
  apply HPQ. revert e He. apply forallb_forall. exact HP.
Qed.

Lemma adds_added (P : Effect -> bool) (w w' : World) :
  adds P w w' -> forallb P (added w w') = true.
Proof. intros [l [Hl HP]]. rewrite (added_app _ _ _ Hl). exact HP. Qed.

Lemma same_but_ids_fields (s s' : State) :
  same_but_ids s s' <->
  last_update_id s' = last_update_id s
  /\ last_status_press s' = last_status_press s
  /\ last_good_metrics s' = last_good_metrics s
  /\ last_seen_bytes_uploaded s' = last_seen_bytes_uploaded s
  /\ last_seen_bytes_downloaded s' = last_seen_bytes_downloaded s
  /\ lifetime_bytes_uploaded s' = lifetime_bytes_uploaded s
  /\ lifetime_bytes_downloaded s' = lifetime_bytes_downloaded s
  /\ traffic_history s' = traffic_history s
  /\ lifetime_history s' = lifetime_history s
  /\ client_seconds_today s' = client_seconds_today s
  /\ last_day_utc s' = last_day_utc s.
Proof.
  unfold same_but_ids. destruct s, s'. simpl. split.
  - intros H. injection H. intros. subst. repeat split.
  - intros (?&?&?&?&?&?&?&?&?&?&?). subst. reflexivity.
Qed.

Lemma same_but_ids_refl (s : State) : same_but_ids s s.
Proof. apply same_but_ids_fields. repeat split. Qed.

Lemma same_but_ids_trans (s1 s2 s3 : State) :
  same_but_ids s1 s2 -> same_but_ids s2 s3 -> same_but_ids s1 s3.
Proof.
  rewrite !same_but_ids_fields.
  intros (?&?&?&?&?&?&?&?&?&?&?) (?&?&?&?&?&?&?&?&?&?&?).
  repeat split; congruence.
Qed.

Lemma reconciles_refl (chat_id : Z) (w : World) : reconciles chat_id w w.
Proof.
  split; [apply adds_refl|]. split; [|reflexivity].
  split; [apply same_but_ids_refl | repeat split].
Qed.

Lemma reconciles_trans (chat_id : Z) (w1 w2 w3 : World) :
  reconciles chat_id w1 w2 -> reconciles chat_id w2 w3 ->
  reconciles chat_id w1 w3.
Proof.
  intros [A1 [[S1 [F1 [C1 [T1 O1]]]] R1]] [A2 [[S2 [F2 [C2 [T2 O2]]]] R2]].
  split; [apply (adds_trans _ _ _ _ A1 A2)|]. split.
  - split; [apply (same_but_ids_trans _ _ _ S1 S2)|].
    repeat split; congruence.
  - intros chat Hne. rewrite (R2 chat Hne). apply R1, Hne.
Qed.

Lemma reconciles_call (chat_id : Z) (c : Call) (w w' : World) :
  reconciles chat_id w w' -> is_reconciler_effect (Api c) = true ->
  reconciles chat_id w (emit (Api c) w').
Proof.
  intros [A [S R]] Hc. split; [apply adds_emit; assumption|].
  split; [exact S | exact R].
Qed.

(** A state change confined to the three ids of the chat. *)
Lemma reconciles_ids (chat_id : Z) (f : State -> State) (w w' : World) :
  (forall s, same_but_ids s (f s)) ->
  (forall s chat_id', chat_id' <> chat_id -> triad (f s) chat_id' = triad s chat_id') ->
  reconciles chat_id w w' -> reconciles chat_id w (with_state f w').
Proof.
  intros Hf Hother [A [[S rest] R]].
  split; [apply adds_with_state, A|]. split.
  - split; [|exact rest]. apply (same_but_ids_trans _ _ _ S), Hf.
  - intros chat Hne. simpl. rewrite (Hother _ _ Hne). apply R, Hne.
Qed.

Lemma reconciles_record (slot : Slot) (chat_id id : Z) (w w' : World) :
  reconciles chat_id w w' ->
  reconciles chat_id w (with_state (record_id slot chat_id id) w').
Proof.
  apply reconciles_ids.
  - intros s. apply same_but_ids_fields. destruct slot; repeat split.
  - intros s chat Hne. unfold triad.
    destruct slot; simpl; rewrite lookup_insert_ne by congruence; reflexivity.
Qed.

Lemma reconciles_edit_dashboard_slot
    (env : Env) (chat_id id : Z) (image : list N) (w : World) :
  reconciles chat_id w (edit_dashboard_slot env chat_id id image w).
Proof.
  unfold edit_dashboard_slot, request.
  destruct (telegram env _ _) as [?|message];
    [apply reconciles_call; [apply reconciles_refl | reflexivity]|].
  destruct (classify message);
    try (apply reconciles_call; [apply reconciles_refl | reflexivity]).
  destruct (telegram env _ _) as [new|?];
    [apply (reconciles_record DashboardSlot)|];
    (apply reconciles_call; [|reflexivity]);
    (apply reconciles_call; [apply reconciles_refl | reflexivity]).
Qed.

Lemma reconciles_edit_status_slot
    (env : Env) (chat_id id : Z) (text : str) (w : World) :
  reconciles chat_id w (edit_status_slot env chat_id id text w).
Proof.
  unfold edit_status_slot, request.
  destruct (telegram env _ _) as [?|message];
    [apply reconciles_call; [apply reconciles_refl | reflexivity]|].
  destruct (classify message);
    try (apply reconciles_call; [apply reconciles_refl | reflexivity]).
  destruct (telegram env _ _) as [new|?];
    [apply (reconciles_record StatusSlot)|];
    (apply reconciles_call; [|reflexivity]);
    (apply reconciles_call; [apply reconciles_refl | reflexivity]).
Qed.

Lemma reconciles_update_dashboard_for_chat
    (env : Env) (chat_id : Z) (text : str) (image : list N) (w : World) :
  reconciles chat_id w (update_dashboard_for_chat env chat_id text image w).
Proof.
  unfold update_dashboard_for_chat.
  destruct (unset _ || unset _); [apply reconciles_refl|].
  eapply reconciles_trans;
    [apply reconciles_edit_dashboard_slot | apply reconciles_edit_status_slot].
Qed.

Lemma reconciles_edit_command_desk
    (env : Env) (chat_id : Z) (text : str) (keyboard : Keyboard) (w : World) :
  reconciles chat_id w (edit_command_desk env chat_id text keyboard w).
Proof.
  unfold edit_command_desk, request.
  destruct (unset _).
  - destruct (telegram env _ _) as [new|?];
      [apply (reconciles_record CommandSlot)|];
      (apply reconciles_call; [apply reconciles_refl | reflexivity]).
  - destruct (telegram env _ _) as [?|message];
      [apply reconciles_call; [apply reconciles_refl | reflexivity]|].
    destruct (classify message);
      try (apply reconciles_call; [apply reconciles_refl | reflexivity]).
    destruct (telegram env _ _) as [new|?];
      [apply (reconciles_record CommandSlot)|];
      (apply reconciles_call; [|reflexivity]);
      (apply reconciles_call; [apply reconciles_refl | reflexivity]).
Qed.

Lemma reconciles_try_send (env : Env) (chat_id : Z) (c : Call) (w0 w : World) :
  reconciles chat_id w0 w -> is_reconciler_effect (Api c) = true ->
  reconciles chat_id w0 (snd (try_send env c w)).
Proof.
  intros H Hc. unfold try_send, request.
  destruct (telegram env _ _); apply reconciles_call; assumption.
Qed.

Lemma reconciles_ensure_chat_messages
    (env : Env) (chat_id : Z) (text : str) (image : list N) (w : World) :
  reconciles chat_id w (ensure_chat_messages env chat_id text image w).
Proof.
  unfold ensure_chat_messages.
  pose proof (reconciles_refl chat_id w) as H0.
  destruct (dashboard_message_ids (state w) !! chat_id) as [d|].
  - destruct (status_message_ids (state w) !! chat_id) as [st|].
    + destruct (command_message_ids (state w) !! chat_id) as [c|].
      * apply (reconciles_record CommandSlot), (reconciles_record StatusSlot),
          (reconciles_record DashboardSlot), H0.
      * pose proof (reconciles_try_send env chat_id
                      (SendMessage chat_id CMD_DESK_MAIN_TEXT (Some build_main_keyboard))
                      w w H0 eq_refl) as H1.
        destruct (try_send env _ w) as [[c|] w1]; simpl in H1.
        -- apply (reconciles_record CommandSlot), (reconciles_record StatusSlot),
             (reconciles_record DashboardSlot), H1.
        -- apply (reconciles_record StatusSlot), (reconciles_record DashboardSlot), H1.
    + pose proof (reconciles_try_send env chat_id (SendMessage chat_id text None)
                    w w H0 eq_refl) as H1.
      destruct (try_send env (SendMessage chat_id text None) w) as [st w1].
      simpl in H1.
      assert (H2 : forall (c : option Z) (w2 : World),
                 reconciles chat_id w w2 ->
                 reconciles chat_id w
                   (match c with
                    | Some id => with_state (record_command_id chat_id id)
                    | None => fun w => w
                    end
                      (match st with
                       | Some id => with_state (record_status_id chat_id id)
                       | None => fun w => w
                       end (with_state (record_dashboard_id chat_id d) w2)))).
      { intros c w2 Hw2. destruct c, st;
          repeat first [apply (reconciles_record CommandSlot)
                       | apply (reconciles_record StatusSlot)
                       | apply (reconciles_record DashboardSlot)];
          exact Hw2. }
      destruct (command_message_ids (state w) !! chat_id) as [c|].
      * specialize (H2 (Some c) w1 H1). destruct st; exact H2.
      * pose proof (reconciles_try_send env chat_id
                      (SendMessage chat_id CMD_DESK_MAIN_TEXT (Some build_main_keyboard))
                      w w1 H1 eq_refl) as H3.
        destruct (try_send env _ w1) as [c w2]. simpl in H3.
        specialize (H2 c w2 H3). destruct c, st; exact H2.
  - pose proof (reconciles_try_send env chat_id (SendPhoto chat_id [] image)
                  w w H0 eq_refl) as H1.
    destruct (try_send env (SendPhoto chat_id [] image) w) as [d w1].
    simpl in H1.
    assert (Hs : exists st w2,
               (match status_message_ids (state w) !! chat_id with
                | Some _ => (status_message_ids (state w) !! chat_id, w1)
                | None => try_send env (SendMessage chat_id text None) w1
                end) = (st, w2) /\ reconciles chat_id w w2).
    { destruct (status_message_ids (state w) !! chat_id) as [st|].
      - exists (Some st), w1. split; [reflexivity | exact H1].
      - pose proof (reconciles_try_send env chat_id (SendMessage chat_id text None)
                      w w1 H1 eq_refl) as H2.
        destruct (try_send env _ w1) as [st w2]. exists st, w2.
        split; [reflexivity | exact H2]. }
    destruct Hs as [st [w2 [-> H2]]].
    assert (Hc : exists c w3,
               (match command_message_ids (state w) !! chat_id with
                | Some _ => (command_message_ids (state w) !! chat_id, w2)
                | None =>
                    try_send env
                      (SendMessage chat_id CMD_DESK_MAIN_TEXT (Some build_main_keyboard)) w2
                end) = (c, w3) /\ reconciles chat_id w w3).
    { destruct (command_message_ids (state w) !! chat_id) as [c|].
      - exists (Some c), w2. split; [reflexivity | exact H2].
      - pose proof (reconciles_try_send env chat_id
                      (SendMessage chat_id CMD_DESK_MAIN_TEXT (Some build_main_keyboard))
                      w w2 H2 eq_refl) as H3.
        destruct (try_send env _ w2) as [c w3]. exists c, w3.
        split; [reflexivity | exact H3]. }
    destruct Hc as [c [w3 [-> H3]]].
    destruct d, st, c;
      repeat first [apply (reconciles_record CommandSlot)
                   | apply (reconciles_record StatusSlot)
                   | apply (reconciles_record DashboardSlot)];
      exact H3.
Qed.

Lemma reconciles_delete_chat_ui_messages (env : Env) (chat_id : Z) (w : World) :
  reconciles chat_id w (delete_chat_ui_messages env chat_id w).
Proof.
  unfold delete_chat_ui_messages. apply reconciles_ids.
  - intros s. apply same_but_ids_fields. repeat split.
  - intros s chat Hne. unfold triad. simpl.
    rewrite !lookup_delete_ne by congruence. reflexivity.
  - cbn [fold_left]. unfold delete_message, request. cbn [snd].
    destruct (dashboard_message_ids (state w) !! chat_id),
      (status_message_ids (state w) !! chat_id),
      (command_message_ids (state w) !! chat_id);
      repeat (apply reconciles_call; [|reflexivity]); apply reconciles_refl.
Qed.

(** X4. The four reconciler operations on a chat only add sends, edits and
    deletes to the trace and only change the three stored ids of that chat:
    counters, histories, the cached sample, the press times, the saved
    state file, the config file, the refresh timer and the offset are as
    before, no callback is answered, no command is run, and the ids of
    every other chat are untouched. *)
Theorem reconciler_frame :
  forall (env : Env) (chat_id : Z) (text : str) (image : list N)
         (keyboard : Keyboard) (w : World),
    reconciles chat_id w (update_dashboard_for_chat env chat_id text image w)
    /\ reconciles chat_id w (edit_command_desk env chat_id text keyboard w)
    /\ reconciles chat_id w (ensure_chat_messages env chat_id text image w)
    /\ reconciles chat_id w (delete_chat_ui_messages env chat_id w).
Proof.
  intros env chat_id text image keyboard w.
  split; [apply reconciles_update_dashboard_for_chat|].
  split; [apply reconciles_edit_command_desk|].
  split; [apply reconciles_ensure_chat_messages|].
  apply reconciles_delete_chat_ui_messages.
Qed.

(** ** Bootstrap and teardown of the triad *)

Lemma with_state_id (f : State -> State) (w : World) :
  f (state w) = state w -> with_state f w = w.
Proof. intros E. unfold with_state. rewrite E. destruct w. reflexivity. Qed.

Lemma record_id_same (slot : Slot) (chat_id id : Z) (s : State) :
  stored_id slot s chat_id = Some id -> record_id slot chat_id id s = s.
Proof.
  intros H. destruct slot; simpl in *;
    unfold record_dashboard_id, record_status_id, record_command_id;
    rewrite (insert_id _ _ _ H); destruct s; reflexivity.
Qed.

Lemma ensure_chat_messages_spec
    (env : Env) (chat_id : Z) (text : str) (image : list N) (w : World) :
  let w' := ensure_chat_messages env chat_id text image w in
  added w w' = bootstrap_sends (state w) chat_id text image
  /\ (forall (slot : Slot) (id : Z),
        stored_id slot (state w) chat_id = Some id ->
        stored_id slot (state w') chat_id = Some id)
  /\ (bootstrap_sends (state w) chat_id text image = [] -> w' = w).
Proof.
  cbv zeta.
  unfold ensure_chat_messages, bootstrap_sends, try_send, request.
  destruct (dashboard_message_ids (state w) !! chat_id) as [d|] eqn:Ed;
    destruct (status_message_ids (state w) !! chat_id) as [st|] eqn:Es;
    destruct (command_message_ids (state w) !! chat_id) as [c|] eqn:Ec;
    repeat match goal with
           | |- context [telegram env ?n ?c] => destruct (telegram env n c)
           end;
    (split; [apply added_app; simpl; rewrite <- ?app_assoc, ?app_nil_r; reflexivity|]);
    (split;
     [intros slot id Hid; destruct slot; simpl in Hid |- *;
      try congruence; rewrite ?lookup_insert_eq; congruence
     | try discriminate]).
  intros _.
  rewrite (with_state_id (record_command_id chat_id c)).
  - rewrite (with_state_id (record_status_id chat_id st)).
    + apply with_state_id, (record_id_same DashboardSlot), Ed.
    + rewrite (with_state_id (record_dashboard_id chat_id d));
        [apply (record_id_same StatusSlot), Es
        | apply (record_id_same DashboardSlot), Ed].
  - rewrite (with_state_id (record_status_id chat_id st)).
    + rewrite (with_state_id (record_dashboard_id chat_id d));
        [apply (record_id_same CommandSlot), Ec
        | apply (record_id_same DashboardSlot), Ed].
    + rewrite (with_state_id (record_dashboard_id chat_id d));
        [apply (record_id_same StatusSlot), Es
        | apply (record_id_same DashboardSlot), Ed].
Qed.

(** X5. [ensure_chat_messages] only fills gaps: whatever the server
    answers, it makes one send for each slot without an id (photo, status
    text, command desk, in that order) and no other call; a slot that has
    an id keeps it; and on a triad whose three ids are present it does
    nothing at all. *)
Theorem ensure_chat_messages_fills_gaps :
  forall (env : Env) (chat_id : Z) (text : str) (image : list N) (w : World),
    let w' := ensure_chat_messages env chat_id text image w in
    added w w' = bootstrap_sends (state w) chat_id text image
    /\ (forall (slot : Slot) (id : Z),
          stored_id slot (state w) chat_id = Some id ->
          stored_id slot (state w') chat_id = Some id)
    /\ (bootstrap_sends (state w) chat_id text image = [] -> w' = w).
Proof. intros. apply ensure_chat_messages_spec. Qed.

Lemma delete_chat_ui_messages_spec (env : Env) (chat_id : Z) (w : World) :
  let w' := delete_chat_ui_messages env chat_id w in
  trace w'
  = trace w
    ++ omap (fun id => (fun m => Api (DeleteMessage chat_id m)) <$> id)
         [dashboard_message_ids (state w) !! chat_id;
          status_message_ids (state w) !! chat_id;
          command_message_ids (state w) !! chat_id]
  /\ triad (state w') chat_id = (None, None, None).
Proof.
  cbv zeta. split.
  - unfold delete_chat_ui_messages. cbn [fold_left].
    unfold delete_message, request. cbn [snd].
    destruct (dashboard_message_ids (state w) !! chat_id),
      (status_message_ids (state w) !! chat_id),
      (command_message_ids (state w) !! chat_id);
      simpl; rewrite <- ?app_assoc, ?app_nil_r; reflexivity.
  - unfold delete_chat_ui_messages, triad. simpl.
    rewrite !lookup_delete_eq. reflexivity.
Qed.

(** X6. [delete_chat_ui_messages] asks the server to delete each stored
    message of the chat (dashboard, status, desk, in that order, and only
    those that are stored) and afterwards the chat has no stored id,
    whatever the server answered. *)
Theorem delete_chat_ui_messages_clears :
  forall (env : Env) (chat_id : Z) (w : World),
    let w' := delete_chat_ui_messages env chat_id w in
    added w w'
    = omap (fun id => (fun m => Api (DeleteMessage chat_id m)) <$> id)
        [dashboard_message_ids (state w) !! chat_id;
         status_message_ids (state w) !! chat_id;
         command_message_ids (state w) !! chat_id]
    /\ triad (state w') chat_id = (None, None, None).
Proof.
  intros env chat_id w. cbv zeta.
  destruct (delete_chat_ui_messages_spec env chat_id w) as [Htrace Htriad].
  split; [apply added_app, Htrace | exact Htriad].
Qed.

(** X7. One refresh sends at most two messages and makes at most four
    calls; one desk edit sends at most one message and makes at most two
    calls: a slot is never replaced twice in one call. *)
Theorem reconciler_calls_bounded :
  forall (env : Env) (chat_id : Z) (text : str) (image : list N)
         (keyboard : Keyboard) (w : World),
    let refreshed := added w (update_dashboard_for_chat env chat_id text image w) in
    let edited := added w (edit_command_desk env chat_id text keyboard w) in
    (length refreshed <= 4)%nat
    /\ (length (filter is_send refreshed) <= 2)%nat
    /\ (length edited <= 2)%nat
    /\ (length (filter is_send edited) <= 1)%nat.
Proof.
  intros env chat_id text image keyboard w. cbv zeta.
  assert (Hr : exists l, added w (update_dashboard_for_chat env chat_id text image w) = l
                         /\ (length l <= 4)%nat
                         /\ (length (filter is_send l) <= 2)%nat).
  { unfold update_dashboard_for_chat, edit_status_slot, edit_dashboard_slot, request.
    destruct (unset _ || unset _).
    - exists []. split; [apply added_app; symmetry; apply app_nil_r | simpl; lia].
    - repeat match goal with
             | |- context [match telegram env ?n ?c with _ => _ end] =>
                 destruct (telegram env n c)
             | |- context [match classify ?m with _ => _ end] =>
                 destruct (classify m)
             end;
        eexists; (split; [apply added_app; simpl; rewrite <- ?app_assoc; reflexivity|]);
        simpl; lia. }
  assert (He : exists l, added w (edit_command_desk env chat_id text keyboard w) = l
                         /\ (length l <= 2)%nat
                         /\ (length (filter is_send l) <= 1)%nat).
  { unfold edit_command_desk, request.
    destruct (unset _);
      repeat match goal with
             | |- context [match telegram env ?n ?c with _ => _ end] =>
                 destruct (telegram env n c)
             | |- context [match classify ?m with _ => _ end] =>
                 destruct (classify m)
             end;
      eexists; (split; [apply added_app; simpl; rewrite <- ?app_assoc; reflexivity|]);
      simpl; lia. }
  destruct Hr as [l1 [-> [? ?]]]. destruct He as [l2 [-> [? ?]]].
  repeat split; assumption.
Qed.

Lemma record_sample_same_but_ids_free (env : Env) (m : Metrics) (s : State) :
  let s' := snd (record_sample env m s) in
  dashboard_message_ids s' = dashboard_message_ids s
  /\ status_message_ids s' = status_message_ids s
  /\ command_message_ids s' = command_message_ids s
  /\ last_update_id s' = last_update_id s
  /\ last_good_metrics s' = last_good_metrics s
  /\ last_status_press s' = last_status_press s.
Proof.
  cbv zeta.
  unfold record_sample, update_client_seconds_today, append_metrics_history,
    append_lifetime_history, update_lifetime_traffic.
  destruct (int_of_float _) as [c|e];
    [destruct (bool_decide _); destruct (float_of_int c)|];
    destruct (fge _ _); destruct (fge _ _); repeat split.
Qed.

Lemma fetch_and_record_frame `{Collaborators} (env : Env) (w : World) :
  let w' := snd (fetch_and_record env w) in
  trace w' = trace w /\ state_file w' = state_file w
  /\ conduit_env w' = conduit_env w /\ offset w' = offset w
  /\ last_dashboard_ts w' = last_dashboard_ts w
  /\ (forall chat_id, triad (state w') chat_id = triad (state w) chat_id)
  /\ last_update_id (state w') = last_update_id (state w)
  /\ last_good_metrics (state w') = last_good_metrics (state w).
Proof.
  cbv zeta. unfold fetch_and_record.
  destruct (fetch_metrics _) as [m|e]; [|repeat split].
  destruct (nonempty m); [|repeat split]. simpl.
  destruct (record_sample_same_but_ids_free env m (state w))
    as (Hd & Hs & Hc & Hu & Hg & _).
  repeat split; try assumption.
  intros chat_id. unfold triad. rewrite Hd, Hs, Hc. reflexivity.
Qed.






(** ** Classification of edit errors *)

Lemma startswith_app (n b : str) : startswith (n ++ b) n = true.
Proof.
  induction n as [|x n IH]; [reflexivity|]. simpl.
  rewrite N.eqb_refl. exact IH.
Qed.

Lemma contains_prefix (n b : str) : contains n (n ++ b) = true.
Proof.
  destruct n as [|x n]; [destruct b; reflexivity|].
  pose proof (startswith_app (x :: n) b) as Hs.
  change ((x :: n) ++ b) with (x :: (n ++ b)) in *. cbn [contains].
  rewrite Hs. reflexivity.
Qed.

Lemma contains_app_r (n a s : str) :
  contains n s = true -> contains n (a ++ s) = true.
Proof.
  intros H. induction a as [|x a IH]; [exact H|].
  change ((x :: a) ++ s) with (x :: (a ++ s)). cbn [contains].
  rewrite IH. apply orb_true_r.
Qed.

Lemma contains_infix (n a b : str) : contains n (a ++ n ++ b) = true.
Proof. apply contains_app_r, contains_prefix. Qed.

Lemma lower_app (a b : str) : lower (a ++ b) = lower a ++ lower b.
Proof. apply List.map_app. Qed.

(** X9. The classification of an edit error goes by phrase, in any letter
    case and anywhere in the text: a text that holds "message is not
    modified" is [Unchanged] even when it also holds a phrase for a missing
    target; a text that holds one of the three missing-target phrases and
    not "message is not modified" is [TargetMissing]. *)
Theorem classify_by_phrase :
  forall (pre mid post : str),
    (lower mid = NOT_MODIFIED ->
     classify (pre ++ mid ++ post) = Unchanged)
    /\ (In (lower mid) TARGET_GONE ->
        contains NOT_MODIFIED (lower (pre ++ mid ++ post)) = false ->
        classify (pre ++ mid ++ post) = TargetMissing).
Proof.
  intros pre mid post. unfold classify. rewrite !lower_app. split.
  - intros ->. fold NOT_MODIFIED. rewrite contains_infix. reflexivity.
  - intros Hin Hnot. fold NOT_MODIFIED.
    rewrite Hnot.
    destruct Hin as [<-|[<-|[<-|[]]]]; rewrite contains_infix;
      rewrite ?orb_true_r; reflexivity.
Qed.

(** An upper-case "not modified" after a missing-target phrase, and a
    missing-target phrase on its own. *)
Lemma classify_by_phrase_witness :
  classify (lit "Bad Request: message to edit not found; "
            ++ lit "MESSAGE IS NOT MODIFIED" ++ lit ": same content")
  = Unchanged
  /\ classify (lit "Bad Request: " ++ lit "Message can't be edited" ++ [])
     = TargetMissing.
Proof.
  split.
  - apply (classify_by_phrase (lit "Bad Request: message to edit not found; ")
             (lit "MESSAGE IS NOT MODIFIED") (lit ": same content")).
    reflexivity.
  - apply (classify_by_phrase (lit "Bad Request: ")
             (lit "Message can't be edited") []).
    + right. left. reflexivity.
    + reflexivity.
Defined.

(** ** Metrics source *)

Lemma metrics_step_whitelist `{Collaborators} (acc : Result Metrics) (line : str) :
  (forall values, acc = Val values ->
     forall name x, values !! name = Some x -> name ∈ wanted) ->
  forall values, metrics_step acc line = Val values ->
    forall name x, values !! name = Some x -> name ∈ wanted.
Proof.
  intros Hacc values Hstep. unfold metrics_step in Hstep.
  destruct acc as [v|e]; [|discriminate].
  specialize (Hacc v eq_refl).
  destruct (startswith line (lit "#") || negb (contains_char 32 line));
    [injection Hstep as <-; exact Hacc|].
  destruct (split_ws1 line) as [|name [|val [|? ?]]]; try discriminate.
  destruct (bool_decide (name ∈ wanted)) eqn:Hw;
    [|injection Hstep as <-; exact Hacc].
  destruct (py_float (strip val)) as [x|]; [|injection Hstep as <-; exact Hacc].
  injection Hstep as <-. apply bool_decide_eq_true in Hw.
  intros name' x' Hlook. destruct (decide (name = name')) as [<-|Hne].
  - exact Hw.
  - rewrite lookup_insert_ne in Hlook by exact Hne. apply (Hacc _ _ Hlook).
Qed.

Lemma metrics_fold_whitelist `{Collaborators} (lines : list str) :
  forall acc : Result Metrics,
    (forall values, acc = Val values ->
       forall name x, values !! name = Some x -> name ∈ wanted) ->
    forall values, fold_left metrics_step lines acc = Val values ->
      forall name x, values !! name = Some x -> name ∈ wanted.
Proof.
  induction lines as [|line lines IH]; intros acc Hacc; [exact Hacc|].
  simpl. apply IH. apply metrics_step_whitelist, Hacc.
Qed.

(** X10. Whatever the metrics source returns, every name in the sample
    [fetch_metrics] gives back is one of the eight whitelisted metric
    names. *)
Theorem fetch_metrics_whitelist `{Collaborators} :
  forall (body : option str) (values : Metrics),
    fetch_metrics body = Val values ->
    forall (name : str) (x : float), values !! name = Some x -> name ∈ wanted.
Proof.
  intros body values Hfetch. unfold fetch_metrics in Hfetch.
  destruct body as [text|].
  - apply (metrics_fold_whitelist (splitlines text) (Val ∅)); [|exact Hfetch].
    intros v Hv. injection Hv as <-. intros name x Hlook.
    rewrite lookup_empty in Hlook. discriminate.
  - injection Hfetch as <-. intros name x Hlook.
    rewrite lookup_empty in Hlook. discriminate.
Qed.

(** A response with a comment, a foreign metric and two wanted ones. *)
Lemma fetch_metrics_whitelist_witness :
  let body := Some (lit "# HELP" ++ [10%N] ++ lit "go_threads 9" ++ [10%N]
                    ++ lit "conduit_is_live 1" ++ [10%N]
                    ++ lit "conduit_connected_clients 4") in
  fetch_metrics body
  = Val {[ conduit_is_live := float_of_Z 1;
           conduit_connected_clients := float_of_Z 4 ]}
  /\ forall (name : str) (x : float),
       ({[ conduit_is_live := float_of_Z 1;
           conduit_connected_clients := float_of_Z 4 ]} : Metrics)
         !! name = Some x ->
       name ∈ wanted.
Proof.
  cbv zeta.
  assert (Hfetch : fetch_metrics
            (Some (lit "# HELP" ++ [10%N] ++ lit "go_threads 9" ++ [10%N]
                   ++ lit "conduit_is_live 1" ++ [10%N]
                   ++ lit "conduit_connected_clients 4"))
          = Val {[ conduit_is_live := float_of_Z 1;
                   conduit_connected_clients := float_of_Z 4 ]})
    by (vm_compute; reflexivity).
  split; [exact Hfetch|].
  exact (fetch_metrics_whitelist _ _ Hfetch).
Defined.

(** ** The periodic pass *)

Lemma update_dashboard_for_chat_shows
    (env : Env) (chat_id : Z) (text : str) (image : list N) (w : World) :
  adds (shows_only text) w (update_dashboard_for_chat env chat_id text image w).
Proof.
  unfold update_dashboard_for_chat.
  destruct (unset _ || unset _); [apply adds_refl|].
  unfold edit_status_slot, edit_dashboard_slot, request.
  repeat match goal with
         | |- context [match telegram env ?n ?c with _ => _ end] =>
             destruct (telegram env n c)
         | |- context [match classify ?m with _ => _ end] =>
             destruct (classify m)
         end;
    repeat first [ apply adds_with_state
                 | apply adds_emit;
                   [|first [reflexivity
                           | simpl; apply bool_decide_eq_true_2; reflexivity]]
                 | apply adds_refl ].
Qed.

Lemma join_lines_holds (caption a b1 line b2 c : str) :
  contains line (join_lines [caption; []; a; b1 ++ line ++ b2; c]) = true.
Proof.
  unfold join_lines. cbn [List.map concat].
  do 3 apply contains_app_r.
  change (10%N :: b1 ++ line ++ b2) with ((10%N :: b1) ++ line ++ b2).
  rewrite <- app_assoc. apply contains_app_r.
  rewrite <- app_assoc. apply contains_prefix.
Qed.

Lemma Val_inj {A} (a b : A) : Val a = Val b -> a = b.
Proof. intros E. injection E as E. exact E. Qed.

Lemma status_without_sample_unreachable `{Collaborators}
    (max_clients : Z) (bandwidth : float) (svc : str) (last_good : option Metrics)
    (up down today_s : float) (text : str) :
  build_status_message None max_clients bandwidth svc last_good up down today_s
  = Val text ->
  contains UNREACHABLE text = true.
Proof.
  unfold build_status_message. destruct (build_dashboard_caption _ _ _ _ _ _);
    [|discriminate].
  intros Heq. apply Val_inj in Heq. rewrite <- Heq. apply join_lines_holds.
Qed.

(** X11. A due periodic pass in which [fetch_metrics] raises: counters,
    histories, the daily accumulator and the cached sample stay as they
    are. When the pass completes, every status text it shows says
    "unreachable (service may be down)" and the state is saved; when the
    config file cannot be read or a view cannot be built the pass raises
    and has changed nothing; and the pass completes whenever the config
    file is read and the views are built. *)
Theorem failed_parse_keeps_cache `{Collaborators} :
  forall (env : Env) (owner_chat_id : Z) (w : World) (e : Exn),
    fetch_metrics (metrics_body env) = Raise e ->
    fge (fsub (now env) (last_dashboard_ts w)) THIRTY = true ->
    let '(r, w') := periodic_refresh env owner_chat_id w in
    same_but_ids (state w) (state w')
    /\ match r with
       | Val _ =>
           state_file w' = Some (state w')
           /\ exists text : str,
                contains UNREACHABLE text = true
                /\ forallb (shows_only text) (added w w') = true
       | Raise _ => w' = w
       end
    /\ (forall (max_clients : Z) (bandwidth : float) (views : str * list N),
          load_conduit_env (conduit_env w) = Val (max_clients, bandwidth) ->
          render_views max_clients bandwidth (service_status env) None (state w)
          = Val views ->
          r = Val tt).
Proof.
  intros env owner w e Hraise Hdue.
  unfold periodic_refresh, fetch_cache_record. rewrite Hdue, Hraise.
  destruct (load_conduit_env _) as [[max_clients bandwidth]|e0].
  2:{ split; [apply same_but_ids_refl|]. split; [reflexivity|].
      intros ? ? ? Hl. discriminate Hl. }
  destruct (render_views _ _ _ _ _) as [[text image]|e1] eqn:Hviews.
  2:{ split; [apply same_but_ids_refl|]. split; [reflexivity|].
      intros mc bw views Hl Hv. injection Hl as <- <-.
      rewrite Hviews in Hv. discriminate Hv. }
  destruct (reconciles_update_dashboard_for_chat env owner text image w)
    as [_ [[Hsame _] _]].
  pose proof (update_dashboard_for_chat_shows env owner text image w) as Hshow.
  generalize dependent (update_dashboard_for_chat env owner text image w).
  intros w1 Hsame Hshow.
  split; [exact Hsame|]. split; [|intros; reflexivity].
  split; [reflexivity|].
  exists text. split.
  - unfold render_views in Hviews.
    destruct (build_status_message _ _ _ _ _ _ _ _) as [t|] eqn:Hb;
      [|discriminate].
    destruct (render_dashboard_image _ _ _ _ _ _ _ _ _); [|discriminate].
    injection Hviews as <- _.
    apply (status_without_sample_unreachable _ _ _ _ _ _ _ _ Hb).
  - apply adds_added.
    change (adds (shows_only text) w (emit (SaveState (state w1)) w1)).
    apply adds_emit; [exact Hshow | reflexivity].
Qed.

(** A response whose only line has a space and one word, over a cached
    sample. *)
Lemma failed_parse_keeps_cache_witness :
  let env := quiet_env accepting (Some (lit " conduit_is_live")) in
  last_good_metrics (state (snd (periodic_refresh env 7 (world_of cached_state))))
  = Some cached_sample.
Proof.
  cbv zeta.
  pose proof (failed_parse_keeps_cache
                (quiet_env accepting (Some (lit " conduit_is_live"))) 7
                (world_of cached_state) ValueError eq_refl eq_refl) as Hp.
  destruct (periodic_refresh _ _ _) as [r w'].
  destruct Hp as [Hsame _].
  apply same_but_ids_fields in Hsame.
  destruct Hsame as (_ & _ & Hgood & _). exact Hgood.
Defined.

Lemma fetch_cache_record_frame `{Collaborators} (env : Env) (w : World) :
  let w' := snd (fetch_cache_record env w) in
  trace w' = trace w /\ state_file w' = state_file w
  /\ conduit_env w' = conduit_env w /\ offset w' = offset w
  /\ last_dashboard_ts w' = last_dashboard_ts w.
Proof.
  cbv zeta. unfold fetch_cache_record.
  destruct (fetch_metrics _) as [m|e]; [|repeat split].
  destruct (nonempty m); repeat split.
Qed.

(** X12. A periodic pass that is not due changes nothing. A due pass that
    completes ends by saving the state it leaves in memory and setting the
    refresh timer to now; before the save it makes reconciler calls only, so
    it answers no callback, runs no command and writes no config file, and
    it leaves the offset alone. A due pass that raises (the config file
    cannot be read, or a view cannot be built) has made no call, saved
    nothing and left the timer, the config file and the offset as they
    were; it raises exactly when reading the config file or building the
    views raises. *)
Theorem periodic_pass_saves `{Collaborators} :
  forall (env : Env) (owner_chat_id : Z) (w : World),
    let '(r, w') := periodic_refresh env owner_chat_id w in
    if fge (fsub (now env) (last_dashboard_ts w)) THIRTY then
      match r with
      | Val _ =>
          state_file w' = Some (state w')
          /\ last_dashboard_ts w' = now env
          /\ conduit_env w' = conduit_env w
          /\ offset w' = offset w
          /\ exists calls : list Effect,
               added w w' = calls ++ [SaveState (state w')]
               /\ forallb is_reconciler_effect calls = true
      | Raise e =>
          added w w' = []
          /\ state_file w' = state_file w
          /\ last_dashboard_ts w' = last_dashboard_ts w
          /\ conduit_env w' = conduit_env w
          /\ offset w' = offset w
          /\ match load_conduit_env (conduit_env w) with
             | Raise e0 => e = e0 /\ w' = w
             | Val (max_clients, bandwidth) =>
                 let '(metrics, w0) := fetch_cache_record env w in
                 w' = w0
                 /\ render_views max_clients bandwidth (service_status env)
                      metrics (state w0) = Raise e
             end
      end
    else r = Val tt /\ w' = w.
Proof.
  intros env owner w. unfold periodic_refresh.
  destruct (fge _ _); [|split; reflexivity].
  destruct (load_conduit_env _) as [[max_clients bandwidth]|e0].
  2:{ split; [apply added_app; symmetry; apply app_nil_r|]. repeat split. }
  pose proof (fetch_cache_record_frame env w) as Hf. cbv zeta in Hf.
  destruct (fetch_cache_record env w) as [metrics w0]. cbn [snd] in Hf.
  destruct Hf as (Ht & Hsf & Hc & Ho & Hts).
  destruct (render_views _ _ _ _ _) as [[text image]|e1].
  2:{ split; [apply added_app; rewrite Ht; symmetry; apply app_nil_r|].
      repeat split; assumption. }
  destruct (reconciles_update_dashboard_for_chat env owner text image w0)
    as [[calls [Hcalls Hrec]] [[_ [_ [Hc1 [_ Ho1]]]] _]].
  generalize dependent (update_dashboard_for_chat env owner text image w0).
  intros w1 Hcalls Hc1 Ho1.
  split; [reflexivity|]. split; [reflexivity|].
  split; [simpl; congruence|]. split; [simpl; congruence|].
  exists calls. split; [|exact Hrec].
  apply added_app. simpl. rewrite Hcalls, Ht, <- app_assoc. reflexivity.
Qed.

(** ** Config store: a write followed by a read or another write *)

Lemma omap_absent {A} (parse : str -> option A) (key : str) (d : Dict) :
  Forall (fun kv => clean_key kv.1 = true /\ clean_value kv.2 = true) d ->
  key ∉ d.*1 ->
  omap (fun line =>
          match env_line line with
          | Some (k, v) => if bool_decide (k = key) then parse v else None
          | None => None
          end) (List.map line_of d) = [].
Proof.
  induction 1 as [|[k v] d [Hk Hv] Hd IH]; intros Hkey; [reflexivity|].
  cbn [fst snd] in Hk, Hv. rewrite fmap_cons in Hkey. cbn [fst] in Hkey.
  apply not_elem_of_cons in Hkey. destruct Hkey as [Hne Hkey].
  cbn [List.map omap list_omap]. rewrite (env_line_render k v Hk Hv).
  rewrite bool_decide_eq_false_2 by congruence. apply IH, Hkey.
Qed.

Lemma last_parsed_render {A} (parse : str -> option A) (key : str) (dflt : A)
    (d : Dict) :
  wf_dict d ->
  List.last
    (omap (fun line =>
             match env_line line with
             | Some (k, v) => if bool_decide (k = key) then parse v else None
             | None => None
             end) (List.map line_of d)) dflt
  = value_or parse dflt (dict_get d key).
Proof.
  intros [Hnd Hall]. induction Hall as [|[k v] d [Hk Hv] Hd IH]; [reflexivity|].
  cbn [fst snd] in Hk, Hv. rewrite fmap_cons in Hnd. cbn [fst] in Hnd.
  apply NoDup_cons in Hnd. destruct Hnd as [Hfresh Hnd].
  cbn [List.map omap list_omap dict_get]. rewrite (env_line_render k v Hk Hv).
  destruct (bool_decide (k = key)) eqn:E.
  - apply bool_decide_eq_true in E. subst k.
    rewrite (omap_absent parse key d Hd Hfresh).
    unfold value_or. destruct (parse v); reflexivity.
  - apply IH, Hnd.
Qed.

(** Loading a file that was written from a dict reads each key off the
    dict. *)
Lemma load_render `{Collaborators} (d : Dict) :
  wf_dict d ->
  load_lines (Some (render_env d))
  = (value_or py_int 50 (dict_get d MAX_CLIENTS),
     value_or py_float TEN (dict_get d BANDWIDTH)).
Proof.
  intros Hwf. unfold load_lines, file_lines.
  destruct (readlines_render d (proj2 Hwf)) as [Hlines Hcr].
  rewrite (universal_newlines_id _ Hcr), Hlines, load_fold.
  rewrite (last_parsed_render py_int MAX_CLIENTS 50 d Hwf).
  rewrite (last_parsed_render py_float BANDWIDTH TEN d Hwf).
  reflexivity.
Qed.

(** X13. What the bot reads back after a write over a config file that is
    absent or can be read. After MAX_CLIENTS is written,
    [load_conduit_env] returns the written value as parsed by [int] (50 if
    it does not parse) and, for the bandwidth, the parse of the last
    BANDWIDTH line the file had before (10.0 if there was none or it does
    not parse); symmetrically after BANDWIDTH is written. *)
Theorem load_after_write `{Collaborators} :
  forall (file : File) (content : option str) (value : str),
    read_text file = Val content ->
    clean_value value = true ->
    (exists after : str,
        set_conduit_param file MAX_CLIENTS value = Val after
        /\ load_conduit_env (Text after)
           = Val (default 50 (py_int value),
                  value_or py_float TEN (dict_get (parse_env content) BANDWIDTH)))
    /\ (exists after : str,
           set_conduit_param file BANDWIDTH value = Val after
           /\ load_conduit_env (Text after)
              = Val (value_or py_int 50 (dict_get (parse_env content) MAX_CLIENTS),
                     default TEN (py_float value))).
Proof.
  intros file content value Hread Hvalue. destruct managed_keys_clean as [Hm Hb].
  unfold set_conduit_param, load_conduit_env. rewrite Hread. cbn [read_text].
  split; eexists; (split; [reflexivity|]).
  - rewrite load_render
      by (apply dict_set_wf; [apply parse_env_wf | exact Hm | exact Hvalue]).
    rewrite dict_get_set_eq, dict_get_set_ne by discriminate. reflexivity.
  - rewrite load_render
      by (apply dict_set_wf; [apply parse_env_wf | exact Hb | exact Hvalue]).
    rewrite dict_get_set_eq, dict_get_set_ne by discriminate. reflexivity.
Qed.

(** A limit of 75 written over a file whose bandwidth is first 20 and then
    malformed: the limit reads back, and the bandwidth, which read as 20
    before the write, now reads as the default. *)
Lemma load_after_write_witness :
  let file := Text (lit "BANDWIDTH=20" ++ [10%N] ++ lit "BANDWIDTH=fast" ++ [10%N]) in
  load_conduit_env file = Val (50, float_of_Z 20)
  /\ exists after : str,
       set_conduit_param file MAX_CLIENTS (lit "75") = Val after
       /\ load_conduit_env (Text after) = Val (75, float_of_Z 10).
Proof.
  cbv zeta. split; [vm_compute; reflexivity|].
  destruct (load_after_write
              (Text (lit "BANDWIDTH=20" ++ [10%N] ++ lit "BANDWIDTH=fast" ++ [10%N]))
              _ (lit "75") eq_refl eq_refl) as [[after [Hset Hload]] _].
  exists after. split; [exact Hset|].
  rewrite Hload. vm_compute. reflexivity.
Defined.

Lemma dict_set_set (d : Dict) (k v1 v2 : str) :
  dict_set (dict_set d k v1) k v2 = dict_set d k v2.
Proof.
  induction d as [|[k' v'] d IH]; cbn [dict_set].
  - rewrite bool_decide_eq_true_2 by reflexivity. reflexivity.
  - destruct (bool_decide (k' = k)) eqn:E; cbn [dict_set]; rewrite E;
      [reflexivity | rewrite IH; reflexivity].
Qed.

(** X14. Writes of a managed key compose when the first value written is
    one that reads back as written ([strip] leaves it alone and it holds no
    line feed and no carriage return): the file after a completed write of
    [v1] and then a write of [v2] to the same key is, byte for byte, the
    file after the write of [v2] alone, so writing the same such value twice
    changes nothing the second time. *)
Theorem set_conduit_param_last_write_wins :
  forall (file : File) (key v1 v2 after1 : str),
    key = MAX_CLIENTS \/ key = BANDWIDTH ->
    clean_value v1 = true ->
    set_conduit_param file key v1 = Val after1 ->
    set_conduit_param (Text after1) key v2 = set_conduit_param file key v2.
Proof.
  intros file key v1 v2 after1 Hkey Hv1 Hset.
  assert (Hclean : clean_key key = true).
  { destruct managed_keys_clean. destruct Hkey; subst key; assumption. }
  unfold set_conduit_param in *. cbn [read_text].
  destruct (read_text file) as [content|e]; [|discriminate Hset].
  apply Val_inj in Hset. rewrite <- Hset.
  rewrite parse_render
    by (apply dict_set_wf; [apply parse_env_wf | exact Hclean | exact Hv1]).
  rewrite dict_set_set. reflexivity.
Qed.

(** Bandwidth set to 10 and then to 25 over a file with a comment. *)
Lemma set_conduit_param_last_write_wins_witness :
  set_conduit_param
    (Text (lit "MAX_CLIENTS=50" ++ [10%N] ++ lit "BANDWIDTH=10" ++ [10%N]))
    BANDWIDTH (lit "25")
  = Val (lit "MAX_CLIENTS=50" ++ [10%N] ++ lit "BANDWIDTH=25" ++ [10%N]).
Proof.
  rewrite (set_conduit_param_last_write_wins
             (Text (lit "# limits" ++ [10%N] ++ lit "MAX_CLIENTS = 50" ++ [10%N]))
             BANDWIDTH (lit "10") (lit "25")
             (lit "MAX_CLIENTS=50" ++ [10%N] ++ lit "BANDWIDTH=10" ++ [10%N])
             (or_intror eq_refl) eq_refl eq_refl).
  vm_compute. reflexivity.
Defined.

(** A first value with a line break: the two writes then differ from the
    second write alone. *)
Example writes_do_not_compose_after_line_break :
  let file := Text (lit "MAX_CLIENTS=50" ++ [10%N]) in
  let v1 := lit "5" ++ [10%N] ++ lit "X=1" in
  exists after1 : str,
    set_conduit_param file BANDWIDTH v1 = Val after1
    /\ set_conduit_param (Text after1) BANDWIDTH (lit "25")
       <> set_conduit_param file BANDWIDTH (lit "25").
Proof. cbv zeta. eexists. split; [reflexivity|]. vm_compute. discriminate. Qed.

(** ** Button presses of the owner *)

Lemma startswith_inv (p s : str) :
  startswith s p = true -> s = p ++ skipn (length p) s.
Proof.
  revert s. induction p as [|a p IH]; intros s H; [reflexivity|].
  destruct s as [|b s]; [discriminate|]. simpl in H.
  apply andb_true_iff in H. destruct H as [Hab Hs].
  apply N.eqb_eq in Hab. subst b. simpl. f_equal. apply IH, Hs.
Qed.

(** The argument of a preset token is what follows its prefix; the index
    into the split never fails. *)
Lemma preset_argument (data : str) :
  (startswith data (lit "set_clients_") = true ->
   split_char 95 2 data !! 2%nat = Some (skipn 12 data))
  /\ (startswith data (lit "set_bw_") = true ->
      split_char 95 2 data !! 2%nat = Some (skipn 7 data)).
Proof.
  split; intros H; apply startswith_inv in H;
    set (rest := skipn _ data) in *; rewrite H; clearbody rest;
    cbn; rewrite split_char_zero; reflexivity.
Qed.

Lemma if_elim {A} (Q : A -> Prop) (c : bool) (a b : A) :
  (c = true -> Q a) -> (c = false -> Q b) -> Q (if c then a else b).
Proof. destruct c; auto. Qed.

Lemma adds_same_trace (P : Effect -> bool) (w w1 w2 : World) :
  trace w2 = trace w1 -> adds P w w1 -> adds P w w2.
Proof. intros E [l H]. exists l. rewrite E. exact H. Qed.

Lemma adds_answer (P : Effect -> bool) (env : Env) (id text : str) (w w' : World) :
  adds P w w' -> P (Api (AnswerCallbackQuery id text)) = true ->
  adds P w (answer_callback_query env id text w').
Proof. apply adds_emit. Qed.

Lemma adds_system (P : Effect -> bool) (c : Command) (w w' : World) :
  adds P w w' -> P (Os c) = true -> adds P w (system c w').
Proof. apply adds_emit. Qed.

Lemma adds_save_state (P : Effect -> bool) (w w' : World) :
  adds P w w' -> P (SaveState (state w')) = true -> adds P w (save_state w').
Proof.
  intros H HP. unfold save_state. apply adds_emit; [|exact HP].
  apply (adds_same_trace P w w'); [reflexivity | exact H].
Qed.

Lemma adds_written (P : Effect -> bool) (content : str) (w w' : World) :
  adds P w w' ->
  P (WriteEnv content) = true ->
  adds P w
    (emit (WriteEnv content)
       (mkWorld (state w') (state_file w') (Text content) (trace w')
          (last_dashboard_ts w') (offset w'))).
Proof.
  intros H HP. apply adds_emit; [|exact HP].
  apply (adds_same_trace P w w'); [reflexivity | exact H].
Qed.

Lemma adds_set_last_dashboard_ts (P : Effect -> bool) (t : float) (w w' : World) :
  adds P w w' -> adds P w (set_last_dashboard_ts t w').
Proof. apply adds_same_trace. reflexivity. Qed.

Lemma adds_edit_command_desk (P : Effect -> bool) (env : Env) (chat_id : Z)
    (text : str) (keyboard : Keyboard) (w w' : World) :
  (forall e, is_reconciler_effect e = true -> P e = true) ->
  adds P w w' -> adds P w (edit_command_desk env chat_id text keyboard w').
Proof.
  intros HP H. apply (adds_trans P w w'); [exact H|].
  apply (adds_weaken _ _ _ _ HP).
  apply (reconciles_edit_command_desk env chat_id text keyboard w').
Qed.

Lemma adds_update_dashboard_for_chat (P : Effect -> bool) (env : Env) (chat_id : Z)
    (text : str) (image : list N) (w w' : World) :
  (forall e, is_reconciler_effect e = true -> P e = true) ->
  adds P w w' -> adds P w (update_dashboard_for_chat env chat_id text image w').
Proof.
  intros HP H. apply (adds_trans P w w'); [exact H|].
  apply (adds_weaken _ _ _ _ HP).
  apply (reconciles_update_dashboard_for_chat env chat_id text image w').
Qed.

Lemma reconciler_not_answer (e : Effect) :
  is_reconciler_effect e = true -> not_answer e = true.
Proof. destruct e as [[]| | |]; simpl; intros H; try discriminate H; reflexivity. Qed.

Lemma reconciler_not_action (e : Effect) :
  is_reconciler_effect e = true -> not_action e = true.
Proof. destruct e as [[]| | |]; simpl; intros H; try discriminate H; reflexivity. Qed.

Lemma filter_none (P Q : Effect -> bool) (l : list Effect) :
  (forall e, P e = true -> Q e = false) ->
  forallb P l = true -> List.filter Q l = [].
Proof.
  intros HPQ. induction l as [|e l IH]; [reflexivity|]. simpl.
  intros H. apply andb_true_iff in H. destruct H as [He Hl].
  rewrite (HPQ e He). apply IH, Hl.
Qed.

Lemma not_answer_filter (l : list Effect) :
  forallb not_answer l = true -> List.filter is_answer l = [].
Proof.
  apply filter_none. intros e. unfold not_answer. apply negb_true_iff.
Qed.

Lemma not_action_filter (l : list Effect) :
  forallb not_action l = true -> List.filter is_action l = [].
Proof.
  apply filter_none. intros e. unfold not_action. apply negb_true_iff.
Qed.

(** One answer between two runs of other effects. *)
Lemma acknowledged_between (env : Env) (cq_id ack : str) (w w1 w2 : World) :
  adds not_answer w w1 ->
  adds not_answer (answer_callback_query env cq_id ack w1) w2 ->
  acknowledged_once cq_id w (Val tt, w2).
Proof.
  intros [l1 [H1 P1]] [l2 [H2 P2]]. split; [reflexivity|]. exists ack.
  cbn [snd]. simpl in H2.
  rewrite (added_app w w2 (l1 ++ [Api (AnswerCallbackQuery cq_id ack)] ++ l2))
    by (rewrite H2, H1, <- !app_assoc; reflexivity).
  rewrite !List.filter_app, (not_answer_filter _ P1), (not_answer_filter _ P2).
  reflexivity.
Qed.

Ltac adds_steps HP :=
  repeat first
    [ apply adds_refl
    | apply adds_with_state
    | apply adds_set_last_dashboard_ts
    | apply adds_save_state; [|reflexivity]
    | apply adds_written; [|reflexivity]
    | apply adds_system; [|reflexivity]
    | apply adds_answer; [|reflexivity]
    | apply adds_edit_command_desk; [exact HP|]
    | apply adds_update_dashboard_for_chat; [exact HP|] ].

(** The effects of the fetch and the refresh of the stop confirmation. *)
Lemma adds_stop_refresh `{Collaborators} (P : Effect -> bool) (env : Env)
    (chat_id : Z) (w0 w : World) :
  (forall e, is_reconciler_effect e = true -> P e = true) ->
  adds P w0 w ->
  let '(metrics, w1) := fetch_and_record env w in
  adds P w0 w1
  /\ conduit_env w1 = conduit_env w
  /\ forall (status_text : str) (img_bytes : list N),
       let w2 := update_dashboard_for_chat env chat_id status_text img_bytes w1 in
       adds P w0
         (match metrics with
          | Some m => with_state (set_last_good_metrics (Some m)) w2
          | None => w2
          end)
       /\ conduit_env w2 = conduit_env w.
Proof.
  intros HP Hw.
  pose proof (fetch_and_record_frame env w) as Hf. cbv zeta in Hf.
  destruct (fetch_and_record env w) as [metrics w1]. cbn [snd] in Hf.
  destruct Hf as (Ht & _ & Hc & _).
  assert (Hw1 : adds P w0 w1) by (apply (adds_same_trace P w0 w w1 Ht Hw)).
  split; [exact Hw1|]. split; [exact Hc|].
  intros status_text img_bytes. cbv zeta. split.
  - destruct metrics; adds_steps HP; exact Hw1.
  - destruct (reconciles_update_dashboard_for_chat env chat_id status_text
                img_bytes w1) as [_ [[_ [_ [Hc2 _]]] _]].
    congruence.
Qed.

Lemma acknowledged_last (env : Env) (cq_id ack : str) (w w1 : World) :
  adds not_answer w w1 ->
  acknowledged_once cq_id w (Val tt, answer_callback_query env cq_id ack w1).
Proof. intros H. apply (acknowledged_between env cq_id ack w w1); [exact H | apply adds_refl]. Qed.

Lemma acknowledged_first (env : Env) (cq_id ack : str) (w w2 : World) :
  adds not_answer (answer_callback_query env cq_id ack w) w2 ->
  acknowledged_once cq_id w (Val tt, w2).
Proof. apply acknowledged_between, adds_refl. Qed.

Lemma answered_of_acknowledged (cq_id : str) (w : World) (out : Result unit * World) :
  acknowledged_once cq_id w out -> answered_or_raised cq_id w out.
Proof. intros [Hv Hack]. unfold answered_or_raised. rewrite Hv. exact Hack. Qed.

Lemma raised_unanswered (cq_id : str) (e : Exn) (w w' : World) :
  adds not_answer w w' -> answered_or_raised cq_id w (Raise e, w').
Proof.
  intros Hadds. unfold answered_or_raised. cbn [fst snd].
  apply not_answer_filter, adds_added, Hadds.
Qed.

Ltac ack_last :=
  apply answered_of_acknowledged, acknowledged_last;
  adds_steps reconciler_not_answer.

(** A preset handler answers once when it returns, and returns unless the
    config file cannot be opened. *)
Lemma set_preset_answered `{Collaborators}
    (env : Env) (cq_id data arg : str) (presets : list Z) (key : str)
    (ack : Z -> str) (w : World) :
  split_char 95 2 data !! 2%nat = Some arg ->
  answered_or_raised cq_id w (set_preset env cq_id data presets key ack w)
  /\ (conduit_env w <> Unreadable ->
      (set_preset env cq_id data presets key ack w).1 = Val tt).
Proof.
  intros Harg. unfold set_preset. rewrite Harg.
  destruct (py_int arg) as [v|]; [destruct (bool_decide _)|];
    try (split; [ack_last | reflexivity]).
  unfold write_conduit_param, set_conduit_param.
  destruct (conduit_env w) as [| | |content] eqn:Hfile;
    cbn [read_text is_ValueError];
    try (split; [ack_last | reflexivity]).
  split; [apply raised_unanswered, adds_refl | intros Hne; contradiction].
Qed.

Lemma dispatch_answered `{Collaborators}
    (env : Env) (upd_id : Z) (cq_id : str) (chat_id : Z) (data : str) (w : World) :
  answered_or_raised cq_id w (dispatch env upd_id cq_id chat_id data w).
Proof.
  unfold dispatch. cbv beta zeta.
  apply if_elim; intros Hstatus.
  { apply if_elim; intros _; ack_last. }
  do 5 (apply if_elim; intros ?; [ack_last|]).
  apply if_elim; intros Hclients.
  { apply (set_preset_answered env cq_id data _ _ _ _ w
             (proj1 (preset_argument data) Hclients)). }
  apply if_elim; intros Hbw.
  { apply (set_preset_answered env cq_id data _ _ _ _ w
             (proj2 (preset_argument data) Hbw)). }
  do 4 (apply if_elim; intros ?; [ack_last|]).
  apply if_elim; intros Hstop.
  { destruct (load_conduit_env _) as [[max_clients bandwidth]|e];
      [|apply raised_unanswered; adds_steps reconciler_not_answer].
    pose proof (adds_stop_refresh not_answer env chat_id w (system StopConduit w)
                  reconciler_not_answer
                  ltac:(adds_steps reconciler_not_answer)) as Hrefresh.
    destruct (fetch_and_record env (system StopConduit w)) as [metrics w1].
    destruct Hrefresh as (Hw1 & _ & Hrefresh).
    destruct (render_views _ _ _ _ _) as [[status_text img_bytes]|e];
      [|apply raised_unanswered; exact Hw1].
    apply answered_of_acknowledged, acknowledged_last.
    apply adds_edit_command_desk; [exact reconciler_not_answer|].
    apply (Hrefresh status_text img_bytes). }
  do 2 (apply if_elim; intros ?; [ack_last|]).
  apply if_elim; intros Hupdate.
  { apply answered_of_acknowledged,
      (acknowledged_first env cq_id (lit "Updating" ++ [8230%N])).
    adds_steps reconciler_not_answer. }
  do 2 (apply if_elim; intros ?; [ack_last|]).
  apply if_elim; intros Hreboot.
  { apply answered_of_acknowledged,
      (acknowledged_first env cq_id (lit "Rebooting now" ++ [8230%N])).
    adds_steps reconciler_not_answer. }
  apply if_elim; intros Hcancel.
  { apply raised_unanswered, adds_refl. }
  apply if_elim; intros _; ack_last.
Qed.

Lemma dispatch_returns `{Collaborators}
    (env : Env) (upd_id : Z) (cq_id : str) (chat_id : Z) (data : str) (w : World) :
  may_raise data = false ->
  (dispatch env upd_id cq_id chat_id data w).1 = Val tt.
Proof.
  intros Hquiet. unfold may_raise in Hquiet.
  repeat (apply orb_false_iff in Hquiet;
          let Hn := fresh "Hnot" in destruct Hquiet as [Hquiet Hn]).
  unfold dispatch. cbv beta zeta.
  apply if_elim; intros Hstatus.
  { apply if_elim; intros _; reflexivity. }
  do 5 (apply if_elim; intros ?; [reflexivity|]).
  do 2 (apply if_elim; intros ?; [congruence|]).
  do 4 (apply if_elim; intros ?; [reflexivity|]).
  apply if_elim; intros ?; [congruence|].
  do 6 (apply if_elim; intros ?; [reflexivity|]).
  apply if_elim; intros ?; [congruence|].
  apply if_elim; intros _; reflexivity.
Qed.

Lemma dispatch_preset_returns `{Collaborators}
    (env : Env) (upd_id : Z) (cq_id : str) (chat_id : Z) (data : str) (w : World) :
  startswith data (lit "set_clients_") || startswith data (lit "set_bw_") = true ->
  conduit_env w <> Unreadable ->
  (dispatch env upd_id cq_id chat_id data w).1 = Val tt.
Proof.
  intros Hpreset Hfile. unfold dispatch. cbv beta zeta.
  apply if_elim; intros Hstatus.
  { apply if_elim; intros _; reflexivity. }
  do 5 (apply if_elim; intros ?; [reflexivity|]).
  apply if_elim; intros Hclients.
  { apply (set_preset_answered env cq_id data _ _ _ _ w
             (proj1 (preset_argument data) Hclients)), Hfile. }
  apply if_elim; intros Hbw.
  { apply (set_preset_answered env cq_id data _ _ _ _ w
             (proj2 (preset_argument data) Hbw)), Hfile. }
  rewrite Hclients, Hbw in Hpreset. discriminate Hpreset.
Qed.

Lemma dispatch_stop_returns `{Collaborators}
    (env : Env) (upd_id : Z) (cq_id : str) (chat_id : Z) (w : World)
    (max_clients : Z) (bandwidth : float) (views : str * list N) :
  load_conduit_env (conduit_env w) = Val (max_clients, bandwidth) ->
  (let '(metrics, w1) := fetch_and_record env (system StopConduit w) in
   render_views max_clients bandwidth (service_status env) metrics (state w1)
   = Val views) ->
  (dispatch env upd_id cq_id chat_id (lit "stop_conduit_confirm") w).1 = Val tt.
Proof.
  intros Hload Hviews. unfold dispatch. decide_tokens.
  change (conduit_env (system StopConduit w)) with (conduit_env w).
  rewrite Hload.
  destruct (fetch_and_record env (system StopConduit w)) as [metrics w1].
  rewrite Hviews. destruct views as [status_text img_bytes]. reflexivity.
Qed.

(** X15. A button press of the owner whose handler returns has answered
    the callback exactly once, whatever the token, known or not; a press
    whose handler raises has not answered it. The handler returns for
    every token other than the presets, [stop_conduit_confirm] and
    [reboot_cancel]; for a preset it returns unless the config file cannot
    be opened; for [stop_conduit_confirm] it returns when the config file is
    read and the views can be built. *)
Theorem press_acknowledged_once `{Collaborators} :
  forall (env : Env) (upd_id : Z) (cq_id : str) (chat_id : Z) (data : str)
         (w : World),
    let out := dispatch env upd_id cq_id chat_id data w in
    answered_or_raised cq_id w out
    /\ (may_raise data = false -> acknowledged_once cq_id w out)
    /\ (startswith data (lit "set_clients_") || startswith data (lit "set_bw_") = true ->
        conduit_env w <> Unreadable ->
        acknowledged_once cq_id w out)
    /\ (forall (max_clients : Z) (bandwidth : float) (views : str * list N),
          data = lit "stop_conduit_confirm" ->
          load_conduit_env (conduit_env w) = Val (max_clients, bandwidth) ->
          (let '(metrics, w1) := fetch_and_record env (system StopConduit w) in
           render_views max_clients bandwidth (service_status env) metrics (state w1)
           = Val views) ->
          acknowledged_once cq_id w out).
Proof.
  intros env upd_id cq_id chat_id data w. cbv zeta.
  pose proof (dispatch_answered env upd_id cq_id chat_id data w) as Hans.
  assert (Hack : (dispatch env upd_id cq_id chat_id data w).1 = Val tt ->
                 acknowledged_once cq_id w (dispatch env upd_id cq_id chat_id data w)).
  { intros Hv. split; [exact Hv|]. unfold answered_or_raised in Hans.
    rewrite Hv in Hans. exact Hans. }
  split; [exact Hans|]. split; [|split].
  - intros Hquiet. apply Hack, dispatch_returns, Hquiet.
  - intros Hpreset Hfile. apply Hack, dispatch_preset_returns; assumption.
  - intros max_clients bandwidth views -> Hload Hviews. apply Hack.
    apply (dispatch_stop_returns env upd_id cq_id chat_id w max_clients bandwidth
             views Hload Hviews).
Qed.

(** An unknown token and the update confirmation, pressed by the owner. *)
Lemma press_acknowledged_once_witness :
  let env := quiet_env accepting None in
  let w := world_of complete_state in
  acknowledged_once (lit "q") w (dispatch env 1 (lit "q") 7 (lit "no_such_button") w)
  /\ acknowledged_once (lit "q") w (dispatch env 1 (lit "q") 7 (lit "update_confirm") w)
  /\ acknowledged_once (lit "q") w (dispatch env 1 (lit "q") 7 (lit "set_bw_20") w)
  /\ acknowledged_once (lit "q") w
       (dispatch env 1 (lit "q") 7 (lit "stop_conduit_confirm") w).
Proof.
  cbv zeta. split; [|split; [|split]].
  - exact (proj1 (proj2 (press_acknowledged_once (quiet_env accepting None) 1
                           (lit "q") 7 (lit "no_such_button")
                           (world_of complete_state))) eq_refl).
  - exact (proj1 (proj2 (press_acknowledged_once (quiet_env accepting None) 1
                           (lit "q") 7 (lit "update_confirm")
                           (world_of complete_state))) eq_refl).
  - refine (proj1 (proj2 (proj2 (press_acknowledged_once
                                   (quiet_env accepting None) 1
                                   (lit "q") 7 (lit "set_bw_20")
                                   (world_of complete_state)))) eq_refl _).
    discriminate.
  - refine (proj2 (proj2 (proj2 (press_acknowledged_once
                                   (quiet_env accepting None) 1
                                   (lit "q") 7 (lit "stop_conduit_confirm")
                                   (world_of complete_state))))
              50 TEN _ eq_refl eq_refl eq_refl).
Defined.

(** The preset pressed over a config file that cannot be opened: the
    handler raises and the press is not answered. *)
Example preset_over_unreadable_file_unanswered :
  let env := quiet_env accepting None in
  let w := mkWorld complete_state (Some complete_state) Unreadable [] ZERO None in
  dispatch env 1 (lit "q") 7 (lit "set_bw_20") w = (Raise OSError, w).
Proof. vm_compute. reflexivity. Qed.

Lemma conduit_env_edit_command_desk (env : Env) (chat_id : Z) (text : str)
    (keyboard : Keyboard) (w : World) :
  conduit_env (edit_command_desk env chat_id text keyboard w) = conduit_env w.
Proof.
  destruct (reconciles_edit_command_desk env chat_id text keyboard w)
    as [_ [[_ [_ [Hc _]]] _]]. exact Hc.
Qed.

Lemma harmless_of_adds (r : Result unit) (w w' : World) :
  adds not_action w w' -> conduit_env w' = conduit_env w -> harmless w (r, w').
Proof.
  intros H Hc. split; [|exact Hc].
  apply not_action_filter, adds_added, H.
Qed.

Ltac harmless_desk :=
  apply harmless_of_adds;
  [ adds_steps reconciler_not_action
  | cbn [conduit_env answer_callback_query request snd emit with_state
           set_last_dashboard_ts];
    rewrite ?conduit_env_edit_command_desk; reflexivity ].

(** X16. Confirmation gating. A press acts on the machine only through one
    of the four confirm tokens or a preset token: for every other token,
    the screens that ask for confirmation, the cancel buttons and unknown
    tokens included, no service command is run and the config file is
    neither written nor changed. *)
Theorem only_confirmations_act `{Collaborators} :
  forall (env : Env) (upd_id : Z) (cq_id : str) (chat_id : Z) (data : str)
         (w : World),
    acting data = false ->
    harmless w (dispatch env upd_id cq_id chat_id data w).
Proof.
  intros env upd_id cq_id chat_id data w Hacting.
  unfold acting in Hacting.
  repeat (apply orb_false_iff in Hacting;
          let H := fresh "Hnot" in destruct Hacting as [Hacting H]).
  unfold dispatch. cbv beta zeta.
  apply if_elim; intros Hstatus.
  { apply if_elim; intros _; harmless_desk. }
  do 5 (apply if_elim; intros ?; [harmless_desk|]).
  do 2 (apply if_elim; intros ?; [congruence|]).
  apply if_elim; intros ?; [harmless_desk|].
  apply if_elim; intros ?; [congruence|].
  do 2 (apply if_elim; intros ?; [harmless_desk|]).
  apply if_elim; intros ?; [congruence|].
  do 2 (apply if_elim; intros ?; [harmless_desk|]).
  apply if_elim; intros ?; [congruence|].
  do 2 (apply if_elim; intros ?; [harmless_desk|]).
  apply if_elim; intros ?; [congruence|].
  apply if_elim; intros ?.
  { apply harmless_of_adds; [apply adds_refl | reflexivity]. }
  apply if_elim; intros _; harmless_desk.
Qed.

(** The owner opens the reboot confirmation and then cancels the stop
    confirmation. *)
Lemma only_confirmations_act_witness :
  let env := quiet_env accepting None in
  let w := world_of complete_state in
  harmless w (dispatch env 1 (lit "q") 7 (lit "cmd_reboot") w)
  /\ harmless w (dispatch env 1 (lit "q") 7 (lit "stop_conduit_cancel") w).
Proof.
  cbv zeta. split.
  - apply (only_confirmations_act (quiet_env accepting None) 1 (lit "q") 7
             (lit "cmd_reboot") (world_of complete_state)).
    reflexivity.
  - apply (only_confirmations_act (quiet_env accepting None) 1 (lit "q") 7
             (lit "stop_conduit_cancel") (world_of complete_state)).
    reflexivity.
Defined.

Ltac decide_prefixed :=
  repeat match goal with
         | |- context [pressed (lit ?p ++ ?arg) ?b] =>
             let v := eval vm_compute in (pressed (lit p ++ arg) b) in
             change (pressed (lit p ++ arg) b) with v
         | |- context [startswith (lit ?p ++ ?arg) (lit ?b)] =>
             let v := eval vm_compute in (startswith (lit p ++ arg) (lit b)) in
             change (startswith (lit p ++ arg) (lit b)) with v
         end;
  cbv iota.

(** X17. A preset token [set_clients_<arg>]: the argument is everything
    after the prefix. If [int] reads it as one of the eight presets and the
    write of MAX_CLIENTS completes, the press writes the config file, then
    restarts the service, then answers, in that order and nothing else (the
    command desk is not edited). If it reads as another number, or not at
    all, the press only answers. If it reads as a preset and the file does
    not decode, the [except ValueError] of the branch catches the error and
    the press only answers "Invalid value."; if the file cannot be opened
    the error leaves the handler, which has done nothing. [set_bw_<arg>]
    does the same with BANDWIDTH and its six presets. *)
Theorem preset_press_effects `{Collaborators} :
  forall (env : Env) (upd_id : Z) (cq_id : str) (chat_id : Z) (arg : str)
         (w : World),
    let outcome (prefix : string) (presets : list Z) (key : str) (ack : Z -> str) :=
      let out := dispatch env upd_id cq_id chat_id (lit prefix ++ arg) w in
      let only_answers (text : str) :=
        out.1 = Val tt
        /\ added w out.2 = [Api (AnswerCallbackQuery cq_id text)]
        /\ conduit_env out.2 = conduit_env w in
      match py_int arg with
      | Some v =>
          if bool_decide (v ∈ presets) then
            match set_conduit_param (conduit_env w) key (str_of_Z v) with
            | Val content =>
                out.1 = Val tt
                /\ added w out.2
                   = [WriteEnv content; Os RestartConduit;
                      Api (AnswerCallbackQuery cq_id (ack v))]
                /\ conduit_env out.2 = Text content
            | Raise e =>
                if is_ValueError e then only_answers (lit "Invalid value.")
                else out = (Raise e, w)
            end
          else only_answers (lit "Use one of the preset values.")
      | None => only_answers (lit "Invalid value.")
      end in
    outcome "set_clients_"%string allowed MAX_CLIENTS
      (fun v => lit "Max clients set to " ++ str_of_Z v ++ lit ". Conduit restarting.")
    /\ outcome "set_bw_"%string allowed_bw BANDWIDTH
         (fun v => lit "Bandwidth set to " ++ str_of_Z v ++ lit " Mbps. Conduit restarting.").
Proof.
  intros env upd_id cq_id chat_id arg w. cbv zeta. split.
  - unfold dispatch. cbv beta zeta. decide_prefixed.
    unfold set_preset.
    rewrite (proj1 (preset_argument (lit "set_clients_" ++ arg)) eq_refl).
    change (skipn 12 (lit "set_clients_" ++ arg)) with arg.
    unfold write_conduit_param.
    destruct (py_int arg) as [v|];
      [destruct (bool_decide _);
       [destruct (set_conduit_param _ _ _) as [content|e];
        [|destruct (is_ValueError e)]|]|];
      first [ reflexivity
            | split; [reflexivity|]; split; [|reflexivity];
              apply added_app; simpl; rewrite <- ?app_assoc; reflexivity ].
  - unfold dispatch. cbv beta zeta. decide_prefixed.
    unfold set_preset.
    rewrite (proj2 (preset_argument (lit "set_bw_" ++ arg)) eq_refl).
    change (skipn 7 (lit "set_bw_" ++ arg)) with arg.
    unfold write_conduit_param.
    destruct (py_int arg) as [v|];
      [destruct (bool_decide _);
       [destruct (set_conduit_param _ _ _) as [content|e];
        [|destruct (is_ValueError e)]|]|];
      first [ reflexivity
            | split; [reflexivity|]; split; [|reflexivity];
              apply added_app; simpl; rewrite <- ?app_assoc; reflexivity ].
Qed.

(** ** Rate limit of the status button *)

(** X18. The status button. A press at least ten seconds after the last
    accepted one (or the first press, from time ten on) is accepted: it
    records its time for the chat, resets the refresh timer to zero and
    answers; a press less than ten seconds after an accepted one changes
    neither the state nor the timer and only answers with the request to
    wait. *)
Theorem status_press_rate_limited `{Collaborators} :
  forall (env env' : Env) (upd_id upd_id' : Z) (cq_id cq_id' : str)
         (chat_id : Z) (w : World),
    flt (fsub (now env) (get0 (last_status_press (state w) !! chat_id))) TEN = false ->
    flt (fsub (now env') (now env)) TEN = true ->
    let w1 := (dispatch env upd_id cq_id chat_id (lit "cmd_status") w).2 in
    let w2 := (dispatch env' upd_id' cq_id' chat_id (lit "cmd_status") w1).2 in
    last_status_press (state w1) !! chat_id = Some (now env)
    /\ last_dashboard_ts w1 = ZERO
    /\ added w w1 = [Api (AnswerCallbackQuery cq_id (lit "Refreshing" ++ [8230%N]))]
    /\ state w2 = state w1
    /\ last_dashboard_ts w2 = last_dashboard_ts w1
    /\ added w1 w2
       = [Api (AnswerCallbackQuery cq_id' (lit "Please wait before refreshing again."))].
Proof.
  intros env env' upd_id upd_id' cq_id cq_id' chat_id w Hfirst Hsecond.
  cbv zeta.
  assert (E1 : dispatch env upd_id cq_id chat_id (lit "cmd_status") w
               = (Val tt,
                  answer_callback_query env cq_id (lit "Refreshing" ++ [8230%N])
                    (set_last_dashboard_ts ZERO
                       (with_state
                          (fun s => set_last_status_press
                                      (<[chat_id := now env]> (last_status_press s)) s)
                          w)))).
  { unfold dispatch. cbv beta zeta. decide_tokens. rewrite Hfirst. reflexivity. }
  rewrite E1. cbn [snd].
  set (w1 := answer_callback_query env cq_id _ _).
  assert (Hpress : last_status_press (state w1) !! chat_id = Some (now env))
    by apply lookup_insert_eq.
  assert (E2 : dispatch env' upd_id' cq_id' chat_id (lit "cmd_status") w1
               = (Val tt,
                  answer_callback_query env' cq_id'
                    (lit "Please wait before refreshing again.") w1)).
  { unfold dispatch. cbv beta zeta. decide_tokens. rewrite Hpress.
    cbn [get0 default from_option]. change (id (now env)) with (now env).
    rewrite Hsecond. reflexivity. }
  rewrite E2. cbn [snd].
  split; [exact Hpress|]. split; [reflexivity|].
  split; [apply added_app; reflexivity|].
  split; [reflexivity|]. split; [reflexivity|].
  apply added_app. reflexivity.
Qed.

(** A first press at time 1000 and a second one five seconds later. *)
Lemma status_press_rate_limited_witness :
  let env := quiet_env accepting None in
  let env' := mkEnv accepting None (lit "active") (float_of_Z 1005)
                (lit "2026-01-02") in
  let w1 := (dispatch env 1 (lit "a") 7 (lit "cmd_status") (world_of complete_state)).2 in
  added w1 (dispatch env' 2 (lit "b") 7 (lit "cmd_status") w1).2
  = [Api (AnswerCallbackQuery (lit "b") (lit "Please wait before refreshing again."))].
Proof.
  cbv zeta.
  apply (status_press_rate_limited (quiet_env accepting None)
           (mkEnv accepting None (lit "active") (float_of_Z 1005) (lit "2026-01-02"))
           1 2 (lit "a") (lit "b") 7 (world_of complete_state));
    reflexivity.
Defined.

(** ** Update offset *)

Lemma cursor_emit (e : Effect) (w : World) : cursor (emit e w) = cursor w.
Proof. reflexivity. Qed.

Lemma cursor_answer (env : Env) (id text : str) (w : World) :
  cursor (answer_callback_query env id text w) = cursor w.
Proof. reflexivity. Qed.

Lemma cursor_system (c : Command) (w : World) : cursor (system c w) = cursor w.
Proof. reflexivity. Qed.

Lemma cursor_write_conduit_param (key value : str) (w : World) :
  cursor (write_conduit_param key value w).2 = cursor w.
Proof.
  unfold write_conduit_param. destruct (set_conduit_param _ _ _); reflexivity.
Qed.

Lemma cursor_set_last_dashboard_ts (t : float) (w : World) :
  cursor (set_last_dashboard_ts t w) = cursor w.
Proof. reflexivity. Qed.

Lemma cursor_save_state (w : World) : cursor (save_state w) = cursor w.
Proof. reflexivity. Qed.

Lemma cursor_with_state (f : State -> State) (w : World) :
  (forall s, last_update_id (f s) = last_update_id s) ->
  cursor (with_state f w) = cursor w.
Proof. intros Hf. unfold cursor. simpl. rewrite Hf. reflexivity. Qed.

Lemma cursor_reconciles (chat_id : Z) (w w' : World) :
  reconciles chat_id w w' -> cursor w' = cursor w.
Proof.
  intros [_ [[Hs [_ [_ [_ Ho]]]] _]]. apply same_but_ids_fields in Hs.
  destruct Hs as [Hu _]. unfold cursor. rewrite Ho, Hu. reflexivity.
Qed.

Lemma cursor_edit_command_desk (env : Env) (chat_id : Z) (text : str)
    (keyboard : Keyboard) (w : World) :
  cursor (edit_command_desk env chat_id text keyboard w) = cursor w.
Proof. apply (cursor_reconciles chat_id), reconciles_edit_command_desk. Qed.

Lemma cursor_update_dashboard_for_chat (env : Env) (chat_id : Z) (text : str)
    (image : list N) (w : World) :
  cursor (update_dashboard_for_chat env chat_id text image w) = cursor w.
Proof. apply (cursor_reconciles chat_id), reconciles_update_dashboard_for_chat. Qed.

Lemma cursor_fetch_and_record `{Collaborators} (env : Env) (w : World) :
  cursor (fetch_and_record env w).2 = cursor w.
Proof.
  destruct (fetch_and_record_frame env w) as (_ & _ & _ & Ho & _ & _ & Hu & _).
  unfold cursor. rewrite Ho, Hu. reflexivity.
Qed.

Ltac cursor_steps :=
  unfold cursor_kept; cbn [snd];
  repeat first
    [ rewrite cursor_answer
    | rewrite cursor_edit_command_desk
    | rewrite cursor_update_dashboard_for_chat
    | rewrite cursor_system
    | rewrite cursor_set_last_dashboard_ts
    | rewrite cursor_save_state
    | rewrite cursor_with_state by (intros; reflexivity) ];
  try reflexivity.

Lemma cursor_start_views `{Collaborators} (env : Env) (w : World) :
  cursor (start_views env w).2 = cursor w.
Proof.
  unfold start_views.
  destruct (load_conduit_env _) as [[max_clients bandwidth]|e]; [|reflexivity].
  pose proof (cursor_fetch_and_record env w) as Hf.
  destruct (fetch_and_record env w) as [metrics w1].
  destruct (render_views _ _ _ _ _); exact Hf.
Qed.

Lemma set_preset_cursor `{Collaborators}
    (env : Env) (cq_id data : str) (presets : list Z) (key : str)
    (ack : Z -> str) (w : World) :
  cursor_kept w (set_preset env cq_id data presets key ack w).
Proof.
  unfold set_preset.
  destruct (split_char 95 2 data !! 2%nat) as [arg|]; [|reflexivity].
  destruct (py_int arg) as [v|]; [destruct (bool_decide _)|]; try reflexivity.
  pose proof (cursor_write_conduit_param key (str_of_Z v) w) as Hw.
  destruct (write_conduit_param key (str_of_Z v) w) as [[u|e] w1];
    [|destruct (is_ValueError e)]; exact Hw.
Qed.

Lemma dispatch_cursor `{Collaborators}
    (env : Env) (upd_id : Z) (cq_id : str) (chat_id : Z) (data : str) (w : World) :
  last_update_id (state w) = Some upd_id ->
  cursor_kept w (dispatch env upd_id cq_id chat_id data w).
Proof.
  intros Hid. unfold dispatch. cbv beta zeta.
  apply if_elim; intros _.
  { apply if_elim; intros _; cursor_steps. }
  do 5 (apply if_elim; intros _; [cursor_steps|]).
  do 2 (apply if_elim; intros _; [apply set_preset_cursor|]).
  do 4 (apply if_elim; intros _; [cursor_steps|]).
  apply if_elim; intros _.
  { destruct (load_conduit_env _) as [[max_clients bandwidth]|e];
      [|reflexivity].
    pose proof (cursor_fetch_and_record env (system StopConduit w)) as Hf.
    destruct (fetch_and_record env (system StopConduit w)) as [metrics w1].
    cbn [snd] in Hf.
    destruct (render_views _ _ _ _ _) as [[status_text img_bytes]|e];
      [|exact Hf].
    destruct metrics; cursor_steps; exact Hf. }
  do 2 (apply if_elim; intros _; [cursor_steps|]).
  apply if_elim; intros _.
  { cursor_steps. unfold cursor. simpl.
    pose proof (cursor_edit_command_desk env chat_id CMD_DESK_MAIN_TEXT
                  build_main_keyboard
                  (answer_callback_query env cq_id (lit "Updating" ++ [8230%N]) w))
      as Hc.
    unfold cursor in Hc. injection Hc as Ho _. rewrite Ho, Hid. reflexivity. }
  do 2 (apply if_elim; intros _; [cursor_steps|]).
  apply if_elim; intros _; [cursor_steps|].
  apply if_elim; intros _; [cursor_steps|].
  apply if_elim; intros _; cursor_steps.
Qed.

Lemma handle_update_cursor `{Collaborators}
    (env : Env) (owner_chat_id : Z) (upd : Update) (w : World) :
  cursor (handle_update env owner_chat_id upd w).2
  = (Some (Z.max (default 0 (offset w)) (update_id_of upd + 1)),
     Some (update_id_of upd)).
Proof.
  unfold handle_update.
  set (w0 := with_state _ (set_offset _ w)).
  assert (H0 : cursor w0 = (Some (Z.max (default 0 (offset w)) (update_id_of upd + 1)),
                            Some (update_id_of upd))) by reflexivity.
  assert (Hid : last_update_id (state w0) = Some (update_id_of upd)) by reflexivity.
  clearbody w0. rewrite <- H0.
  destruct upd as [upd_id cq_id chat_id data | upd_id chat_id text | upd_id].
  - destruct (negb (chat_id =? owner_chat_id)); [reflexivity|].
    pose proof (dispatch_cursor env upd_id cq_id chat_id data w0 Hid) as Hd.
    unfold cursor_kept in Hd.
    destruct (dispatch env upd_id cq_id chat_id data w0) as [[?|?] w1];
      exact Hd.
  - destruct (startswith text (lit "/start")); [|reflexivity].
    destruct (negb (chat_id =? owner_chat_id)); [reflexivity|].
    pose proof (cursor_start_views env
                  (delete_chat_ui_messages env chat_id w0)) as Hf.
    pose proof (cursor_reconciles chat_id w0 _
                  (reconciles_delete_chat_ui_messages env chat_id w0)) as Hdel.
    destruct (start_views env (delete_chat_ui_messages env chat_id w0))
      as [[[status_text img_bytes]|e] w1]; cbn [snd] in Hf |- *.
    + rewrite cursor_save_state.
      rewrite (cursor_reconciles chat_id w1 _
                 (reconciles_ensure_chat_messages env chat_id status_text img_bytes w1)).
      rewrite Hf. exact Hdel.
    + rewrite Hf. exact Hdel.
  - reflexivity.
Qed.

(** X19. Every update moves both cursors, whoever sent it and whatever its
    handling did, an exception included: afterwards the state remembers its
    id, the offset of the loop is the larger of the old offset and the id
    plus one, and the offset that the start of [_main_loop] computes from
    this state is the id plus one. *)
Theorem update_advances_cursors `{Collaborators} :
  forall (env : Env) (owner_chat_id : Z) (upd : Update) (w : World),
    let w' := (handle_update env owner_chat_id upd w).2 in
    last_update_id (state w') = Some (update_id_of upd)
    /\ offset w' = Some (Z.max (default 0 (offset w)) (update_id_of upd + 1))
    /\ initial_offset (state w') = Some (update_id_of upd + 1).
Proof.
  intros env owner upd w. cbv zeta.
  pose proof (handle_update_cursor env owner upd w) as Hc.
  unfold cursor in Hc. injection Hc as Ho Hu.
  split; [exact Hu|]. split; [exact Ho|].
  unfold initial_offset. rewrite Hu. reflexivity.
Qed.

Lemma handle_update_offset `{Collaborators}
    (env : Env) (owner_chat_id : Z) (upd : Update) (w : World) :
  let w' := (handle_update env owner_chat_id upd w).2 in
  update_id_of upd < default 0 (offset w')
  /\ default 0 (offset w) <= default 0 (offset w').
Proof.
  cbv zeta.
  pose proof (handle_update_cursor env owner_chat_id upd w) as Hc.
  unfold cursor in Hc. injection Hc as Ho _.
  rewrite Ho. simpl. lia.
Qed.

(** X20. A batch that is handled to its end leaves the offset above the id
    of every update in it, in whatever order the ids came; the offset never
    goes down, whether the batch ends normally or by an exception. *)
Theorem batch_offset_above_ids `{Collaborators} :
  forall (env : Env) (owner_chat_id : Z) (updates : list Update) (w : World),
    let '(r, w') := handle_updates env owner_chat_id updates w in
    default 0 (offset w) <= default 0 (offset w')
    /\ match r with
       | Val _ =>
           Forall (fun upd => update_id_of upd < default 0 (offset w')) updates
       | Raise _ => True
       end.
Proof.
  intros env owner updates. induction updates as [|upd rest IH]; intros w.
  - simpl. split; [lia | apply Forall_nil; exact I].
  - cbn [handle_updates].
    pose proof (handle_update_offset env owner upd w) as Hstep. cbv zeta in Hstep.
    destruct (handle_update env owner upd w) as [[u|e] w1]; cbn [snd] in Hstep.
    + specialize (IH w1).
      destruct (handle_updates env owner rest w1) as [r w2].
      destruct IH as [Hmono Hrest]. split; [lia|].
      destruct r; [|exact I].
      apply Forall_cons. split; [lia | exact Hrest].
    + split; [lia | exact I].
Qed.

(** ** Runtime configuration *)

Lemma conf_line_env_line (line : str) : conf_line line = env_line line.
Proof.
  unfold conf_line, env_line.
  destruct (bool_decide (strip line = [])), (startswith (strip line) (lit "#")),
    (contains_char 61 (strip line)); reflexivity.
Qed.

Lemma conf_fold_parse (lines : list str) :
  forall acc : Dict, fold_left conf_step lines acc = fold_left parse_step lines acc.
Proof.
  induction lines as [|line lines IH]; intros acc; [reflexivity|].
  simpl. unfold conf_step at 2, parse_step at 2.
  rewrite conf_line_env_line. apply IH.
Qed.

(** X21. [load_runtime_conf] reads its file by the rules of the conduit env
    file (same lines skipped, same split and stripping, last line of a key
    wins). It raises [RuntimeError] with "Runtime config not found" and the
    path when the file is missing, the error of [open] or of the decoder
    when the file cannot be opened or is not UTF-8, and [RuntimeError] with
    "Missing <key> in runtime config" when a required key is absent or
    empty, naming the first such key in the order BOT_TOKEN, METRICS_URL,
    CONDUIT_ENV_PATH, STATE_DIR; when it returns, each of the four has a
    non-empty value in the dict it returns. *)
Theorem load_runtime_conf_required :
  forall (path : str) (file : File),
    match load_runtime_conf path file with
    | Val conf =>
        exists raw : str,
          file = Text raw
          /\ conf = parse_env (Some raw)
          /\ forall key, In key required ->
               exists c v, dict_get conf key = Some (c :: v)
    | Raise e =>
        match file with
        | NoFile => e = CONF_NOT_FOUND path
        | Unreadable => e = OSError
        | Undecodable => e = UnicodeDecodeError
        | Text raw =>
            exists key before after,
              e = CONF_MISSING key path
              /\ required = before ++ key :: after
              /\ lacks (parse_env (Some raw)) key = true
              /\ forall k, In k before -> lacks (parse_env (Some raw)) k = false
        end
    end.
Proof.
  intros path [| | |raw]; try reflexivity.
  unfold load_runtime_conf. cbn [read_text]. rewrite conf_fold_parse.
  change (fold_left parse_step (file_lines raw) []) with (parse_env (Some raw)).
  remember (parse_env (Some raw)) as conf eqn:Hconf.
  unfold required. cbn [List.find].
  destruct (lacks conf (lit "BOT_TOKEN")) eqn:E1.
  { exists (lit "BOT_TOKEN"), [],
      [lit "METRICS_URL"; lit "CONDUIT_ENV_PATH"; lit "STATE_DIR"].
    split; [reflexivity|]. split; [reflexivity|].
    split; [exact E1 | intros k []]. }
  destruct (lacks conf (lit "METRICS_URL")) eqn:E2.
  { exists (lit "METRICS_URL"), [lit "BOT_TOKEN"],
      [lit "CONDUIT_ENV_PATH"; lit "STATE_DIR"].
    split; [reflexivity|]. split; [reflexivity|]. split; [exact E2|].
    intros k [<-|[]]. exact E1. }
  destruct (lacks conf (lit "CONDUIT_ENV_PATH")) eqn:E3.
  { exists (lit "CONDUIT_ENV_PATH"), [lit "BOT_TOKEN"; lit "METRICS_URL"],
      [lit "STATE_DIR"].
    split; [reflexivity|]. split; [reflexivity|]. split; [exact E3|].
    intros k [<-|[<-|[]]]; assumption. }
  destruct (lacks conf (lit "STATE_DIR")) eqn:E4.
  { exists (lit "STATE_DIR"),
      [lit "BOT_TOKEN"; lit "METRICS_URL"; lit "CONDUIT_ENV_PATH"], [].
    split; [reflexivity|]. split; [reflexivity|]. split; [exact E4|].
    intros k [<-|[<-|[<-|[]]]]; assumption. }
  exists raw. split; [reflexivity|]. split; [exact Hconf|].
  intros key [<-|[<-|[<-|[<-|[]]]]];
    match goal with
    | Hk : lacks conf ?k = false |- exists c v, dict_get conf ?k = _ =>
        unfold lacks in Hk; destruct (dict_get conf k) as [[|c v]|];
        try discriminate Hk; exists c, v; reflexivity
    end.
Qed.

(** ** Service status *)

(** X23. [get_service_status] always returns one of "active", "inactive",
    "failed" and "unknown", and a white-space character after the output of
    [systemctl], such as its final newline, never changes the result. *)
Theorem get_service_status_range :
  forall (output : option str),
    In (get_service_status output)
      [lit "active"; lit "inactive"; lit "failed"; lit "unknown"]
    /\ forall (out : str) (c : N),
         isspace c = true ->
         get_service_status (Some (out ++ [c])) = get_service_status (Some out).
Proof.
  intros output. split.
  - destruct output as [out|]; [|right; right; right; left; reflexivity].
    unfold get_service_status.
    destruct (bool_decide _) eqn:E; [|right; right; right; left; reflexivity].
    apply bool_decide_eq_true in E.
    apply list_elem_of_In in E. simpl in E. simpl. tauto.
  - intros out c Hc. unfold get_service_status.
    rewrite (strip_app_space out c Hc). reflexivity.
Qed.

(** ** A preset press, end to end *)

Lemma preset_value_clean (v : Z) :
  In v allowed \/ In v allowed_bw -> clean_value (str_of_Z v) = true.
Proof.
  intros Hv. pose proof preset_values_clean as Hall.
  rewrite forallb_forall in Hall. apply Hall, in_or_app, Hv.
Qed.

Lemma preset_press_config `{Collaborators}
    (env : Env) (upd_id : Z) (cq_id : str) (chat_id : Z) (arg : str) (v : Z)
    (content : option str) (w : World) :
  py_int arg = Some v ->
  read_text (conduit_env w) = Val content ->
  (In v allowed ->
   conduit_env (dispatch env upd_id cq_id chat_id (lit "set_clients_" ++ arg) w).2
   = Text (render_env (dict_set (parse_env content) MAX_CLIENTS (str_of_Z v))))
  /\ (In v allowed_bw ->
      conduit_env (dispatch env upd_id cq_id chat_id (lit "set_bw_" ++ arg) w).2
      = Text (render_env (dict_set (parse_env content) BANDWIDTH (str_of_Z v)))).
Proof.
  intros Hpy Hread. split; intros Hv; apply list_elem_of_In in Hv;
    unfold dispatch; cbv beta zeta; decide_prefixed; unfold set_preset.
  - rewrite (proj1 (preset_argument (lit "set_clients_" ++ arg)) eq_refl).
    change (skipn 12 (lit "set_clients_" ++ arg)) with arg.
    rewrite Hpy, (bool_decide_eq_true_2 _ Hv).
    unfold write_conduit_param, set_conduit_param. rewrite Hread. reflexivity.
  - rewrite (proj2 (preset_argument (lit "set_bw_" ++ arg)) eq_refl).
    change (skipn 7 (lit "set_bw_" ++ arg)) with arg.
    rewrite Hpy, (bool_decide_eq_true_2 _ Hv).
    unfold write_conduit_param, set_conduit_param. rewrite Hread. reflexivity.
Qed.

(** X24. A preset press read back, over a config file that is absent or
    can be read. When the argument of a [set_clients_] press reads as a
    preset [v] and [int] reads the decimal text of [v] back as [v], the
    config file the press leaves makes [load_conduit_env] return [v] as the
    limit; likewise the bandwidth after a [set_bw_] press, for what [float]
    makes of the decimal text. *)
Theorem preset_press_read_back `{Collaborators} :
  forall (env : Env) (upd_id : Z) (cq_id : str) (chat_id : Z) (arg : str)
         (v : Z) (content : option str) (w : World),
    py_int arg = Some v ->
    read_text (conduit_env w) = Val content ->
    (In v allowed ->
     py_int (str_of_Z v) = Some v ->
     exists bandwidth : float,
       load_conduit_env
         (conduit_env
            (dispatch env upd_id cq_id chat_id (lit "set_clients_" ++ arg) w).2)
       = Val (v, bandwidth))
    /\ (In v allowed_bw ->
        forall q : float,
          py_float (str_of_Z v) = Some q ->
          exists max_clients : Z,
            load_conduit_env
              (conduit_env
                 (dispatch env upd_id cq_id chat_id (lit "set_bw_" ++ arg) w).2)
            = Val (max_clients, q)).
Proof.
  intros env upd_id cq_id chat_id arg v content w Hpy Hread.
  destruct (preset_press_config env upd_id cq_id chat_id arg v content w Hpy Hread)
    as [Hclients Hbw].
  destruct managed_keys_clean as [Hm Hb].
  split.
  - intros Hv Hback. rewrite (Hclients Hv).
    unfold load_conduit_env. cbn [read_text].
    rewrite load_render
      by (apply dict_set_wf;
          [apply parse_env_wf | exact Hm | apply preset_value_clean; left; exact Hv]).
    rewrite dict_get_set_eq. unfold value_or at 1. rewrite Hback.
    eexists. reflexivity.
  - intros Hv q Hback. rewrite (Hbw Hv).
    unfold load_conduit_env. cbn [read_text].
    rewrite load_render
      by (apply dict_set_wf;
          [apply parse_env_wf | exact Hb | apply preset_value_clean; right; exact Hv]).
    rewrite dict_get_set_eq. unfold value_or at 2. rewrite Hback.
    eexists. reflexivity.
Qed.

(** The owner presses 125 clients and 20 Mbps over a file that held other
    values. *)
Lemma preset_press_read_back_witness :
  let env := quiet_env accepting None in
  let w := mkWorld complete_state None
             (Text (lit "MAX_CLIENTS=50" ++ [10%N] ++ lit "BANDWIDTH=5" ++ [10%N]))
             [] ZERO None in
  (exists bandwidth : float,
      load_conduit_env
        (conduit_env (dispatch env 1 (lit "q") 7 (lit "set_clients_" ++ lit "125") w).2)
      = Val (125, bandwidth))
  /\ (exists max_clients : Z,
         load_conduit_env
           (conduit_env (dispatch env 1 (lit "q") 7 (lit "set_bw_" ++ lit "20") w).2)
         = Val (max_clients, float_of_Z 20)).
Proof.
  cbv zeta. split.
  - refine (proj1 (preset_press_read_back (quiet_env accepting None) 1 (lit "q") 7
                     (lit "125") 125
                     (Some (lit "MAX_CLIENTS=50" ++ [10%N] ++ lit "BANDWIDTH=5"
                            ++ [10%N]))
                     (mkWorld complete_state None
                        (Text (lit "MAX_CLIENTS=50" ++ [10%N] ++ lit "BANDWIDTH=5"
                               ++ [10%N]))
                        [] ZERO None)
                     eq_refl eq_refl) _ eq_refl).
    vm_compute. tauto.
  - refine (proj2 (preset_press_read_back (quiet_env accepting None) 1 (lit "q") 7
                     (lit "20") 20
                     (Some (lit "MAX_CLIENTS=50" ++ [10%N] ++ lit "BANDWIDTH=5"
                            ++ [10%N]))
                     (mkWorld complete_state None
                        (Text (lit "MAX_CLIENTS=50" ++ [10%N] ++ lit "BANDWIDTH=5"
                               ++ [10%N]))
                        [] ZERO None)
                     eq_refl eq_refl) _ (float_of_Z 20) eq_refl).
    vm_compute. tauto.
Defined.

(** ** Startup *)

(** X25. Startup without a stored command desk id (absent or 0) does not
    edit anything: it sends the main desk as a new message, stores the id the
    server returns for it, and saves the state; when the server refuses the
    send the stored ids stay as they were and the state is saved all the
    same. *)
Theorem startup_creates_missing_desk :
  forall (env : Env) (owner_chat_id : Z) (w : World),
    unset (command_message_ids (state w) !! owner_chat_id) = true ->
    let w' := startup env owner_chat_id w in
    let send := SendMessage owner_chat_id CMD_DESK_MAIN_TEXT (Some build_main_keyboard) in
    added w w' = [Api send; SaveState (state w')]
    /\ state_file w' = Some (state w')
    /\ state w'
       = match telegram env (length (trace w)) send with
         | Ok id => record_command_id owner_chat_id id (state w)
         | Err _ => state w
         end.
Proof.
  intros env owner w Hunset. cbv zeta.
  unfold startup, edit_command_desk, request. rewrite Hunset.
  destruct (telegram env _ _) as [id|message];
    (split; [apply added_app; simpl; rewrite <- app_assoc; reflexivity|]);
    split; reflexivity.
Qed.

(** Startup on a state that has a dashboard and a status message but no
    desk. *)
Lemma startup_creates_missing_desk_witness :
  let w' := startup (quiet_env accepting None) 7 (world_of deskless_state) in
  triad (state w') 7 = (Some 11, Some 12, Some 100)
  /\ state_file w' = Some (state w').
Proof.
  cbv zeta.
  destruct (startup_creates_missing_desk (quiet_env accepting None) 7
              (world_of deskless_state) eq_refl) as (_ & Hsaved & Hstate).
  split; [|exact Hsaved].
  rewrite Hstate. reflexivity.
Defined.

(** ** Concrete runs of the properties above *)

(** The bootstrap over a chat that lacks only the desk keeps the dashboard
    id. *)
Lemma ensure_chat_messages_fills_gaps_witness :
  stored_id DashboardSlot
    (state (ensure_chat_messages (quiet_env accepting None) 7 CMD_DESK_MAIN_TEXT []
              (world_of deskless_state))) 7
  = Some 11.
Proof.
  apply (proj1 (proj2 (ensure_chat_messages_fills_gaps (quiet_env accepting None) 7
                         CMD_DESK_MAIN_TEXT [] (world_of deskless_state)))).
  reflexivity.
Defined.

(** A runtime configuration with the four required keys and a comment. *)
Lemma load_runtime_conf_required_witness :
  let file := Text (lit "# runtime" ++ [10%N] ++ lit "BOT_TOKEN=t" ++ [10%N]
                    ++ lit "METRICS_URL = http://127.0.0.1:9090/metrics" ++ [10%N]
                    ++ lit "CONDUIT_ENV_PATH=/etc/conduit.env" ++ [10%N]
                    ++ lit "STATE_DIR=/opt/easyconduit/state" ++ [10%N]) in
  exists conf,
    load_runtime_conf (lit "bot_runtime.conf") file = Val conf
    /\ exists c v, dict_get conf (lit "STATE_DIR") = Some (c :: v).
Proof.
  cbv zeta.
  pose proof (load_runtime_conf_required (lit "bot_runtime.conf")
                (Text (lit "# runtime" ++ [10%N] ++ lit "BOT_TOKEN=t" ++ [10%N]
                       ++ lit "METRICS_URL = http://127.0.0.1:9090/metrics" ++ [10%N]
                       ++ lit "CONDUIT_ENV_PATH=/etc/conduit.env" ++ [10%N]
                       ++ lit "STATE_DIR=/opt/easyconduit/state" ++ [10%N]))) as Hconf.
  destruct (load_runtime_conf _ _) as [conf|e] eqn:E;
    [|vm_compute in E; discriminate E].
  exists conf. split; [reflexivity|].
  destruct Hconf as (raw & _ & _ & Hreq). apply Hreq. vm_compute. tauto.
Defined.

(** The output of [systemctl is-active] ends with a newline. *)
Lemma get_service_status_range_witness :
  get_service_status (Some (lit "inactive" ++ [10%N])) = lit "inactive".
Proof.
  rewrite (proj2 (get_service_status_range None) (lit "inactive") 10%N eq_refl).
  reflexivity.
Defined.
